(** * Forecast-my-park: the prediction proxy, the park listing, the health
    probe and the dashboard's map aggregation

    A shallow embedding of the frontend's server routes and of the
    dashboard callback that feeds the map:
    - [app/api/predict/route.ts], [POST]       (module [PredictRoute]);
    - [app/api/parks/route.ts], [GET]          (module [ParksRoute]);
    - [app/api/health/route.ts], [GET]         (module [HealthRoute]);
    - [lib/parkCoordinates.ts]                 (module [ParkCoordinates]);
    - [types/forecast.ts]                      (one module per interface);
    - [loadMapPredictions] of the dashboard page, [app/page.tsx]
                                               (module [Dashboard]);
    - [loadParks] and [generatePredictions] of the same page
                                               (module [Page]);
    - the markers of [components/InteractiveMap.tsx]
                                               (module [InteractiveMap]).

    The routes and the callback are [async] functions that call [fetch] and
    may throw. They are written in a small monad ([Eff.M]) that carries the
    list of [fetch] calls issued so far together with either the thrown
    error or the value; the network, the clock and the environment are
    arguments. *)

From Stdlib Require Import QArith Qround ZArith Lia Lqa Ascii String.
From stdpp Require Import gmap strings list fin_maps.
From stdpp Require Import pretty.

Local Open Scope string_scope.

(** ** JavaScript values the handlers compute with *)

Module Js.

(** A JSON number is a finite IEEE double; every finite double is a rational
    and [<], [>] and [=== 0] on doubles agree with the rationals, so a number
    read from JSON is a [Q]. *)
Definition number : Type := Q.
Bind Scope Q_scope with number.

(** [!!n] on a number: only zero is falsy ([NaN] never comes out of JSON). *)
Definition truthy_number (n : number) : bool := negb (Qeq_bool n 0).

(** [!!s] on a string: only the empty string is falsy. *)
Definition truthy_string (s : string) : bool :=
  match s with EmptyString => false | String _ _ => true end.

(** [!!v] of a property that may be absent ([undefined]) or [null]. *)
Definition truthy {A : Type} (t : A -> bool) (v : option A) : bool :=
  match v with None => false | Some a => t a end.

(** [!!a] of an array or an object reference: always true. *)
Definition truthy_object {A : Type} (_ : A) : bool := true.

(** [a < b] and [a > b] on numbers. *)
Definition lt (a b : number) : bool := negb (Qle_bool b a).
Definition gt (a b : number) : bool := lt b a.

(** [v < n] and [v > n] where [v] may be [undefined]: [undefined] converts to
    [NaN] and every comparison with [NaN] is false. *)
Definition lt_opt (v : option number) (n : number) : bool :=
  match v with Some a => lt a n | None => false end.
Definition gt_opt (v : option number) (n : number) : bool :=
  match v with Some a => gt a n | None => false end.

(** [v || d] on strings. *)
Definition or_string (v : option string) (d : string) : string :=
  match v with
  | Some s => if truthy_string s then s else d
  | None => d
  end.

(** [hay.includes(needle)]. *)
Fixpoint includes (needle hay : string) : bool :=
  String.prefix needle hay ||
  match hay with
  | EmptyString => false
  | String _ rest => includes needle rest
  end.

(** What a [catch] clause can tell about the value it caught. *)
Inductive ErrorClass : Type :=
| TypeErrorClass   (* instanceof TypeError (hence instanceof Error) *)
| OtherErrorClass  (* instanceof Error only: SyntaxError, DOMException, ... *)
| NotAnErrorClass. (* any other thrown value *)

Record JsError : Type := mkError {
  err_class : ErrorClass;
  err_name : string;
  err_message : string
}.

Definition instanceof_TypeError (e : JsError) : bool :=
  match err_class e with TypeErrorClass => true | _ => false end.

Definition instanceof_Error (e : JsError) : bool :=
  match err_class e with NotAnErrorClass => false | _ => true end.

(** The error of reading a property of [null]. *)
Definition null_property_error (prop : string) : JsError :=
  mkError TypeErrorClass "TypeError"
    ("Cannot read properties of null (reading '" ++ prop ++ "')").

End Js.

(** ** [types/forecast.ts] *)

Module VisitorStats.
Record t : Type := mk {
  min_visitors : Js.number;
  max_visitors : Js.number;
  avg_visitors : Js.number
}.
End VisitorStats.

Module ParkMetadata.
Record t : Type := mk {
  avg_temperature_high : option Js.number;
  avg_precipitation : option Js.number;
  most_common_weather : option string;
  weekend_ratio : option string;
  holiday_ratio : option string;
  school_session_ratio : option string;
  avg_seasonal_factor : option Js.number;
  most_common_visitor_category : option string;
  total_data_points : option Js.number;
  earliest_date : option string;
  latest_date : option string
}.
End ParkMetadata.

(** [interface Park]; an optional property that is [None] is absent from the
    object (and dropped by [JSON.stringify] when it is [undefined]). *)
Module Park.
Record t : Type := mk {
  park_id : string;
  name : string;
  state : string;
  region : string;
  park_type : string;
  has_model : bool;
  data_available : option bool;
  last_training : option string;
  latitude : option Js.number;
  longitude : option Js.number;
  visitor_stats : option VisitorStats.t;
  metadata : option ParkMetadata.t
}.
End Park.

(** [interface PredictionRequest] as it arrives in a request body: the type
    annotation is erased at run time, so each property may be absent. *)
Module PredictionRequest.
Record t : Type := mk {
  park_id : option string;
  start_date : option string;
  days_ahead : option Js.number
}.
End PredictionRequest.

Module PredictionPoint.
Record t : Type := mk {
  ds : string;
  yhat : Js.number;
  yhat_lower : Js.number;
  yhat_upper : Js.number;
  temperature_high : option Js.number;
  weather_condition : option string;
  confidence_level : option Js.number
}.
End PredictionPoint.

Module ModelPerformance.
Record t : Type := mk {
  mape : Js.number;
  mae : Js.number;
  rmse : Js.number
}.
End ModelPerformance.

(** [interface PredictionResponse]; [park_id] holds [body.park_id] as it
    was received. *)
Module PredictionResponse.
Record t : Type := mk {
  predictions : list PredictionPoint.t;
  park_id : option string;
  confidence_level : Js.number;
  model_performance : option ModelPerformance.t
}.
End PredictionResponse.

(** [interface HealthResponse], the body of the upstream [/health]. *)
Module HealthResponse.
Record t : Type := mk {
  status : option string;
  timestamp : option string;
  ml_service_status : option string;
  models_loaded : option Js.number;
  database_connected : option bool
}.
End HealthResponse.

(** ** The Fetch API and the effect monad *)

Module Fetch.

(** One call of [fetch(url, {method, body, signal: AbortSignal.timeout(ms)})]. *)
Record Call : Type := mkCall {
  url : string;
  method : string;
  body : option PredictionRequest.t;
  timeout_ms : option Z
}.

(** A [Response]. [text] is what [await response.text()] settles with and
    [json] what [await response.json()] settles with: either can reject (a
    body stream that breaks off; for [json] also a body that does not parse
    as a [J]). A handler reads at most one of the two. *)
Record Response (J : Type) : Type := mkResponse {
  status : Z;
  statusText : string;
  text : Js.JsError + string;
  json : Js.JsError + J
}.
Arguments mkResponse {J} _ _ _ _.
Arguments status {J} _.
Arguments statusText {J} _.
Arguments text {J} _.
Arguments json {J} _.

(** [response.ok]. *)
Definition ok {J : Type} (r : Response J) : bool :=
  (200 <=? status r)%Z && (status r <=? 299)%Z.

(** The network as the handler sees it: a call either rejects or resolves. *)
Definition Network (J : Type) : Type := Call -> Js.JsError + Response J.

End Fetch.

Module Eff.

(** A computation: the calls issued, and a thrown error or a value. *)
Definition M (A : Type) : Type := list Fetch.Call * (Js.JsError + A).

Definition ret {A : Type} (a : A) : M A := ([], inr a).

Definition throw {A : Type} (e : Js.JsError) : M A := ([], inl e).

Definition bind {A B : Type} (m : M A) (f : A -> M B) : M B :=
  match m with
  | (log, inl e) => (log, inl e)
  | (log, inr a) => let (log', r) := f a in ((log ++ log')%list, r)
  end.

(** [await] of a promise that is already settled (a body being parsed). *)
Definition await {A : Type} (r : Js.JsError + A) : M A := ([], r).

(** [await fetch(...)]: the call is logged, then it rejects or resolves. *)
Definition fetch {J : Type} (net : Fetch.Network J) (c : Fetch.Call)
  : M (Fetch.Response J) := ([c], net c).

(** [try { m } catch (error) { handler error }]. *)
Definition try_catch {A : Type} (m : M A) (handler : Js.JsError -> M A) : M A :=
  match m with
  | (log, inl e) => let (log', r) := handler e in ((log ++ log')%list, r)
  | (log, inr a) => (log, inr a)
  end.

(** [await Promise.all(ps)] over promises started in list order: the first
    rejection rejects the whole; every call was issued all the same. *)
Fixpoint all {A : Type} (ps : list (M A)) : M (list A) :=
  match ps with
  | [] => ret []
  | p :: rest =>
      match p, all rest with
      | (log, inr a), (log', inr l) => ((log ++ log')%list, inr (a :: l))
      | (log, inl e), (log', _) => ((log ++ log')%list, inl e)
      | (log, inr _), (log', inl e) => ((log ++ log')%list, inl e)
      end
  end.

Definition calls {A : Type} (m : M A) : list Fetch.Call := fst m.
Definition outcome {A : Type} (m : M A) : Js.JsError + A := snd m.

End Eff.

Notation "'let*' x ':=' m 'in' k" := (Eff.bind m (fun x => k))
  (at level 10, x name, m at level 100, k at level 200).

(** [NextResponse.json]. A response object is a body and a status; [json b
    st] is the object the call [NextResponse.json(b, {status: st})] returns
    when it returns, [json_ok b] the one of [NextResponse.json(b)]. The
    call itself is [respond]: [Response.json] underneath refuses a status
    outside 200..599 with a [RangeError] and, a body being given, a status
    that admits none (101, 103, 204, 205, 304; the first two are out of the
    range already) with a [TypeError]. The messages are those of Node; a
    [catch] clause of the routes only looks at the class, at the name and
    at whether the message mentions [fetch], which neither does. *)
Module NextResponse.
Record t (B : Type) : Type := mk {
  body : B;
  status : Z
}.
Arguments mk {B} _ _.
Arguments body {B} _.
Arguments status {B} _.
Definition json {B : Type} (b : B) (st : Z) : t B := mk b st.
Definition json_ok {B : Type} (b : B) : t B := mk b 200.

Definition in_status_range (st : Z) : bool :=
  (200 <=? st)%Z && (st <=? 599)%Z.

Definition null_body_status (st : Z) : bool :=
  (st =? 101)%Z || (st =? 103)%Z || (st =? 204)%Z || (st =? 205)%Z
  || (st =? 304)%Z.

Definition double_quote : string := String (ascii_of_nat 34) EmptyString.

Definition status_range_error : Js.JsError :=
  Js.mkError Js.OtherErrorClass "RangeError"
    ("init[" ++ double_quote ++ "status" ++ double_quote
     ++ "] must be in the range of 200 to 599, inclusive.").

Definition null_body_error (st : Z) : Js.JsError :=
  Js.mkError Js.TypeErrorClass "TypeError"
    ("Response constructor: Invalid response status code " ++ pretty st).

(** A status [NextResponse.json] accepts together with a body. *)
Definition accepted (st : Z) : bool :=
  in_status_range st && negb (null_body_status st).

(** [NextResponse.json(b, {status: st})]. *)
Definition respond {B : Type} (b : B) (st : Z) : Eff.M (t B) :=
  if negb (in_status_range st) then Eff.throw status_range_error
  else if null_body_status st then Eff.throw (null_body_error st)
  else Eff.ret (json b st).

(** [NextResponse.json(b)]. *)
Definition respond_ok {B : Type} (b : B) : Eff.M (t B) := respond b 200.
End NextResponse.

(** [process.env] as the routes read it. *)
Module Env.
Record t : Type := mk {
  ML_SERVICE_URL : option string;
  NEXT_PUBLIC_APP_VERSION : option string;
  NODE_ENV : option string
}.
End Env.

(** [const ML_SERVICE_URL = process.env.ML_SERVICE_URL || 'http://localhost:8000'] *)
Definition ML_SERVICE_URL (env : Env.t) : string :=
  Js.or_string (Env.ML_SERVICE_URL env) "http://localhost:8000".

(** ** [app/api/predict/route.ts] *)

Module MLServicePrediction.
Record t : Type := mk {
  date : string;
  predicted_visitors : Js.number;
  lower_bound : Js.number;
  upper_bound : Js.number;
  confidence_interval : string
}.
End MLServicePrediction.

(** [predictions] is [None] for [null]. *)
Module MLServiceResponse.
Record t : Type := mk {
  success : bool;
  park_id : string;
  predictions : option (list MLServicePrediction.t);
  error : option string
}.
End MLServiceResponse.

(** The JSON bodies the route answers with. *)
Module PredictJson.
Record Success : Type := mkSuccess {
  response_data : PredictionResponse.t;   (* [...response_data] *)
  timestamp : string;
  request_params : PredictionRequest.t
}.
Inductive t : Type :=
| Error (error : string)
| Ok (s : Success).
End PredictJson.

Module PredictRoute.

Definition missing_fields_message : string :=
  "Missing required fields: park_id, start_date, days_ahead".
Definition days_ahead_range_message : string :=
  "days_ahead must be between 1 and 365".
Definition unavailable_message : string :=
  "ML service is currently unavailable. Please try again later.".
Definition connect_message : string :=
  "Unable to connect to ML service. Please check if the service is running.".
Definition timeout_message : string :=
  "ML service request timed out. Please try again.".
Definition unexpected_message : string :=
  "An unexpected error occurred while generating predictions.".

(** The callback of [mlResponse.predictions.map]. *)
Definition translate (pred : MLServicePrediction.t) : PredictionPoint.t :=
  PredictionPoint.mk
    (MLServicePrediction.date pred)
    (MLServicePrediction.predicted_visitors pred)
    (MLServicePrediction.lower_bound pred)
    (MLServicePrediction.upper_bound pred)
    None None None.

(** The [catch (error)] clause. *)
Definition on_error (error : Js.JsError)
  : Eff.M (NextResponse.t PredictJson.t) :=
  if Js.instanceof_TypeError error && Js.includes "fetch" (Js.err_message error)
  then NextResponse.respond (PredictJson.Error connect_message) 503
  else if Js.instanceof_Error error && String.eqb (Js.err_name error) "AbortError"
  then NextResponse.respond (PredictJson.Error timeout_message) 504
  else NextResponse.respond (PredictJson.Error unexpected_message) 500.

(** The [try] block. [request_json] is [await request.json()]; [now] is
    [new Date().toISOString()]. *)
Definition POST_try (env : Env.t) (now : string)
    (net : Fetch.Network MLServiceResponse.t)
    (request_json : Js.JsError + PredictionRequest.t)
  : Eff.M (NextResponse.t PredictJson.t) :=
  let* body := Eff.await request_json in
  if negb (Js.truthy Js.truthy_string (PredictionRequest.park_id body))
     || negb (Js.truthy Js.truthy_string (PredictionRequest.start_date body))
     || negb (Js.truthy Js.truthy_number (PredictionRequest.days_ahead body))
  then NextResponse.respond (PredictJson.Error missing_fields_message) 400
  else
  if Js.lt_opt (PredictionRequest.days_ahead body) 1
     || Js.gt_opt (PredictionRequest.days_ahead body) 365
  then NextResponse.respond (PredictJson.Error days_ahead_range_message) 400
  else
  let* response :=
    Eff.fetch net
      (Fetch.mkCall (ML_SERVICE_URL env ++ "/predict") "POST" (Some body)
         (Some 30000%Z)) in
  if negb (Fetch.ok response) then
    let* errorText := Eff.await (Fetch.text response) in
    if (Fetch.status response >=? 500)%Z
    then NextResponse.respond (PredictJson.Error unavailable_message) 503
    else NextResponse.respond
           (PredictJson.Error ("ML service error: " ++ errorText))
           (Fetch.status response)
  else
  let* mlResponse := Eff.await (Fetch.json response) in
  if negb (MLServiceResponse.success mlResponse)
     || negb (Js.truthy Js.truthy_object (MLServiceResponse.predictions mlResponse))
  then NextResponse.respond
         (PredictJson.Error
            (Js.or_string (MLServiceResponse.error mlResponse)
               "Failed to generate predictions"))
         400
  else
  match MLServiceResponse.predictions mlResponse with
  | None => Eff.throw (Js.null_property_error "map")
  | Some upstream_predictions =>
      let predictions := List.map translate upstream_predictions in
      let response_data :=
        PredictionResponse.mk predictions (PredictionRequest.park_id body)
          80%Q (Some (ModelPerformance.mk 0%Q 0%Q 0%Q)) in
      NextResponse.respond_ok
        (PredictJson.Ok (PredictJson.mkSuccess response_data now body))
  end.

(** [export async function POST(request)]. *)
Definition POST (env : Env.t) (now : string)
    (net : Fetch.Network MLServiceResponse.t)
    (request_json : Js.JsError + PredictionRequest.t)
  : Eff.M (NextResponse.t PredictJson.t) :=
  Eff.try_catch (POST_try env now net request_json) on_error.

End PredictRoute.

(** ** [lib/parkCoordinates.ts] *)

Module Coordinates.
Record t : Type := mk {
  lat : Js.number;
  lng : Js.number
}.
End Coordinates.

Module ParkCoordinates.
Import Coordinates.
Local Open Scope Q_scope.

(** The entries of the object literal, in source order. *)
Definition entries : list (string * Coordinates.t) :=
[
  ("YELL", mk 44.428 (-110.588));
  ("GRCA", mk 36.1069 (-112.1129));
  ("YOSE", mk 37.8651 (-119.5383));
  ("ZION", mk 37.2982 (-113.0263));
  ("ACAD", mk 44.35 (-68.21));
  ("ARCH", mk 38.68 (-109.57));
  ("ROMO", mk 40.4 (-105.58));
  ("GRSM", mk 35.6117 (-83.4895));
  ("OLYM", mk 47.8021 (-123.6044));
  ("GLAC", mk 48.7596 (-113.787));
  ("DEVA", mk 36.5054 (-117.0794));
  ("JOTR", mk 33.8734 (-115.901));
  ("BAND", mk 35.7781 (-106.2708));
  ("CACO", mk 42.0699 (-70.0464));
  ("STLI", mk 40.6892 (-74.0445));
  ("GLEN", mk 37.0042 (-111.1892));
  ("LAME", mk 36.0905 (-114.7366));
  ("CURE", mk 38.4619 (-107.1817));
  ("CAHA", mk 35.2590 (-75.5277));
  ("ASIS", mk 38.0593 (-75.1458));
  ("INDE", mk 39.9496 (-75.1503));
  ("COLO", mk 37.2707 (-76.6135));
  ("BOST", mk 42.3601 (-71.0589));
  ("GETT", mk 39.8309 (-77.2361));
  ("ANTI", mk 39.4618 (-77.7311));
  ("BRCA", mk 37.5930 (-112.1871));
  ("CANY", mk 38.2 (-109.93));
  ("CARE", mk 38.0877 (-111.1660));
  ("REDW", mk 41.2132 (-124.0046));
  ("SHEN", mk 38.2928 (-78.6795));
  ("BADL", mk 43.8554 (-101.9777));
  ("EVER", mk 25.2866 (-80.8987));
  ("ABLI", mk 37.5429 (-85.6739));
  ("ADAM", mk 42.2553 (-71.0275));
  ("AFBG", mk 40.7150 (-74.0042));
  ("AGFO", mk 42.4186 (-103.7273));
  ("ALFL", mk 35.5669 (-101.6719));
  ("AMIS", mk 29.5255 (-101.0769));
  ("ANIA", mk 56.8987 (-158.6114));
  ("APCO", mk 37.3760 (-78.7959));
  ("AZRU", mk 36.8389 (-107.9983));
  ("BEPA", mk 38.9072 (-77.0369));
  ("BIBE", mk 29.1275 (-103.2425));
  ("BICA", mk 45.0293 (-108.1618));
  ("BICR", mk 33.5186 (-86.8104));
  ("BISC", mk 25.4390 (-80.4017));
  ("BLCA", mk 38.5753 (-107.7018));
  ("BLRV", mk 42.1341 (-71.1636));
  ("BOWA", mk 37.1214 (-79.9081));
  ("BOHA", mk 42.3398 (-70.9661));
  ("BRVB", mk 39.0409 (-95.6890));
  ("BUIS", mk 17.7539 (-64.6255));
  ("CABR", mk 32.6722 (-117.2417));
  ("CANE", mk 37.7862 (-84.5985));
  ("CANA", mk 28.8123 (-80.8101));
  ("CARI", mk 31.0407 (-93.0096));
  ("CACH", mk 36.1490 (-109.3389));
  ("CALO", mk 34.6204 (-76.5197));
  ("CAVO", mk 36.7828 (-103.9705));
  ("CIBS", mk 40.2019 (-77.1956));
  ("CAVE", mk 32.1478 (-104.5567));
  ("CAGR", mk 32.4797 (-111.5375));
  ("CASA", mk 29.8974 (-81.3123));
  ("CACL", mk 40.7033 (-74.0170));
  ("CAMO", mk 35.2917 (-115.0881));
  ("CEBR", mk 37.6283 (-112.8453));
  ("CEBE", mk 39.0052 (-78.3086));
  ("CAME", mk 36.9212 (-76.0051));
  ("CAKR", mk 67.4162 (-163.1524));
  ("CHCU", mk 36.0544 (-107.9914));
  ("CHIS", mk 34.0069 (-119.7785))
].

(** [PARK_COORDINATES]: a later entry of an object literal would replace an
    earlier one with the same key. *)
Definition PARK_COORDINATES : gmap string Coordinates.t :=
  fold_left (fun m kv => <[kv.1 := kv.2]> m) entries ∅.

(** [PARK_COORDINATES[id]?.lat] and [?.lng]. A key the literal lacks yields
    [undefined], or a member of [Object.prototype], which has neither
    property: both give [undefined]. *)
Definition lookup_lat (id : string) : option Js.number :=
  lat <$> (PARK_COORDINATES !! id).
Definition lookup_lng (id : string) : option Js.number :=
  lng <$> (PARK_COORDINATES !! id).

End ParkCoordinates.

(** ** [app/api/parks/route.ts] *)

Module ParksJson.
Record Listing : Type := mkListing {
  parks : list Park.t;
  total : nat;
  timestamp : string
}.
Inductive t : Type :=
| Error (error : string)
| Ok (l : Listing).
End ParksJson.

Module ParksRoute.

Definition unavailable_message : string :=
  "ML service is currently unavailable. Please try again later.".
Definition connect_message : string :=
  "Unable to connect to ML service. Please check if the service is running.".
Definition timeout_message : string :=
  "ML service request timed out. Please try again.".
Definition unexpected_message : string :=
  "An unexpected error occurred while fetching parks.".

(** The callback of [parks.map]: [{...park, latitude: coordinates?.lat,
    longitude: coordinates?.lng}]. The two properties are written after the
    spread, so they replace whatever [park] carried. *)
Definition add_coordinates (park : Park.t) : Park.t :=
  Park.mk
    (Park.park_id park) (Park.name park) (Park.state park) (Park.region park)
    (Park.park_type park) (Park.has_model park) (Park.data_available park)
    (Park.last_training park)
    (ParkCoordinates.lookup_lat (Park.park_id park))
    (ParkCoordinates.lookup_lng (Park.park_id park))
    (Park.visitor_stats park) (Park.metadata park).

(** The callback of the [filter]: [park.latitude && park.longitude]. *)
Definition has_coords (park : Park.t) : bool :=
  Js.truthy Js.truthy_number (Park.latitude park)
  && Js.truthy Js.truthy_number (Park.longitude park).

Definition on_error (error : Js.JsError)
  : Eff.M (NextResponse.t ParksJson.t) :=
  if Js.instanceof_TypeError error && Js.includes "fetch" (Js.err_message error)
  then NextResponse.respond (ParksJson.Error connect_message) 503
  else if Js.instanceof_Error error && String.eqb (Js.err_name error) "AbortError"
  then NextResponse.respond (ParksJson.Error timeout_message) 504
  else NextResponse.respond (ParksJson.Error unexpected_message) 500.

Definition GET_try (env : Env.t) (now : string)
    (net : Fetch.Network (list Park.t))
  : Eff.M (NextResponse.t ParksJson.t) :=
  let* response :=
    Eff.fetch net
      (Fetch.mkCall (ML_SERVICE_URL env ++ "/parks") "GET" None (Some 10000%Z)) in
  if negb (Fetch.ok response) then
    if (Fetch.status response >=? 500)%Z
    then NextResponse.respond (ParksJson.Error unavailable_message) 503
    else
      let* errorText := Eff.await (Fetch.text response) in
      NextResponse.respond
        (ParksJson.Error ("ML service error: " ++ errorText))
        (Fetch.status response)
  else
  let* parks := Eff.await (Fetch.json response) in
  let parksWithCoordinates := List.map add_coordinates parks in
  let parksWithCoords := List.filter has_coords parksWithCoordinates in
  NextResponse.respond_ok
    (ParksJson.Ok
       (ParksJson.mkListing parksWithCoordinates
          (length parksWithCoordinates) now)).

(** [export async function GET()]. *)
Definition GET (env : Env.t) (now : string)
    (net : Fetch.Network (list Park.t))
  : Eff.M (NextResponse.t ParksJson.t) :=
  Eff.try_catch (GET_try env now net) on_error.

End ParksRoute.

(** ** [app/api/health/route.ts] *)

Module HealthJson.
Module Frontend.
Record t : Type := mk {
  status : string;
  version : string
}.
End Frontend.
Module MlService.
Record t : Type := mk {
  status : option string;
  url : string;
  models_loaded : Js.number;
  database_connected : bool
}.
End MlService.
Record t : Type := mk {
  status : string;
  timestamp : string;
  frontend : Frontend.t;
  ml_service : MlService.t;
  response_time_ms : Z;
  environment : string
}.
End HealthJson.

Module HealthRoute.

(** The three [let] variables the [try] statement assigns. *)
Record Probe : Type := mkProbe {
  mlServiceStatus : option string;
  mlModelsLoaded : Js.number;
  dbConnected : bool
}.

(** [mlHealth.models_loaded || 0] and [mlHealth.database_connected || false]. *)
Definition or_zero (v : option Js.number) : Js.number :=
  match v with
  | Some n => if Js.truthy_number n then n else 0%Q
  | None => 0%Q
  end.
Definition or_false (v : option bool) : bool :=
  match v with Some b => b | None => false end.

(** [s === 'healthy'] for a value that may be [undefined]. *)
Definition is_healthy (s : option string) : bool :=
  match s with Some v => String.eqb v "healthy" | None => false end.

(** The [try ... catch] statement. Nothing is assigned before the only
    points that can throw ([fetch] and [response.json()]), so the [catch]
    clause finds the two counters at their initial values. *)
Definition probe (env : Env.t) (net : Fetch.Network HealthResponse.t)
  : Eff.M Probe :=
  Eff.try_catch
    (let* response :=
       Eff.fetch net
         (Fetch.mkCall (ML_SERVICE_URL env ++ "/health") "GET" None
            (Some 5000%Z)) in
     if Fetch.ok response then
       let* mlHealth := Eff.await (Fetch.json response) in
       Eff.ret (mkProbe (HealthResponse.status mlHealth)
                  (or_zero (HealthResponse.models_loaded mlHealth))
                  (or_false (HealthResponse.database_connected mlHealth)))
     else Eff.ret (mkProbe (Some "error") 0%Q false))
    (fun _ => Eff.ret (mkProbe (Some "unavailable") 0%Q false)).

(** [export async function GET()]; [startTime] and [endTime] are the two
    readings of [Date.now()], [now] is [new Date().toISOString()]. *)
Definition GET (env : Env.t) (startTime endTime : Z) (now : string)
    (net : Fetch.Network HealthResponse.t)
  : Eff.M (NextResponse.t HealthJson.t) :=
  let* p := probe env net in
  let responseTime := (endTime - startTime)%Z in
  let healthData :=
    HealthJson.mk
      (if is_healthy (mlServiceStatus p) then "healthy" else "degraded")
      now
      (HealthJson.Frontend.mk "healthy"
         (Js.or_string (Env.NEXT_PUBLIC_APP_VERSION env) "1.0.0"))
      (HealthJson.MlService.mk (mlServiceStatus p) (ML_SERVICE_URL env)
         (mlModelsLoaded p) (dbConnected p))
      responseTime
      (Js.or_string (Env.NODE_ENV env) "development") in
  let statusCode := if is_healthy (mlServiceStatus p) then 200%Z else 503%Z in
  NextResponse.respond healthData statusCode.

End HealthRoute.

(** ** [new Date(s).getTime()] for the date-only form *)

Module JsDate.
Local Open Scope Z_scope.

Definition digit (c : ascii) : option Z :=
  let n := Z.of_N (N_of_ascii c) in
  if (48 <=? n) && (n <=? 57) then Some (n - 48) else None.

Definition is_leap (y : Z) : bool :=
  ((y mod 4 =? 0) && negb (y mod 100 =? 0)) || (y mod 400 =? 0).

Definition days_in_month (y m : Z) : Z :=
  if m =? 2 then (if is_leap y then 29 else 28)
  else if (m =? 4) || (m =? 6) || (m =? 9) || (m =? 11) then 30
  else 31.

(** Days from 1970-01-01 to the civil date [y]-[m]-[d]. *)
Definition days_from_civil (y m d : Z) : Z :=
  let y' := if m <=? 2 then y - 1 else y in
  let era := y' / 400 in
  let yoe := y' - era * 400 in
  let mp := if m <=? 2 then m + 9 else m - 3 in
  let doy := (153 * mp + 2) / 5 + d - 1 in
  let doe := yoe * 365 + yoe / 4 - yoe / 100 + doy in
  era * 146097 + doe - 719468.

(** The time value of [new Date(s)] for [s] of the form [YYYY-MM-DD]: UTC
    midnight of that day, in milliseconds. [None] is [NaN] (Invalid Date).
    The dashboard only passes the value of a date input or the output of
    [format(..., 'yyyy-MM-dd')]: a calendar date in this form, or the empty
    string; what a host makes of other strings is not modelled. *)
Definition parse (s : string) : option Z :=
  match s with
  | String y1 (String y2 (String y3 (String y4 (String "-"
      (String m1 (String m2 (String "-"
         (String d1 (String d2 EmptyString))))))))) =>
      match digit y1, digit y2, digit y3, digit y4,
            digit m1, digit m2, digit d1, digit d2 with
      | Some a, Some b, Some c, Some e, Some f, Some g, Some h, Some i =>
          let y := 1000 * a + 100 * b + 10 * c + e in
          let m := 10 * f + g in
          let d := 10 * h + i in
          if (1 <=? m) && (m <=? 12) && (1 <=? d) && (d <=? days_in_month y m)
          then Some (days_from_civil y m d * 86400000)
          else None
      | _, _, _, _, _, _, _, _ => None
      end
  | _ => None
  end.

End JsDate.

(** ** A plain object used as a dictionary *)

Module PlainObject.

(** An object that starts as the literal [{}] and is written only by
    [o[k] = v] with [v] a parsed answer (an object; the answers modelled
    here have no property named [__proto__] of their own). It is kept as
    the finite map of what was last assigned under each name. An assignment
    under any name but [__proto__] creates or replaces an own property. An
    assignment under [__proto__] finds the setter that [Object.prototype]
    provides: it creates no own property and makes [v] the prototype of
    the object. So the entry under [__proto__], when there is one, is the
    prototype, and the other entries are the own properties. *)
Abbreviation t := (gmap string) (only parsing).

Definition proto_key : string := "__proto__".

(** [{}] and [o[k] = v]. *)
Definition empty {V : Type} : t V := ∅.
Definition assign {V : Type} (k : string) (v : V) (o : t V) : t V :=
  <[k := v]> o.

(** The own properties, and the prototype when one was assigned ([None]:
    the prototype is still [Object.prototype]). *)
Definition own {V : Type} (o : t V) : gmap string V := delete proto_key o.
Definition prototype {V : Type} (o : t V) : option V := o !! proto_key.

(** The names of the methods of [Object.prototype]. *)
Definition object_prototype_methods : list string :=
  [ "constructor"; "__defineGetter__"; "__defineSetter__"; "hasOwnProperty";
    "__lookupGetter__"; "__lookupSetter__"; "isPrototypeOf";
    "propertyIsEnumerable"; "toString"; "valueOf"; "toLocaleString" ].

(** What [o[k]] evaluates to. *)
Inductive Value (V : Type) : Type :=
| undefined
| stored (v : V)
    (* an own property, or the assigned prototype read through [__proto__] *)
| builtin
    (* a method of [Object.prototype], or [Object.prototype] itself: an
       object, so truthy, with no property of an answer *)
| inherited (v : V) (k : string).
    (* [v[k]] for the assigned prototype [v]: whatever the parsed answer
       carries under the name [k], or what [Object.prototype] has *)
Arguments undefined {V}.
Arguments stored {V} _.
Arguments builtin {V}.
Arguments inherited {V} _ _.

(** [o[k]]: the accessor [__proto__] gives the prototype; otherwise an own
    property wins, and a name that is not one is looked up along the
    prototype chain. *)
Definition get {V : Type} (o : t V) (k : string) : Value V :=
  if String.eqb k proto_key then
    match prototype o with
    | Some v => stored v
    | None => builtin
    end
  else
    match own o !! k with
    | Some v => stored v
    | None =>
        match prototype o with
        | Some v => inherited v k
        | None =>
            if bool_decide (k ∈ object_prototype_methods) then builtin
            else undefined
        end
    end.

End PlainObject.

(** ** [loadMapPredictions] of [app/page.tsx] *)

Module Dashboard.

(** The React state [loadMapPredictions] writes. *)
Record State : Type := mkState {
  mapPredictions : PlainObject.t PredictJson.t;
  mapPredictionsLoading : bool;
  error : option string
}.

Definition setMapPredictionsLoading (b : bool) (st : State) : State :=
  mkState (mapPredictions st) b (error st).
Definition setError (e : option string) (st : State) : State :=
  mkState (mapPredictions st) (mapPredictionsLoading st) e.
Definition setMapPredictions (m : PlainObject.t PredictJson.t) (st : State)
  : State :=
  mkState m (mapPredictionsLoading st) (error st).

Definition baseDate : string := "2025-07-04".

Definition load_failed_message : string :=
  "Failed to load some predictions for map view".

(** [Math.ceil((selectedDateTime.getTime() - baseDateTime.getTime()) /
    (1000 * 60 * 60 * 24))]; [None] is [NaN]. *)
Definition daysFromBase (selectedMapDate : string) : option Z :=
  match JsDate.parse selectedMapDate, JsDate.parse baseDate with
  | Some selected, Some base =>
      Some (Qceiling (inject_Z (selected - base)
                      / inject_Z (1000 * 60 * 60 * 24)))
  | _, _ => None
  end.

(** [Math.max(1, daysFromBase + 1)] as [JSON.stringify] writes it: a number,
    or [null] for [NaN]. *)
Definition days_ahead (selectedMapDate : string) : option Js.number :=
  (fun d => inject_Z (Z.max 1 (d + 1))) <$> daysFromBase selectedMapDate.

(** [const request: PredictionRequest = {...}] as sent. *)
Definition request (park : Park.t) (selectedMapDate : string)
  : PredictionRequest.t :=
  PredictionRequest.mk (Some (Park.park_id park)) (Some baseDate)
    (days_ahead selectedMapDate).

(** [if (data.predictions) data.predictions = data.predictions.filter(pred
    => pred.ds === selectedMapDate)]: an error body has no [predictions]. *)
Definition keep_selected (selectedMapDate : string) (data : PredictJson.t)
  : PredictJson.t :=
  match data with
  | PredictJson.Error _ => data
  | PredictJson.Ok s =>
      let r := PredictJson.response_data s in
      PredictJson.Ok
        (PredictJson.mkSuccess
           (PredictionResponse.mk
              (List.filter
                 (fun pred => String.eqb (PredictionPoint.ds pred) selectedMapDate)
                 (PredictionResponse.predictions r))
              (PredictionResponse.park_id r)
              (PredictionResponse.confidence_level r)
              (PredictionResponse.model_performance r))
           (PredictJson.timestamp s) (PredictJson.request_params s))
  end.

(** The [async (park) => { try {...} catch (err) { return null; } }]
    callback of [parksWithModels.map]. *)
Definition predictionPromise (net : Fetch.Network PredictJson.t)
    (selectedMapDate : string) (park : Park.t)
  : Eff.M (option (string * PredictJson.t)) :=
  Eff.try_catch
    (let request := request park selectedMapDate in
     let* response :=
       Eff.fetch net (Fetch.mkCall "/api/predict" "POST" (Some request) None) in
     if Fetch.ok response then
       let* data := Eff.await (Fetch.json response) in
       let data := keep_selected selectedMapDate data in
       Eff.ret (Some (Park.park_id park, data))
     else Eff.ret None)
    (fun _ => Eff.ret None).

(** [results.forEach(result => { if (result) newMapPredictions[result.park_id]
    = result.data })] from the empty object. *)
Definition collect (results : list (option (string * PredictJson.t)))
  : PlainObject.t PredictJson.t :=
  fold_left
    (fun newMapPredictions result =>
       match result with
       | Some (park_id, data) =>
           PlainObject.assign park_id data newMapPredictions
       | None => newMapPredictions
       end)
    results PlainObject.empty.

(** The inside of the outer [try], up to the argument of
    [setMapPredictions]. *)
Definition gather (net : Fetch.Network PredictJson.t) (parks : list Park.t)
    (selectedMapDate : string)
  : Eff.M (PlainObject.t PredictJson.t) :=
  let parksWithModels := List.filter Park.has_model parks in
  let predictionPromises :=
    List.map (predictionPromise net selectedMapDate) parksWithModels in
  let* results := Eff.all predictionPromises in
  Eff.ret (collect results).

(** [loadMapPredictions]: the state it leaves, with the calls it issued. *)
Definition loadMapPredictions (net : Fetch.Network PredictJson.t)
    (parks : list Park.t) (selectedMapDate : string) (st : State)
  : list Fetch.Call * State :=
  let st := setMapPredictionsLoading true st in
  let st := setError None st in
  let run := gather net parks selectedMapDate in
  let st :=
    match Eff.outcome run with
    | inr newMapPredictions => setMapPredictions newMapPredictions st
    | inl _ => setError (Some load_failed_message) st
    end in
  (Eff.calls run, setMapPredictionsLoading false st).

End Dashboard.

(** ** The browser's view of [POST /api/predict] *)

Module Api.

(** What [request.json()] yields for the body of a call. *)
Definition request_json (c : Fetch.Call) : Js.JsError + PredictionRequest.t :=
  match Fetch.body c with
  | Some b => inr b
  | None => inl (Js.mkError Js.OtherErrorClass "SyntaxError"
                   "Unexpected end of JSON input")
  end.

(** The network the dashboard talks to when its calls reach the route and
    the route talks to [upstream]: a [POST] to [/api/predict] is answered by
    [PredictRoute.POST]; [link c = false] is a call that never reaches the
    server and rejects. The dashboard reads [ok] and [json()] only, so the
    raw [text] and [statusText] of the answer are left empty. *)
Definition network (env : Env.t) (now : string) (link : Fetch.Call -> bool)
    (upstream : Fetch.Network MLServiceResponse.t)
  : Fetch.Network PredictJson.t :=
  fun c =>
    if negb (link c) then
      inl (Js.mkError Js.TypeErrorClass "TypeError" "Failed to fetch")
    else if String.eqb (Fetch.url c) "/api/predict"
            && String.eqb (Fetch.method c) "POST" then
      match Eff.outcome (PredictRoute.POST env now upstream (request_json c)) with
      | inr res =>
          inr (Fetch.mkResponse (NextResponse.status res)
                 EmptyString (inr EmptyString)
                 (inr (NextResponse.body res)))
      | inl _ =>
          inr (Fetch.mkResponse 500 "Internal Server Error"
                 (inr EmptyString)
                 (inl (Js.mkError Js.OtherErrorClass "SyntaxError"
                         "Unexpected token I in JSON")))
      end
    else
      inr (Fetch.mkResponse 404 "Not Found" (inr EmptyString)
             (inl (Js.mkError Js.OtherErrorClass "SyntaxError"
                     "Unexpected token < in JSON"))).

End Api.

(** * Vocabulary of the claims *)

(** The one upstream call the prediction route can issue for [body]. *)
Definition predict_call (env : Env.t) (body : PredictionRequest.t)
  : Fetch.Call :=
  Fetch.mkCall (ML_SERVICE_URL env ++ "/predict") "POST" (Some body)
    (Some 30000%Z).

(** The one upstream call of the listing. *)
Definition parks_call (env : Env.t) : Fetch.Call :=
  Fetch.mkCall (ML_SERVICE_URL env ++ "/parks") "GET" None (Some 10000%Z).

(** The one upstream call of the health probe. *)
Definition health_call (env : Env.t) : Fetch.Call :=
  Fetch.mkCall (ML_SERVICE_URL env ++ "/health") "GET" None (Some 5000%Z).

(** The call the dashboard issues for [park]. *)
Definition map_call (selectedMapDate : string) (park : Park.t) : Fetch.Call :=
  Fetch.mkCall "/api/predict" "POST"
    (Some (Dashboard.request park selectedMapDate)) None.

(** [days_ahead] lies outside the interval from 1 to 365. *)
Definition out_of_range (d : Js.number) : Prop := (d < 1 \/ 365 < d)%Q.

(** Some field of the body is absent. *)
Definition missing_field (body : PredictionRequest.t) : Prop :=
  PredictionRequest.park_id body = None
  \/ PredictionRequest.start_date body = None
  \/ PredictionRequest.days_ahead body = None.

(** A body that passes both checks: non-empty identifier and date, and a
    day count from 1 to 365. *)
Definition valid_request (body : PredictionRequest.t) : Prop :=
  (exists id, PredictionRequest.park_id body = Some id /\ id <> EmptyString)
  /\ (exists date,
        PredictionRequest.start_date body = Some date /\ date <> EmptyString)
  /\ (exists d, PredictionRequest.days_ahead body = Some d /\ (1 <= d <= 365)%Q).

(** The answer of the prediction route on true success, generated at [now]. *)
Definition success_answer (now : string) (body : PredictionRequest.t)
    (ups : list MLServicePrediction.t) : NextResponse.t PredictJson.t :=
  NextResponse.json_ok
    (PredictJson.Ok
       (PredictJson.mkSuccess
          (PredictionResponse.mk (List.map PredictRoute.translate ups)
             (PredictionRequest.park_id body) 80%Q
             (Some (ModelPerformance.mk 0%Q 0%Q 0%Q)))
          now body)).

(** The upstream probe resolved with a status in 200..299 and a body whose
    [status] is the string "healthy". *)
Definition UpstreamHealthy (o : Js.JsError + Fetch.Response HealthResponse.t)
  : Prop :=
  exists response mlHealth,
    o = inr response
    /\ (200 <= Fetch.status response <= 299)%Z
    /\ Fetch.json response = inr mlHealth
    /\ HealthResponse.status mlHealth = Some "healthy".

(** The same, decided. *)
Definition upstream_healthy (o : Js.JsError + Fetch.Response HealthResponse.t)
  : bool :=
  match o with
  | inl _ => false
  | inr response =>
      Fetch.ok response
      && match Fetch.json response with
         | inl _ => false
         | inr mlHealth => HealthRoute.is_healthy (HealthResponse.status mlHealth)
         end
  end.

(** What the promise of [park] resolves to: its identifier and the filtered
    data when the call resolved with a 2xx status and a readable body,
    [null] otherwise. *)
Definition settled (net : Fetch.Network PredictJson.t)
    (selectedMapDate : string) (park : Park.t)
  : option (string * PredictJson.t) :=
  match net (map_call selectedMapDate park) with
  | inl _ => None
  | inr response =>
      if Fetch.ok response then
        match Fetch.json response with
        | inl _ => None
        | inr data =>
            Some (Park.park_id park, Dashboard.keep_selected selectedMapDate data)
        end
      else None
  end.

(** The call of [park] resolved with a 2xx status and a readable body. *)
Definition call_succeeds (net : Fetch.Network PredictJson.t)
    (selectedMapDate : string) (park : Park.t) : Prop :=
  exists response data,
    net (map_call selectedMapDate park) = inr response
    /\ Fetch.ok response = true
    /\ Fetch.json response = inr data.

(** [data] is the answer [body] with its predictions restricted to the
    points dated [date], in their order, and everything else as in [body];
    an answer without predictions (an error body) is left as it is. *)
Definition restricted_to (date : string) (body data : PredictJson.t) : Prop :=
  match body, data with
  | PredictJson.Error msg, PredictJson.Error msg' => msg' = msg
  | PredictJson.Ok s, PredictJson.Ok s' =>
      let r := PredictJson.response_data s in
      let r' := PredictJson.response_data s' in
      PredictionResponse.predictions r'
      = List.filter (fun p => String.eqb (PredictionPoint.ds p) date)
          (PredictionResponse.predictions r)
      /\ PredictionResponse.park_id r' = PredictionResponse.park_id r
      /\ PredictionResponse.confidence_level r'
         = PredictionResponse.confidence_level r
      /\ PredictionResponse.model_performance r'
         = PredictionResponse.model_performance r
      /\ PredictJson.timestamp s' = PredictJson.timestamp s
      /\ PredictJson.request_params s' = PredictJson.request_params s
  | _, _ => False
  end.

(** The answer [data] sits in the assembled object under the name [k]: as
    the own property [k], or, for the name [__proto__], as the prototype
    of the object (there is then no own property of that name). *)
Definition assembled (m : PlainObject.t PredictJson.t) (k : string)
    (data : PredictJson.t) : Prop :=
  (k <> PlainObject.proto_key /\ PlainObject.own m !! k = Some data)
  \/ (k = PlainObject.proto_key /\ PlainObject.prototype m = Some data).

(** The call of [park] resolved with a 2xx status and the readable body
    [body]. *)
Definition call_gives (net : Fetch.Network PredictJson.t)
    (selectedMapDate : string) (park : Park.t) (body : PredictJson.t)
  : Prop :=
  exists response,
    net (map_call selectedMapDate park) = inr response
    /\ Fetch.ok response = true
    /\ Fetch.json response = inr body.

(** The upstream never answers with two records for one date. *)
Definition one_record_per_date (upstream : Fetch.Network MLServiceResponse.t)
  : Prop :=
  forall c response ml ups,
    upstream c = inr response ->
    Fetch.json response = inr ml ->
    MLServiceResponse.predictions ml = Some ups ->
    NoDup (List.map MLServicePrediction.date ups).

(** * Sample inputs *)

Definition sample_env : Env.t := Env.mk None None None.

Definition sample_now : string := "2025-07-01T12:00:00.000Z".

(** An upstream that answers every prediction call with a two-day forecast
    starting on 2025-07-04. *)
Definition sample_forecast : list MLServicePrediction.t :=
  [ MLServicePrediction.mk "2025-07-04" 1100%Q 800%Q 1400%Q "80%";
    MLServicePrediction.mk "2025-07-05" 1200%Q 900%Q 1500%Q "80%" ].

Definition sample_upstream : Fetch.Network MLServiceResponse.t :=
  fun _ =>
    inr (Fetch.mkResponse 200 "OK" (inr EmptyString)
           (inr (MLServiceResponse.mk true "YELL" (Some sample_forecast) None))).

(** An upstream that answers every call with [status] and [text]. *)
Definition failing_upstream {J : Type} (status : Z) (text : string)
  : Fetch.Network J :=
  fun _ =>
    inr (Fetch.mkResponse status EmptyString (inr text)
           (inl (Js.mkError Js.OtherErrorClass "SyntaxError"
                   "Unexpected token in JSON"))).

(** An upstream that answers every call 500 with a body that breaks off
    while it is read. *)
Definition broken_body_upstream {J : Type} : Fetch.Network J :=
  fun _ =>
    inr (Fetch.mkResponse 500 "Internal Server Error"
           (inl (Js.mkError Js.TypeErrorClass "TypeError" "terminated"))
           (inl (Js.mkError Js.TypeErrorClass "TypeError" "terminated"))).

Definition sample_body : PredictionRequest.t :=
  PredictionRequest.mk (Some "YELL") (Some "2025-07-04") (Some 5%Q).

(** The body [{park_id: "YELL", start_date: "2025-07-04", days_ahead: 0}]. *)
Definition zero_days_body : PredictionRequest.t :=
  PredictionRequest.mk (Some "YELL") (Some "2025-07-04") (Some 0%Q).

Definition yellowstone : Park.t :=
  Park.mk "YELL" "Yellowstone" "WY" "Intermountain" "National Park" true
    None None None None None None.

Definition unlisted_park : Park.t :=
  Park.mk "ZZZZ" "Unlisted" "AK" "Alaska" "National Preserve" false
    None None None None None None.

Definition sample_parks : list Park.t := [yellowstone; unlisted_park].

Definition sample_parks_upstream : Fetch.Network (list Park.t) :=
  fun _ =>
    inr (Fetch.mkResponse 200 "OK" (inr EmptyString) (inr sample_parks)).

Definition initial_state : Dashboard.State := Dashboard.mkState ∅ false None.

(** * The rest of the routes' callers *)

(** ** The browser's view of [GET /api/parks] *)

Module ApiParks.

(** The network the dashboard talks to when its listing call reaches the
    route and the route talks to [upstream]: a [GET] of [/api/parks] is
    answered by [ParksRoute.GET]; [link c = false] is a call that never
    reaches the server and rejects. The dashboard reads [ok] and [json()]
    only. *)
Definition network (env : Env.t) (now : string) (link : Fetch.Call -> bool)
    (upstream : Fetch.Network (list Park.t))
  : Fetch.Network ParksJson.t :=
  fun c =>
    if negb (link c) then
      inl (Js.mkError Js.TypeErrorClass "TypeError" "Failed to fetch")
    else if String.eqb (Fetch.url c) "/api/parks"
            && String.eqb (Fetch.method c) "GET" then
      match Eff.outcome (ParksRoute.GET env now upstream) with
      | inr res =>
          inr (Fetch.mkResponse (NextResponse.status res)
                 EmptyString (inr EmptyString)
                 (inr (NextResponse.body res)))
      | inl _ =>
          inr (Fetch.mkResponse 500 "Internal Server Error"
                 (inr EmptyString)
                 (inl (Js.mkError Js.OtherErrorClass "SyntaxError"
                         "Unexpected token I in JSON")))
      end
    else
      inr (Fetch.mkResponse 404 "Not Found" (inr EmptyString)
             (inl (Js.mkError Js.OtherErrorClass "SyntaxError"
                     "Unexpected token < in JSON"))).

End ApiParks.

(** ** The dashboard page: [loadParks] and [generatePredictions] *)

Module Page.

Inductive ViewMode : Type := map | chart.

(** The [useState] variables of [Dashboard]. [daysAhead] is the result of
    [parseInt]: [None] is [NaN], which [JSON.stringify] writes as [null]. *)
Record State : Type := mkState {
  viewMode : ViewMode;
  parks : list Park.t;
  selectedPark : option Park.t;
  startDate : string;
  daysAhead : option Js.number;
  predictions : option PredictJson.t;
  mapPredictions : PlainObject.t PredictJson.t;
  selectedMapDate : string;
  parksLoading : bool;
  predictionsLoading : bool;
  mapPredictionsLoading : bool;
  error : option string;
  warning : option string
}.

Definition setParks (v : list Park.t) (st : State) : State :=
  mkState (viewMode st) v (selectedPark st) (startDate st) (daysAhead st)
    (predictions st) (mapPredictions st) (selectedMapDate st)
    (parksLoading st) (predictionsLoading st) (mapPredictionsLoading st)
    (error st) (warning st).
Definition setSelectedPark (v : option Park.t) (st : State) : State :=
  mkState (viewMode st) (parks st) v (startDate st) (daysAhead st)
    (predictions st) (mapPredictions st) (selectedMapDate st)
    (parksLoading st) (predictionsLoading st) (mapPredictionsLoading st)
    (error st) (warning st).
Definition setPredictions (v : option PredictJson.t) (st : State) : State :=
  mkState (viewMode st) (parks st) (selectedPark st) (startDate st)
    (daysAhead st) v (mapPredictions st) (selectedMapDate st)
    (parksLoading st) (predictionsLoading st) (mapPredictionsLoading st)
    (error st) (warning st).
Definition setParksLoading (v : bool) (st : State) : State :=
  mkState (viewMode st) (parks st) (selectedPark st) (startDate st)
    (daysAhead st) (predictions st) (mapPredictions st) (selectedMapDate st)
    v (predictionsLoading st) (mapPredictionsLoading st)
    (error st) (warning st).
Definition setPredictionsLoading (v : bool) (st : State) : State :=
  mkState (viewMode st) (parks st) (selectedPark st) (startDate st)
    (daysAhead st) (predictions st) (mapPredictions st) (selectedMapDate st)
    (parksLoading st) v (mapPredictionsLoading st)
    (error st) (warning st).
Definition setError (v : option string) (st : State) : State :=
  mkState (viewMode st) (parks st) (selectedPark st) (startDate st)
    (daysAhead st) (predictions st) (mapPredictions st) (selectedMapDate st)
    (parksLoading st) (predictionsLoading st) (mapPredictionsLoading st)
    v (warning st).
Definition setWarning (v : option string) (st : State) : State :=
  mkState (viewMode st) (parks st) (selectedPark st) (startDate st)
    (daysAhead st) (predictions st) (mapPredictions st) (selectedMapDate st)
    (parksLoading st) (predictionsLoading st) (mapPredictionsLoading st)
    (error st) v.

(** [new Error(message)]. *)
Definition new_Error (message : string) : Js.JsError :=
  Js.mkError Js.OtherErrorClass "Error" message.

(** [err instanceof Error ? err.message : fallback]. *)
Definition message_or (err : Js.JsError) (fallback : string) : string :=
  if Js.instanceof_Error err then Js.err_message err else fallback.

(** [data.parks || []] and [data.error] of a listing answer. *)
Definition parks_or_empty (data : ParksJson.t) : list Park.t :=
  match data with
  | ParksJson.Ok l => ParksJson.parks l
  | ParksJson.Error _ => []
  end.
Definition listing_error (data : ParksJson.t) : option string :=
  match data with
  | ParksJson.Error e => Some e
  | ParksJson.Ok _ => None
  end.

(** [data.error] of a prediction answer. *)
Definition prediction_error (data : PredictJson.t) : option string :=
  match data with
  | PredictJson.Error e => Some e
  | PredictJson.Ok _ => None
  end.

(** The part of [loadParks] between the first two setters and the state
    updates that follow the answer: [fetch], [response.json()], and the
    [throw] on an answer that is not [ok]. The body is read before [ok] is
    looked at. *)
Definition fetch_parks (net : Fetch.Network ParksJson.t)
  : Eff.M ParksJson.t :=
  let* response :=
    Eff.fetch net (Fetch.mkCall "/api/parks" "GET" None None) in
  let* data := Eff.await (Fetch.json response) in
  if negb (Fetch.ok response) then
    Eff.throw
      (new_Error (Js.or_string (listing_error data) "Failed to load parks"))
  else Eff.ret data.

(** [loadParks]: the state it leaves, with the calls it issued.
    [selectedPark] is the one of the render that created the callback. *)
Definition loadParks (net : Fetch.Network ParksJson.t) (st : State)
  : list Fetch.Call * State :=
  let selected := selectedPark st in
  let st := setParksLoading true st in
  let st := setError None st in
  let run := fetch_parks net in
  let st :=
    match Eff.outcome run with
    | inr data =>
        let st := setParks (parks_or_empty data) st in
        let st := setWarning None st in
        let parkWithModel := List.find Park.has_model (parks_or_empty data) in
        match parkWithModel, selected with
        | Some park, None => setSelectedPark (Some park) st
        | _, _ => st
        end
    | inl err => setError (Some (message_or err "Failed to load parks")) st
    end in
  (Eff.calls run, setParksLoading false st).

(** The [fetch] part of [generatePredictions] for the selected [park]. *)
Definition fetch_predictions (net : Fetch.Network PredictJson.t)
    (park : Park.t) (startDate : string) (daysAhead : option Js.number)
  : Eff.M PredictJson.t :=
  let request :=
    PredictionRequest.mk (Some (Park.park_id park)) (Some startDate)
      daysAhead in
  let* response :=
    Eff.fetch net (Fetch.mkCall "/api/predict" "POST" (Some request) None) in
  let* data := Eff.await (Fetch.json response) in
  if negb (Fetch.ok response) then
    Eff.throw
      (new_Error
         (Js.or_string (prediction_error data) "Failed to generate predictions"))
  else Eff.ret data.

(** [generatePredictions]. *)
Definition generatePredictions (net : Fetch.Network PredictJson.t)
    (st : State) : list Fetch.Call * State :=
  match selectedPark st with
  | None => ([], st)
  | Some park =>
      let run := fetch_predictions net park (startDate st) (daysAhead st) in
      let st := setPredictionsLoading true st in
      let st := setError None st in
      let st :=
        match Eff.outcome run with
        | inr data =>
            let st := setPredictions (Some data) st in
            setWarning None st
        | inl err =>
            let st :=
              setError (Some (message_or err "Failed to generate predictions"))
                st in
            setPredictions None st
        end in
      (Eff.calls run, setPredictionsLoading false st)
  end.

(** [loadMapPredictions] on the whole state: it reads [parks] and
    [selectedMapDate] and writes the three variables of [Dashboard.State]. *)
Definition loadMapPredictions (net : Fetch.Network PredictJson.t)
    (st : State) : list Fetch.Call * State :=
  let run :=
    Dashboard.loadMapPredictions net (parks st) (selectedMapDate st)
      (Dashboard.mkState (mapPredictions st) (mapPredictionsLoading st)
         (error st)) in
  (fst run,
   mkState (viewMode st) (parks st) (selectedPark st) (startDate st)
     (daysAhead st) (predictions st)
     (Dashboard.mapPredictions (snd run)) (selectedMapDate st)
     (parksLoading st) (predictionsLoading st)
     (Dashboard.mapPredictionsLoading (snd run))
     (Dashboard.error (snd run)) (warning st)).

(** The bounds of the map's date input: [min="2025-07-04"],
    [max="2026-07-03"]. *)
Definition map_date_min : string := "2025-07-04".
Definition map_date_max : string := "2026-07-03".

End Page.

(** ** [components/InteractiveMap.tsx] *)

Module VisitorLevel.
Record t : Type := mk {
  name : string;
  color : string;
  bgColor : string;
  textColor : string;
  range : string;
  min : Js.number;
  icon : string;
  description : string
}.
End VisitorLevel.

Module InteractiveMap.

Definition very_high : VisitorLevel.t :=
  VisitorLevel.mk "Very High" "#DC2626" "#FEE2E2" "#991B1B"
    "4,000+" 4000%Q "üî¥"
    "Extremely crowded - expect long waits".

Definition high : VisitorLevel.t :=
  VisitorLevel.mk "High" "#EA580C" "#FED7AA" "#C2410C"
    "2,500-4,000" 2500%Q "üü†"
    "Very busy - plan for crowds".

Definition medium : VisitorLevel.t :=
  VisitorLevel.mk "Medium" "#D97706" "#FEF3C7" "#92400E"
    "1,500-2,500" 1500%Q "üü°"
    "Moderately busy - comfortable visit".

Definition low : VisitorLevel.t :=
  VisitorLevel.mk "Low" "#65A30D" "#DCFCE7" "#365314"
    "500-1,500" 500%Q "üü¢"
    "Light crowds - great for exploring".

Definition very_low : VisitorLevel.t :=
  VisitorLevel.mk "Very Low" "#16A34A" "#F0FDF4" "#14532D"
    "0-500" 0%Q "üîµ"
    "Very quiet - perfect for peaceful visit".

Definition VISITOR_LEVELS : list VisitorLevel.t :=
  [very_high; high; medium; low; very_low].

(** [a >= b] on numbers. *)
Definition ge (a b : Js.number) : bool := Qle_bool b a.

(** [v || d] on numbers, [v] possibly [undefined]. *)
Definition or_number (v : option Js.number) (d : Js.number) : Js.number :=
  match v with
  | Some n => if Js.truthy_number n then n else d
  | None => d
  end.

(** [Math.round]: the nearest integer, a half going up. *)
Definition Math_round (x : Js.number) : Z := Qfloor (x + (1 # 2))%Q.

Record VisitorData : Type := mkVisitorData {
  level : VisitorLevel.t;
  visitors : Js.number;
  confidence : Js.number;
  markerColor : string;
  iconSize : Js.number
}.

(** [prediction.predictions.find(p => p.ds === selectedDate)]. *)
Definition dayPrediction_of (r : PredictionResponse.t) (selectedDate : string)
  : option PredictionPoint.t :=
  List.find (fun p => String.eqb (PredictionPoint.ds p) selectedDate)
    (PredictionResponse.predictions r).

(** The [visitorData] memo of [ParkMarker] for a prop [prediction] that is
    as its type says: [undefined] ([None]) or a parsed answer; an error
    body has no [predictions]. What the map passes for a park is
    [prediction_of] below. *)
Definition visitorData (prediction : option PredictJson.t)
    (selectedDate : string) : VisitorData :=
  match prediction with
  | None | Some (PredictJson.Error _) =>
      mkVisitorData (nth 4 VISITOR_LEVELS very_low) 0%Q 0%Q "#6B7280" 25%Q
  | Some (PredictJson.Ok s) =>
      let r := PredictJson.response_data s in
      let dayPrediction := dayPrediction_of r selectedDate in
      let visitors := or_number (PredictionPoint.yhat <$> dayPrediction) 0%Q in
      let confidence :=
        or_number
          (dayPrediction ≫= PredictionPoint.confidence_level)
          (or_number (Some (PredictionResponse.confidence_level r)) 0%Q) in
      let level :=
        match List.find (fun l => ge visitors (VisitorLevel.min l))
                VISITOR_LEVELS with
        | Some l => l
        | None => nth 4 VISITOR_LEVELS very_low
        end in
      let size :=
        if Js.gt visitors 4000 then 40%Q
        else if Js.gt visitors 2500 then 36%Q
        else if Js.gt visitors 1500 then 32%Q
        else if Js.gt visitors 500 then 28%Q
        else 24%Q in
      mkVisitorData level visitors confidence (VisitorLevel.color level) size
  end.

(** The interpolation [Math.round(visitorData.visitors / 1000) || '?'] of
    the marker's text, followed by the [K] of the template, for a number of
    visitors of at most 10^15 in magnitude. There the rounded quotient of
    the doubles is the rounded quotient of the rationals (the nearest
    double below a half-integer bound [k + 1/2] of the quotient would need
    a dividend strictly between the largest double below [1000 k + 500]
    and that integer) and the template writes the integer in plain
    decimal. [None] beyond: the quotient then depends on the rounding of
    doubles and its writing on the shortest-digits and exponent notation
    of Number-to-string, which a rational does not carry. *)
Definition label_limit : Js.number := 1000000000000000%Q.

Definition marker_label (visitors : Js.number) : option string :=
  if Qle_bool (- label_limit) visitors && Qle_bool visitors label_limit then
    let thousands := Math_round (visitors / 1000)%Q in
    Some ((if (thousands =? 0)%Z then "?" else pretty thousands) ++ "K")
  else None.

(** [park.latitude && park.longitude], the test of the [filter] that gives
    [parksWithCoordinates] and, negated, of the early [return null] of
    [ParkMarker]. *)
Definition has_position (park : Park.t) : bool :=
  Js.truthy Js.truthy_number (Park.latitude park)
  && Js.truthy Js.truthy_number (Park.longitude park).

(** [parksWithCoordinates]. *)
Definition parksWithCoordinates (parks : list Park.t) : list Park.t :=
  List.filter has_position parks.

(** [mapCenter]. *)
Definition mapCenter (selectedPark : option Park.t) : Js.number * Js.number :=
  match selectedPark with
  | Some park =>
      match Park.latitude park, Park.longitude park with
      | Some lat, Some lng =>
          if Js.truthy_number lat && Js.truthy_number lng then (lat, lng)
          else (39.8283, -98.5795)%Q
      | _, _ => (39.8283, -98.5795)%Q
      end
  | None => (39.8283, -98.5795)%Q
  end.

(** Which of the three bodies the popup of a marker shows. *)
Inductive Popup : Type :=
| Forecast (dayPrediction : PredictionPoint.t)
    (* visitors, weather and confidence of the day *)
| NoPredictionForDate
    (* "No prediction available for {selectedDate}" *)
| ModelNotAvailable.
    (* "Forecasting model not available for this park" *)

(** The popup of [ParkMarker], for the same values of the prop:
    [dayPrediction] is [prediction?.predictions?.find(...)]; the three
    blocks are guarded by [dayPrediction], [!dayPrediction && prediction]
    and [!prediction]. *)
Definition popup (prediction : option PredictJson.t) (selectedDate : string)
  : Popup :=
  match prediction with
  | None => ModelNotAvailable
  | Some (PredictJson.Error _) => NoPredictionForDate
  | Some (PredictJson.Ok s) =>
      match dayPrediction_of (PredictJson.response_data s) selectedDate with
      | Some p => Forecast p
      | None => NoPredictionForDate
      end
  end.

(** The prop [prediction] of a marker as the map passes it:
    [predictions[park.park_id]] on the object [loadMapPredictions]
    assembled. *)
Definition prediction_of (predictions : PlainObject.t PredictJson.t)
    (park : Park.t) : PlainObject.Value PredictJson.t :=
  PlainObject.get predictions (Park.park_id park).

(** [visitorData] and the popup for whatever the prop evaluates to. A
    method of [Object.prototype] is truthy and has no [predictions]: the
    memo returns its grey default, and the popup, with [dayPrediction]
    undefined and [prediction] truthy, shows its second block. [None]: the
    prop is a property of the answer that became the prototype, which the
    typed answer does not determine. *)
Definition visitorData_of (prediction : PlainObject.Value PredictJson.t)
    (selectedDate : string) : option VisitorData :=
  match prediction with
  | PlainObject.undefined => Some (visitorData None selectedDate)
  | PlainObject.stored data => Some (visitorData (Some data) selectedDate)
  | PlainObject.builtin => Some (visitorData None selectedDate)
  | PlainObject.inherited _ _ => None
  end.

Definition popup_of (prediction : PlainObject.Value PredictJson.t)
    (selectedDate : string) : option Popup :=
  match prediction with
  | PlainObject.undefined => Some ModelNotAvailable
  | PlainObject.stored data => Some (popup (Some data) selectedDate)
  | PlainObject.builtin => Some NoPredictionForDate
  | PlainObject.inherited _ _ => None
  end.

(** The markers of the map: one per park with a position, each given
    [predictions[park.park_id]]. *)
Definition markers (parks : list Park.t)
    (predictions : PlainObject.t PredictJson.t) (selectedDate : string)
  : list (Park.t * option VisitorData * option Popup) :=
  List.map
    (fun park =>
       (park,
        visitorData_of (prediction_of predictions park) selectedDate,
        popup_of (prediction_of predictions park) selectedDate))
    (parksWithCoordinates parks).

End InteractiveMap.

(** * Vocabulary of the further properties *)

(** The caught value is a [TypeError] whose message mentions [fetch]. *)
Definition is_connection_error (e : Js.JsError) : Prop :=
  Js.err_class e = Js.TypeErrorClass
  /\ exists before after, Js.err_message e = before ++ "fetch" ++ after.

(** The caught value is an [Error] named [AbortError]. *)
Definition is_abort_error (e : Js.JsError) : Prop :=
  Js.err_class e <> Js.NotAnErrorClass /\ Js.err_name e = "AbortError".

(** [r] is the choice among three answers that a [catch] clause makes for
    [e]: the connection answer first, the timeout answer second, the
    catch-all last. *)
Definition caught_as {A : Type} (e : Js.JsError)
    (connect timeout unexpected r : A) : Prop :=
  (is_connection_error e -> r = connect)
  /\ (~ is_connection_error e -> is_abort_error e -> r = timeout)
  /\ (~ is_connection_error e -> ~ is_abort_error e -> r = unexpected).

(** The answer of the prediction route to a 2xx upstream body that reports
    failure. *)
Definition semantic_failure_answer (ml : MLServiceResponse.t)
  : NextResponse.t PredictJson.t :=
  NextResponse.json
    (PredictJson.Error
       (Js.or_string (MLServiceResponse.error ml)
          "Failed to generate predictions"))
    400.

(** The status lies in 200..299. *)
Definition is_2xx (status : Z) : Prop := (200 <= status <= 299)%Z.

(** The dashboard's call [c] over [net] fails with the message [msg] its
    [catch] clause stores: the call rejects, or its body cannot be read
    (whatever the status), or the answer is readable but not [ok], in which
    case the message is the body's [error] text when it has a non-empty
    one. *)
Inductive CallFails {A : Type} (net : Fetch.Network A) (c : Fetch.Call)
    (error_of : A -> option string) (fallback : string) : string -> Prop :=
| call_rejected (e : Js.JsError) :
    net c = inl e ->
    CallFails net c error_of fallback (Page.message_or e fallback)
| body_unreadable (response : Fetch.Response A) (e : Js.JsError) :
    net c = inr response ->
    Fetch.json response = inl e ->
    CallFails net c error_of fallback (Page.message_or e fallback)
| answer_not_ok (response : Fetch.Response A) (data : A) :
    net c = inr response ->
    Fetch.json response = inr data ->
    Fetch.ok response = false ->
    CallFails net c error_of fallback
      (Js.or_string (error_of data) fallback).

(** The dashboard's call [c] over [net] succeeds with [data]. *)
Definition CallGives {A : Type} (net : Fetch.Network A) (c : Fetch.Call)
    (data : A) : Prop :=
  exists response,
    net c = inr response
    /\ Fetch.json response = inr data
    /\ Fetch.ok response = true.

(** [r] is the first park of [parks] with a model, or nothing when no park
    has one. *)
Definition first_with_model (parks : list Park.t) (r : option Park.t)
  : Prop :=
  match r with
  | Some park =>
      exists before after,
        parks = (before ++ park :: after)%list
        /\ Park.has_model park = true
        /\ Forall (fun q => Park.has_model q = false) before
  | None => Forall (fun q => Park.has_model q = false) parks
  end.

(** The call of [loadParks], and the call of [generatePredictions] for the
    state's selection. *)
Definition load_parks_call : Fetch.Call :=
  Fetch.mkCall "/api/parks" "GET" None None.
Definition chart_call (park : Park.t) (st : Page.State) : Fetch.Call :=
  Fetch.mkCall "/api/predict" "POST"
    (Some (PredictionRequest.mk (Some (Park.park_id park))
             (Some (Page.startDate st)) (Page.daysAhead st)))
    None.


(** * Further sample inputs *)

(** The error [fetch] rejects with when nothing listens at the address. *)
Definition connection_refused : Js.JsError :=
  Js.mkError Js.TypeErrorClass "TypeError" "fetch failed".

(** A network on which every call rejects with [e]. *)
Definition rejecting_network {J : Type} (e : Js.JsError) : Fetch.Network J :=
  fun _ => inl e.

(** An upstream that answers 200 and reports a failure of its own. *)
Definition unknown_park_report : MLServiceResponse.t :=
  MLServiceResponse.mk false "ZZZZ" None (Some "No model for park ZZZZ").

Definition reporting_upstream : Fetch.Network MLServiceResponse.t :=
  fun _ =>
    inr (Fetch.mkResponse 200 "OK" (inr EmptyString)
           (inr unknown_park_report)).

(** A park whose identifier is the name [__proto__], and a network that
    answers every call with a two-day forecast. *)
Definition prototype_park : Park.t :=
  Park.mk "__proto__" "Prototype" "AK" "Alaska" "National Preserve" true
    None None None None None None.

Definition prototype_answer : PredictJson.t :=
  PredictJson.Ok
    (PredictJson.mkSuccess
       (PredictionResponse.mk
          (List.map PredictRoute.translate sample_forecast)
          (Some "__proto__") 80%Q (Some (ModelPerformance.mk 0%Q 0%Q 0%Q)))
       sample_now
       (PredictionRequest.mk (Some "__proto__") (Some "2025-07-04")
          (Some 2%Q))).

Definition prototype_network : Fetch.Network PredictJson.t :=
  fun _ =>
    inr (Fetch.mkResponse 200 "OK" (inr EmptyString) (inr prototype_answer)).

(** The dashboard before the listing has arrived, and in chart view with a
    park selected. *)
Definition sample_page : Page.State :=
  Page.mkState Page.map [] None "2025-07-04" (Some 30%Q) None ∅ "2025-07-05"
    true false false None None.

Definition sample_chart_page : Page.State :=
  Page.mkState Page.chart sample_parks (Some yellowstone) "2025-07-04"
    (Some 30%Q) None ∅ "2025-07-05" false false false None None.

(** * Properties *)

(** ** Validation in [POST /api/predict] *)

Section PredictValidation.

Variable env : Env.t.
Variable now : string.
Variable net : Fetch.Network MLServiceResponse.t.

Lemma lt_true (a b : Js.number) : Js.lt a b = true <-> (a < b)%Q.
Proof.
  unfold Js.lt. rewrite negb_true_iff.
  split.
  - intros H. apply Qnot_le_lt. intros Hle.
    apply Qle_bool_iff in Hle. congruence.
  - intros H. destruct (Qle_bool b a) eqn:E; [|reflexivity].
    apply Qle_bool_iff in E. exfalso. apply (Qlt_not_le _ _ H E).
Qed.

Lemma lt_false (a b : Js.number) : Js.lt a b = false <-> (b <= a)%Q.
Proof.
  unfold Js.lt. rewrite negb_false_iff. apply Qle_bool_iff.
Qed.

Lemma truthy_number_false (n : Js.number) :
  Js.truthy_number n = false <-> (n == 0)%Q.
Proof.
  unfold Js.truthy_number. rewrite negb_false_iff. apply Qeq_bool_iff.
Qed.

Lemma truthy_string_true (s : string) :
  Js.truthy_string s = true <-> s <> EmptyString.
Proof. destruct s; simpl; split; congruence. Qed.

(** Any body with a missing field is answered 400 with the missing-fields
    message and no call. *)
Lemma POST_missing (body : PredictionRequest.t) :
  Js.truthy Js.truthy_string (PredictionRequest.park_id body)
  && Js.truthy Js.truthy_string (PredictionRequest.start_date body)
  && Js.truthy Js.truthy_number (PredictionRequest.days_ahead body) = false ->
  PredictRoute.POST env now net (inr body)
  = ([], inr (NextResponse.json
                (PredictJson.Error PredictRoute.missing_fields_message) 400)).
Proof.
  intros H. unfold PredictRoute.POST, PredictRoute.POST_try. simpl.
  rewrite <- !negb_andb, H. reflexivity.
Qed.

(** A body whose three fields are truthy and whose day count is out of
    range is answered 400 with the range message and no call. *)
Lemma POST_out_of_range (body : PredictionRequest.t) (d : Js.number) :
  Js.truthy Js.truthy_string (PredictionRequest.park_id body) = true ->
  Js.truthy Js.truthy_string (PredictionRequest.start_date body) = true ->
  PredictionRequest.days_ahead body = Some d ->
  Js.truthy_number d = true ->
  out_of_range d ->
  PredictRoute.POST env now net (inr body)
  = ([], inr (NextResponse.json
                (PredictJson.Error PredictRoute.days_ahead_range_message) 400)).
Proof.
  intros Hp Hs Hd Ht Hr.
  unfold PredictRoute.POST, PredictRoute.POST_try. simpl.
  rewrite Hp, Hs, Hd. simpl. rewrite Ht. simpl.
  assert (Js.lt d 1 || Js.gt d 365 = true) as ->.
  { apply orb_true_iff. unfold Js.gt. rewrite !lt_true. exact Hr. }
  reflexivity.
Qed.

(** A valid body passes both checks. *)
Lemma valid_request_checks (body : PredictionRequest.t) :
  valid_request body ->
  (negb (Js.truthy Js.truthy_string (PredictionRequest.park_id body))
   || negb (Js.truthy Js.truthy_string (PredictionRequest.start_date body))
   || negb (Js.truthy Js.truthy_number (PredictionRequest.days_ahead body)))
  = false
  /\ (Js.lt_opt (PredictionRequest.days_ahead body) 1
      || Js.gt_opt (PredictionRequest.days_ahead body) 365) = false.
Proof.
  intros [[id [Hid Hne]] [[date [Hdate Hne']] [d [Hd [Hlo Hhi]]]]].
  rewrite Hid, Hdate, Hd. simpl.
  apply truthy_string_true in Hne, Hne'. rewrite Hne, Hne'. simpl.
  split.
  - rewrite negb_false_iff.
    destruct (Js.truthy_number d) eqn:E; [reflexivity|].
    apply truthy_number_false in E. rewrite E in Hlo. lra.
  - apply orb_false_iff. unfold Js.gt. rewrite !lt_false. split; assumption.
Qed.

End PredictValidation.

Section PredictValidationClaims.

Variable env : Env.t.
Variable now : string.
Variable net : Fetch.Network MLServiceResponse.t.

(** C1, evaluated at the body with [days_ahead = 0]: all three fields are
    present and the day count is out of range, yet the route answers 400
    with the missing-fields message, which is not the range message, and
    issues no call. The claim expects the range message here. *)
Theorem C1_zero_days_answered_as_missing :
  ~ missing_field zero_days_body
  /\ (exists d, PredictionRequest.days_ahead zero_days_body = Some d
               /\ out_of_range d)
  /\ PredictRoute.POST env now net (inr zero_days_body)
     = ([], inr (NextResponse.json
                   (PredictJson.Error PredictRoute.missing_fields_message) 400))
  /\ PredictRoute.missing_fields_message
     <> PredictRoute.days_ahead_range_message.
Proof.
  split; [|split; [|split]].
  - unfold missing_field, zero_days_body. simpl.
    intros [H | [H | H]]; discriminate H.
  - exists 0%Q. split; [reflexivity|]. left. reflexivity.
  - apply POST_missing. reflexivity.
  - discriminate.
Qed.

(** C6: a body with a missing field, or with [days_ahead] outside the
    interval from 1 to 365, is answered with status 400 and a validation
    message, and the route issues no upstream call. *)
Theorem C6_invalid_request_no_upstream_call (body : PredictionRequest.t) :
  missing_field body
  \/ (exists d, PredictionRequest.days_ahead body = Some d /\ out_of_range d) ->
  Eff.calls (PredictRoute.POST env now net (inr body)) = []
  /\ exists msg,
       Eff.outcome (PredictRoute.POST env now net (inr body))
       = inr (NextResponse.json (PredictJson.Error msg) 400)
       /\ (msg = PredictRoute.missing_fields_message
           \/ msg = PredictRoute.days_ahead_range_message).
Proof.
  intros H.
  destruct (Js.truthy Js.truthy_string (PredictionRequest.park_id body)
            && Js.truthy Js.truthy_string (PredictionRequest.start_date body)
            && Js.truthy Js.truthy_number (PredictionRequest.days_ahead body))
    eqn:Htruthy.
  - apply andb_true_iff in Htruthy as [Htruthy Hn].
    apply andb_true_iff in Htruthy as [Hp Hs].
    destruct H as [[H | [H | H]] | [d [Hd Hr]]].
    + rewrite H in Hp. discriminate Hp.
    + rewrite H in Hs. discriminate Hs.
    + rewrite H in Hn. discriminate Hn.
    + rewrite Hd in Hn. simpl in Hn.
      rewrite (POST_out_of_range env now net body d Hp Hs Hd Hn Hr).
      split; [reflexivity|].
      exists PredictRoute.days_ahead_range_message. split; [reflexivity|].
      right. reflexivity.
  - rewrite (POST_missing env now net body Htruthy).
    split; [reflexivity|].
    exists PredictRoute.missing_fields_message. split; [reflexivity|].
    left. reflexivity.
Qed.

End PredictValidationClaims.

(** C6 at a day count of 366. *)
Lemma C6_witness :
  Eff.calls (PredictRoute.POST sample_env sample_now sample_upstream
               (inr (PredictionRequest.mk (Some "YELL") (Some "2025-07-04")
                       (Some 366%Q)))) = []
  /\ exists msg,
       Eff.outcome (PredictRoute.POST sample_env sample_now sample_upstream
                      (inr (PredictionRequest.mk (Some "YELL")
                              (Some "2025-07-04") (Some 366%Q))))
       = inr (NextResponse.json (PredictJson.Error msg) 400)
       /\ (msg = PredictRoute.missing_fields_message
           \/ msg = PredictRoute.days_ahead_range_message).
Proof.
  apply C6_invalid_request_no_upstream_call.
  right. exists 366%Q. split; [reflexivity|]. right. reflexivity.
Defined.

(** Further bodies, evaluated: day counts 0 and -1, and the body
    [{start_date: "2025-07-04", days_ahead: 5}] without [park_id]. *)
Example validation_examples :
  PredictRoute.POST sample_env sample_now sample_upstream
    (inr (PredictionRequest.mk (Some "YELL") (Some "2025-07-04") (Some 0%Q)))
  = ([], inr (NextResponse.json
                (PredictJson.Error PredictRoute.missing_fields_message) 400))
  /\ PredictRoute.POST sample_env sample_now sample_upstream
       (inr (PredictionRequest.mk (Some "YELL") (Some "2025-07-04")
               (Some (-1)%Q)))
     = ([], inr (NextResponse.json
                   (PredictJson.Error PredictRoute.days_ahead_range_message) 400))
  /\ PredictRoute.POST sample_env sample_now sample_upstream
       (inr (PredictionRequest.mk None (Some "2025-07-04") (Some 5%Q)))
     = ([], inr (NextResponse.json
                   (PredictJson.Error PredictRoute.missing_fields_message) 400)).
Proof. repeat split; reflexivity. Qed.

(** ** [NextResponse.json] and the [catch] clauses *)

Lemma respond_accepted {B : Type} (b : B) (st : Z) :
  NextResponse.accepted st = true ->
  NextResponse.respond b st = Eff.ret (NextResponse.json b st).
Proof.
  unfold NextResponse.accepted, NextResponse.respond. intros H.
  apply andb_true_iff in H as [-> H]. apply negb_true_iff in H. rewrite H.
  reflexivity.
Qed.

(** Among the statuses 300..499 only 304 admits no body. *)
Lemma accepted_client_status (st : Z) :
  (300 <= st < 500)%Z -> st <> 304%Z -> NextResponse.accepted st = true.
Proof.
  intros Hst Hne.
  unfold NextResponse.accepted, NextResponse.in_status_range,
    NextResponse.null_body_status.
  repeat match goal with
         | |- context [(?a <=? ?b)%Z] => destruct (Z.leb_spec a b)
         | |- context [(?a =? ?b)%Z] => destruct (Z.eqb_spec a b)
         end; try reflexivity; lia.
Qed.

(** The two statuses of the health route are accepted. *)
Lemma respond_health {B : Type} (b : B) (healthy : bool) :
  NextResponse.respond b (if healthy then 200%Z else 503%Z)
  = Eff.ret (NextResponse.json b (if healthy then 200%Z else 503%Z)).
Proof. destruct healthy; reflexivity. Qed.

(** What [NextResponse.json] throws for a status it refuses, both [catch]
    clauses answer with their catch-all. *)
Lemma respond_refused {B : Type} (b : B) (st : Z) :
  NextResponse.accepted st = false ->
  exists e,
    NextResponse.respond b st = Eff.throw e
    /\ PredictRoute.on_error e
       = Eff.ret (NextResponse.json
                    (PredictJson.Error PredictRoute.unexpected_message) 500)
    /\ ParksRoute.on_error e
       = Eff.ret (NextResponse.json
                    (ParksJson.Error ParksRoute.unexpected_message) 500).
Proof.
  unfold NextResponse.accepted, NextResponse.respond. intros H.
  destruct (NextResponse.in_status_range st) eqn:Hrange; cbn [negb andb] in *.
  - apply negb_false_iff in H. rewrite H.
    exists (NextResponse.null_body_error st). split; [reflexivity|].
    unfold NextResponse.null_body_status in H.
    repeat match type of H with
           | (_ || _ = true) => apply orb_true_iff in H as [H | H]
           end;
      apply Z.eqb_eq in H; subst st; split; reflexivity.
  - exists NextResponse.status_range_error. repeat split.
Qed.

(** The [catch] clause always answers with an error body and no call. *)
Lemma on_error_answer (e : Js.JsError) :
  exists msg st, PredictRoute.on_error e
                 = ([], inr (NextResponse.json (PredictJson.Error msg) st)).
Proof.
  unfold PredictRoute.on_error.
  repeat case_match; eauto.
Qed.

(** The answer of the [catch] clause, without its (empty) list of calls. *)
Lemma on_error_run (e : Js.JsError) :
  PredictRoute.on_error e = ([], Eff.outcome (PredictRoute.on_error e)).
Proof.
  destruct (on_error_answer e) as (msg & st & ->). reflexivity.
Qed.

(** The two checks of the route, and what passing them means. *)
Lemma checks_valid (body : PredictionRequest.t) :
  (negb (Js.truthy Js.truthy_string (PredictionRequest.park_id body))
   || negb (Js.truthy Js.truthy_string (PredictionRequest.start_date body))
   || negb (Js.truthy Js.truthy_number (PredictionRequest.days_ahead body)))
  = false ->
  (Js.lt_opt (PredictionRequest.days_ahead body) 1
   || Js.gt_opt (PredictionRequest.days_ahead body) 365) = false ->
  valid_request body.
Proof.
  intros H1 H2.
  apply orb_false_iff in H1 as [H1 Hd].
  apply orb_false_iff in H1 as [Hp Hs].
  apply negb_false_iff in Hp, Hs, Hd.
  apply orb_false_iff in H2 as [Hlo Hhi].
  unfold valid_request.
  destruct (PredictionRequest.park_id body) as [id |]; [|discriminate Hp].
  destruct (PredictionRequest.start_date body) as [date |]; [|discriminate Hs].
  destruct (PredictionRequest.days_ahead body) as [d |]; [|discriminate Hd].
  cbn in Hp, Hs, Hlo, Hhi.
  split; [exists id; split; [reflexivity | apply truthy_string_true, Hp]|].
  split; [exists date; split; [reflexivity | apply truthy_string_true, Hs]|].
  exists d. split; [reflexivity|].
  unfold Js.gt in Hhi. apply lt_false in Hlo, Hhi. split; assumption.
Qed.

(** A body that fails a check is answered 400 with an error body and no
    call. *)
Lemma POST_invalid (env : Env.t) (now : string)
    (net : Fetch.Network MLServiceResponse.t) (body : PredictionRequest.t) :
  (negb (Js.truthy Js.truthy_string (PredictionRequest.park_id body))
   || negb (Js.truthy Js.truthy_string (PredictionRequest.start_date body))
   || negb (Js.truthy Js.truthy_number (PredictionRequest.days_ahead body)))
  = true
  \/ (Js.lt_opt (PredictionRequest.days_ahead body) 1
      || Js.gt_opt (PredictionRequest.days_ahead body) 365) = true ->
  exists msg,
    PredictRoute.POST env now net (inr body)
    = ([], inr (NextResponse.json (PredictJson.Error msg) 400)).
Proof.
  intros H.
  unfold PredictRoute.POST, PredictRoute.POST_try, Eff.try_catch, Eff.bind,
    Eff.await, Eff.ret.
  destruct (negb (Js.truthy Js.truthy_string (PredictionRequest.park_id body))
            || negb (Js.truthy Js.truthy_string
                       (PredictionRequest.start_date body))
            || negb (Js.truthy Js.truthy_number
                       (PredictionRequest.days_ahead body))) eqn:H1.
  - eexists. reflexivity.
  - destruct H as [H | H]; [discriminate H|]. rewrite H.
    eexists. reflexivity.
Qed.

(** Every request is valid or fails a check. *)
Lemma valid_or_invalid (body : PredictionRequest.t) :
  valid_request body
  \/ ((negb (Js.truthy Js.truthy_string (PredictionRequest.park_id body))
       || negb (Js.truthy Js.truthy_string (PredictionRequest.start_date body))
       || negb (Js.truthy Js.truthy_number (PredictionRequest.days_ahead body)))
      = true
      \/ (Js.lt_opt (PredictionRequest.days_ahead body) 1
          || Js.gt_opt (PredictionRequest.days_ahead body) 365) = true).
Proof.
  destruct (negb (Js.truthy Js.truthy_string (PredictionRequest.park_id body))
            || negb (Js.truthy Js.truthy_string
                       (PredictionRequest.start_date body))
            || negb (Js.truthy Js.truthy_number
                       (PredictionRequest.days_ahead body))) eqn:H1;
    [right; left; reflexivity|].
  destruct (Js.lt_opt (PredictionRequest.days_ahead body) 1
            || Js.gt_opt (PredictionRequest.days_ahead body) 365) eqn:H2;
    [right; right; reflexivity|].
  left. apply checks_valid; assumption.
Qed.

(** ** The upstream call of [POST /api/predict] *)

Section PredictUpstream.

Variable env : Env.t.
Variable now : string.
Variable net : Fetch.Network MLServiceResponse.t.

Lemma POST_upstream_not_ok (body : PredictionRequest.t)
    (response : Fetch.Response MLServiceResponse.t) :
  valid_request body ->
  net (predict_call env body) = inr response ->
  Fetch.ok response = false ->
  PredictRoute.POST env now net (inr body)
  = ([predict_call env body],
     match Fetch.text response with
     | inl e => Eff.outcome (PredictRoute.on_error e)
     | inr errorText =>
         inr (if (Fetch.status response >=? 500)%Z
              then NextResponse.json
                     (PredictJson.Error PredictRoute.unavailable_message) 503
              else if NextResponse.accepted (Fetch.status response)
              then NextResponse.json
                     (PredictJson.Error ("ML service error: " ++ errorText))
                     (Fetch.status response)
              else NextResponse.json
                     (PredictJson.Error PredictRoute.unexpected_message) 500)
     end).
Proof.
  intros Hvalid Hnet Hok.
  destruct (valid_request_checks body Hvalid) as [H1 H2].
  unfold PredictRoute.POST, PredictRoute.POST_try, Eff.bind, Eff.await,
    Eff.fetch, Eff.try_catch.
  rewrite H1, H2. fold (predict_call env body). rewrite Hnet, Hok.
  cbn [negb].
  destruct (Fetch.text response) as [e | errorText].
  - rewrite (on_error_run e). reflexivity.
  - destruct (Fetch.status response >=? 500)%Z; [reflexivity|].
    destruct (NextResponse.accepted (Fetch.status response)) eqn:Hacc.
    + rewrite (respond_accepted _ _ Hacc). reflexivity.
    + destruct (respond_refused
                  (PredictJson.Error ("ML service error: " ++ errorText))
                  _ Hacc) as (e & -> & He & _).
      cbn. rewrite He. reflexivity.
Qed.

Lemma POST_success (body : PredictionRequest.t)
    (response : Fetch.Response MLServiceResponse.t)
    (ml : MLServiceResponse.t) (ups : list MLServicePrediction.t) :
  valid_request body ->
  net (predict_call env body) = inr response ->
  Fetch.ok response = true ->
  Fetch.json response = inr ml ->
  MLServiceResponse.success ml = true ->
  MLServiceResponse.predictions ml = Some ups ->
  PredictRoute.POST env now net (inr body)
  = ([predict_call env body], inr (success_answer now body ups)).
Proof.
  intros Hvalid Hnet Hok Hjson Hsucc Hpreds.
  destruct (valid_request_checks body Hvalid) as [H1 H2].
  unfold PredictRoute.POST, PredictRoute.POST_try, Eff.bind, Eff.await,
    Eff.fetch, Eff.try_catch.
  rewrite H1, H2. fold (predict_call env body). rewrite Hnet, Hok.
  cbn [negb]. rewrite Hjson, Hsucc, Hpreds. reflexivity.
Qed.

(** A valid request: the whole run, path by path. *)
Lemma POST_valid (body : PredictionRequest.t) :
  valid_request body ->
  PredictRoute.POST env now net (inr body)
  = ([predict_call env body],
     match net (predict_call env body) with
     | inl e => Eff.outcome (PredictRoute.on_error e)
     | inr response =>
         if Fetch.ok response then
           match Fetch.json response with
           | inl e => Eff.outcome (PredictRoute.on_error e)
           | inr ml =>
               match MLServiceResponse.success ml,
                     MLServiceResponse.predictions ml with
               | true, Some ups => inr (success_answer now body ups)
               | _, _ => inr (semantic_failure_answer ml)
               end
           end
         else
           match Fetch.text response with
           | inl e => Eff.outcome (PredictRoute.on_error e)
           | inr errorText =>
               inr (if (Fetch.status response >=? 500)%Z
                    then NextResponse.json
                           (PredictJson.Error PredictRoute.unavailable_message)
                           503
                    else if NextResponse.accepted (Fetch.status response)
                    then NextResponse.json
                           (PredictJson.Error
                              ("ML service error: " ++ errorText))
                           (Fetch.status response)
                    else NextResponse.json
                           (PredictJson.Error PredictRoute.unexpected_message)
                           500)
           end
     end).
Proof.
  intros Hvalid.
  destruct (net (predict_call env body)) as [e | response] eqn:Hnet.
  - destruct (valid_request_checks body Hvalid) as [H1 H2].
    unfold PredictRoute.POST, PredictRoute.POST_try, Eff.bind, Eff.await,
      Eff.fetch, Eff.try_catch.
    rewrite H1, H2. fold (predict_call env body). rewrite Hnet.
    rewrite (on_error_run e). reflexivity.
  - destruct (Fetch.ok response) eqn:Hok.
    + destruct (Fetch.json response) as [e | ml] eqn:Hjson.
      * destruct (valid_request_checks body Hvalid) as [H1 H2].
        unfold PredictRoute.POST, PredictRoute.POST_try, Eff.bind, Eff.await,
          Eff.fetch, Eff.try_catch.
        rewrite H1, H2. fold (predict_call env body).
        rewrite Hnet, Hok. cbn [negb]. rewrite Hjson.
        rewrite (on_error_run e). reflexivity.
      * destruct (MLServiceResponse.success ml) eqn:Hs;
          [destruct (MLServiceResponse.predictions ml) as [ups |] eqn:Hp|].
        -- apply (POST_success body response ml ups);
             assumption.
        -- destruct (valid_request_checks body Hvalid) as [H1 H2].
           unfold PredictRoute.POST, PredictRoute.POST_try, Eff.bind,
             Eff.await, Eff.fetch, Eff.try_catch.
           rewrite H1, H2. fold (predict_call env body).
           rewrite Hnet, Hok. cbn [negb]. rewrite Hjson, Hs, Hp.
           reflexivity.
        -- destruct (valid_request_checks body Hvalid) as [H1 H2].
           unfold PredictRoute.POST, PredictRoute.POST_try, Eff.bind,
             Eff.await, Eff.fetch, Eff.try_catch.
           rewrite H1, H2. fold (predict_call env body).
           rewrite Hnet, Hok. cbn [negb]. rewrite Hjson, Hs.
           reflexivity.
    + apply POST_upstream_not_ok; assumption.
Qed.

(** Every answer with a prediction body comes from the success path. *)
Lemma POST_unreadable (e : Js.JsError) :
  PredictRoute.POST env now net (inl e)
  = ([], Eff.outcome (PredictRoute.on_error e)).
Proof.
  unfold PredictRoute.POST, PredictRoute.POST_try, Eff.try_catch, Eff.bind,
    Eff.await.
  rewrite (on_error_run e). reflexivity.
Qed.

Ltac catch_clause_answers_error :=
  match goal with
  | H : context [PredictRoute.on_error ?e] |- _ =>
      let He := fresh "He" in
      destruct (on_error_answer e) as (? & ? & He);
      rewrite He in H; discriminate H
  end.

Lemma POST_Ok_inv (request_json : Js.JsError + PredictionRequest.t)
    (log : list Fetch.Call) (st : Z) (s : PredictJson.Success) :
  PredictRoute.POST env now net request_json
  = (log, inr (NextResponse.mk (PredictJson.Ok s) st)) ->
  exists body response ml ups,
    request_json = inr body
    /\ net (predict_call env body) = inr response
    /\ Fetch.ok response = true
    /\ Fetch.json response = inr ml
    /\ MLServiceResponse.success ml = true
    /\ MLServiceResponse.predictions ml = Some ups
    /\ log = [predict_call env body]
    /\ NextResponse.mk (PredictJson.Ok s) st = success_answer now body ups.
Proof.
  intros H.
  destruct request_json as [e | body].
  { rewrite POST_unreadable in H. injection H as _ H.
    catch_clause_answers_error. }
  destruct (valid_or_invalid body) as [Hvalid | Hinvalid].
  2: { destruct (POST_invalid env now net body Hinvalid) as [msg Hmsg].
       rewrite Hmsg in H. discriminate H. }
  rewrite (POST_valid body Hvalid) in H. injection H as <- H.
  destruct (net (predict_call env body)) as [e | response] eqn:Hnet;
    [catch_clause_answers_error|].
  destruct (Fetch.ok response) eqn:Hok.
  - destruct (Fetch.json response) as [e | ml] eqn:Hjson;
      [catch_clause_answers_error|].
    destruct (MLServiceResponse.success ml) eqn:Hs;
      [destruct (MLServiceResponse.predictions ml) as [ups |] eqn:Hp|];
      try discriminate H.
    exists body, response, ml, ups.
    repeat split; try assumption; try reflexivity. congruence.
  - destruct (Fetch.text response) as [e | errorText];
      [catch_clause_answers_error|].
    repeat case_match; discriminate H.
Qed.

(** The route never throws: every run ends in an answer. *)
Lemma POST_answers (request_json : Js.JsError + PredictionRequest.t) :
  exists res, Eff.outcome (PredictRoute.POST env now net request_json) = inr res.
Proof.
  assert (forall e, exists res,
            Eff.outcome (PredictRoute.on_error e) = inr res) as Hcatch.
  { intros e. destruct (on_error_answer e) as (msg & st & ->). eauto. }
  destruct request_json as [e | body].
  { rewrite POST_unreadable. apply Hcatch. }
  destruct (valid_or_invalid body) as [Hvalid | Hinvalid].
  2: { destruct (POST_invalid env now net body Hinvalid) as [msg ->]. eauto. }
  rewrite (POST_valid body Hvalid). cbn [Eff.outcome snd].
  repeat case_match; eauto.
Qed.

End PredictUpstream.

(** ** The upstream call of [GET /api/parks] *)

Section ParksUpstream.

Variable env : Env.t.
Variable now : string.
Variable net : Fetch.Network (list Park.t).

Lemma parks_on_error_run (e : Js.JsError) :
  ParksRoute.on_error e = ([], Eff.outcome (ParksRoute.on_error e)).
Proof.
  unfold ParksRoute.on_error. repeat case_match; reflexivity.
Qed.

Lemma GET_upstream_not_ok (response : Fetch.Response (list Park.t)) :
  net (parks_call env) = inr response ->
  Fetch.ok response = false ->
  ParksRoute.GET env now net
  = ([parks_call env],
     if (Fetch.status response >=? 500)%Z
     then inr (NextResponse.json
                 (ParksJson.Error ParksRoute.unavailable_message) 503)
     else
       match Fetch.text response with
       | inl e => Eff.outcome (ParksRoute.on_error e)
       | inr errorText =>
           inr (if NextResponse.accepted (Fetch.status response)
                then NextResponse.json
                       (ParksJson.Error ("ML service error: " ++ errorText))
                       (Fetch.status response)
                else NextResponse.json
                       (ParksJson.Error ParksRoute.unexpected_message) 500)
       end).
Proof.
  intros Hnet Hok.
  unfold ParksRoute.GET, ParksRoute.GET_try, Eff.bind, Eff.fetch, Eff.await,
    Eff.try_catch.
  fold (parks_call env). rewrite Hnet, Hok. cbn [negb].
  destruct (Fetch.status response >=? 500)%Z; [reflexivity|].
  destruct (Fetch.text response) as [e | errorText].
  - rewrite (parks_on_error_run e). reflexivity.
  - destruct (NextResponse.accepted (Fetch.status response)) eqn:Hacc.
    + rewrite (respond_accepted _ _ Hacc). reflexivity.
    + destruct (respond_refused
                  (ParksJson.Error ("ML service error: " ++ errorText))
                  _ Hacc) as (e & -> & _ & He).
      cbn. rewrite He. reflexivity.
Qed.

Lemma GET_success (response : Fetch.Response (list Park.t))
    (parks : list Park.t) :
  net (parks_call env) = inr response ->
  Fetch.ok response = true ->
  Fetch.json response = inr parks ->
  ParksRoute.GET env now net
  = ([parks_call env],
     inr (NextResponse.json_ok
            (ParksJson.Ok
               (ParksJson.mkListing
                  (List.map ParksRoute.add_coordinates parks)
                  (length parks) now)))).
Proof.
  intros Hnet Hok Hjson.
  unfold ParksRoute.GET, ParksRoute.GET_try, Eff.bind, Eff.fetch, Eff.await,
    Eff.try_catch.
  fold (parks_call env). rewrite Hnet, Hok. cbn [negb]. rewrite Hjson.
  cbn. rewrite length_map. reflexivity.
Qed.

End ParksUpstream.

(** ** Claims about the two proxy routes *)

(** C4 (amended): when the upstream answers a prediction call or a listing
    call with a status outside 200..299 and the text of that answer can be
    read, the route answers 503 with the fixed unavailable message,
    whatever the upstream text, if that status is at least 500 (the listing
    route does not read the text there, so for it the text need not be
    readable); if the status is one of 300..499 other than 304 it answers
    with the upstream status itself and the message "ML service error: "
    followed by the upstream text. *)
Theorem C4_upstream_failure_status (env : Env.t) (now : string) :
  (forall (net : Fetch.Network MLServiceResponse.t) body response errorText,
     valid_request body ->
     net (predict_call env body) = inr response ->
     Fetch.ok response = false ->
     Fetch.text response = inr errorText ->
     ((500 <= Fetch.status response)%Z ->
      Eff.outcome (PredictRoute.POST env now net (inr body))
      = inr (NextResponse.json
               (PredictJson.Error
                  "ML service is currently unavailable. Please try again later.")
               503))
     /\ ((300 <= Fetch.status response < 500)%Z ->
         Fetch.status response <> 304%Z ->
         Eff.outcome (PredictRoute.POST env now net (inr body))
         = inr (NextResponse.json
                  (PredictJson.Error ("ML service error: " ++ errorText))
                  (Fetch.status response))))
  /\ (forall (net : Fetch.Network (list Park.t)) response,
        net (parks_call env) = inr response ->
        Fetch.ok response = false ->
        ((500 <= Fetch.status response)%Z ->
         Eff.outcome (ParksRoute.GET env now net)
         = inr (NextResponse.json
                  (ParksJson.Error
                     "ML service is currently unavailable. Please try again later.")
                  503))
        /\ (forall errorText,
              Fetch.text response = inr errorText ->
              (300 <= Fetch.status response < 500)%Z ->
              Fetch.status response <> 304%Z ->
              Eff.outcome (ParksRoute.GET env now net)
              = inr (NextResponse.json
                       (ParksJson.Error ("ML service error: " ++ errorText))
                       (Fetch.status response)))).
Proof.
  split.
  - intros net body response errorText Hvalid Hnet Hok Htext.
    rewrite (POST_upstream_not_ok env now net body response Hvalid Hnet Hok).
    unfold Eff.outcome. cbn [snd]. rewrite Htext.
    split.
    + intros Hst.
      assert ((Fetch.status response >=? 500)%Z = true) as -> by lia.
      reflexivity.
    + intros Hst Hne.
      assert ((Fetch.status response >=? 500)%Z = false) as -> by lia.
      rewrite (accepted_client_status _ Hst Hne). reflexivity.
  - intros net response Hnet Hok.
    rewrite (GET_upstream_not_ok env now net response Hnet Hok).
    unfold Eff.outcome. cbn [snd].
    split.
    + intros Hst.
      assert ((Fetch.status response >=? 500)%Z = true) as -> by lia.
      reflexivity.
    + intros errorText Htext Hst Hne.
      assert ((Fetch.status response >=? 500)%Z = false) as -> by lia.
      rewrite Htext, (accepted_client_status _ Hst Hne). reflexivity.
Qed.

(** C5: on true success every upstream record [{date, predicted_visitors,
    lower_bound, upper_bound}] appears at the same index of the answer as
    [{ds, yhat, yhat_lower, yhat_upper}] with the same four values and no
    other field, and the answer has as many points as the upstream had
    records. *)
Theorem C5_translation_is_renaming (env : Env.t) (now : string)
    (net : Fetch.Network MLServiceResponse.t) (body : PredictionRequest.t)
    (response : Fetch.Response MLServiceResponse.t)
    (ml : MLServiceResponse.t) (ups : list MLServicePrediction.t) :
  valid_request body ->
  net (predict_call env body) = inr response ->
  Fetch.ok response = true ->
  Fetch.json response = inr ml ->
  MLServiceResponse.success ml = true ->
  MLServiceResponse.predictions ml = Some ups ->
  exists s,
    Eff.outcome (PredictRoute.POST env now net (inr body))
    = inr (NextResponse.json_ok (PredictJson.Ok s))
    /\ length (PredictionResponse.predictions (PredictJson.response_data s))
       = length ups
    /\ forall (i : nat) pred,
         ups !! i = Some pred ->
         PredictionResponse.predictions (PredictJson.response_data s) !! i
         = Some (PredictionPoint.mk
                   (MLServicePrediction.date pred)
                   (MLServicePrediction.predicted_visitors pred)
                   (MLServicePrediction.lower_bound pred)
                   (MLServicePrediction.upper_bound pred)
                   None None None).
Proof.
  intros Hvalid Hnet Hok Hjson Hsucc Hpreds.
  rewrite (POST_success env now net body response ml ups
             Hvalid Hnet Hok Hjson Hsucc Hpreds).
  eexists. split; [reflexivity|]. cbn.
  split.
  - apply length_map.
  - intros i pred Hi.
    change (map PredictRoute.translate ups) with (PredictRoute.translate <$> ups).
    rewrite list_lookup_fmap, Hi. reflexivity.
Qed.

(** C9: every answer of the route that carries a prediction body has status
    200, [confidence_level] 80, [model_performance] [{mape: 0, mae: 0,
    rmse: 0}], the generation time as [timestamp] and the request body it
    received as [request_params]. *)
Theorem C9_success_envelope (env : Env.t) (now : string)
    (net : Fetch.Network MLServiceResponse.t)
    (request_json : Js.JsError + PredictionRequest.t)
    (log : list Fetch.Call) (res : NextResponse.t PredictJson.t)
    (s : PredictJson.Success) :
  PredictRoute.POST env now net request_json = (log, inr res) ->
  NextResponse.body res = PredictJson.Ok s ->
  NextResponse.status res = 200%Z
  /\ PredictionResponse.confidence_level (PredictJson.response_data s) = 80%Q
  /\ PredictionResponse.model_performance (PredictJson.response_data s)
     = Some (ModelPerformance.mk 0%Q 0%Q 0%Q)
  /\ PredictJson.timestamp s = now
  /\ request_json = inr (PredictJson.request_params s).
Proof.
  intros Hrun Hbody. destruct res as [b st]. cbn in Hbody. subst b.
  apply POST_Ok_inv in Hrun
    as (body & response & ml & ups & -> & _ & _ & _ & _ & _ & _ & Hans).
  unfold success_answer, NextResponse.json_ok in Hans.
  injection Hans as -> ->. cbn. repeat split; reflexivity.
Qed.

(** ** [GET /api/parks]: enrichment *)

Lemma add_coordinates_lookup (parks : list Park.t) (i : nat) (park : Park.t) :
  parks !! i = Some park ->
  List.map ParksRoute.add_coordinates parks !! i
  = Some (ParksRoute.add_coordinates park).
Proof.
  intros Hi.
  change (map ParksRoute.add_coordinates parks)
    with (ParksRoute.add_coordinates <$> parks).
  rewrite list_lookup_fmap, Hi. reflexivity.
Qed.

Lemma YELL_coordinates :
  ParkCoordinates.PARK_COORDINATES !! "YELL"
  = Some (Coordinates.mk 44.428%Q (-110.588)%Q).
Proof. vm_compute. reflexivity. Qed.

(** C8: in a successful listing, the park found at any index of the upstream
    list is answered at the same index; if its identifier is "YELL" it
    carries latitude 44.428 and longitude -110.588, and if its identifier
    is not a key of the coordinate table it carries neither field; the
    answer is a listing (status 200) whatever identifiers occur. *)
Theorem C8_coordinates_attached (env : Env.t) (now : string)
    (net : Fetch.Network (list Park.t))
    (response : Fetch.Response (list Park.t)) (parks : list Park.t) :
  net (parks_call env) = inr response ->
  Fetch.ok response = true ->
  Fetch.json response = inr parks ->
  exists listing,
    ParksRoute.GET env now net
    = ([parks_call env], inr (NextResponse.json_ok (ParksJson.Ok listing)))
    /\ forall (i : nat) park,
         parks !! i = Some park ->
         exists park',
           ParksJson.parks listing !! i = Some park'
           /\ Park.park_id park' = Park.park_id park
           /\ (Park.park_id park = "YELL" ->
               Park.latitude park' = Some 44.428%Q
               /\ Park.longitude park' = Some (-110.588)%Q)
           /\ (ParkCoordinates.PARK_COORDINATES !! Park.park_id park = None ->
               Park.latitude park' = None /\ Park.longitude park' = None).
Proof.
  intros Hnet Hok Hjson.
  rewrite (GET_success env now net response parks Hnet Hok Hjson).
  eexists. split; [reflexivity|]. cbn [ParksJson.parks].
  intros i park Hi. exists (ParksRoute.add_coordinates park).
  split; [apply add_coordinates_lookup; exact Hi|].
  split; [reflexivity|].
  unfold ParksRoute.add_coordinates, ParkCoordinates.lookup_lat,
    ParkCoordinates.lookup_lng. cbn [Park.latitude Park.longitude].
  split.
  - intros ->. rewrite YELL_coordinates. split; reflexivity.
  - intros ->. split; reflexivity.
Qed.

(** C10: a successful listing answers with every upstream park, in order
    and not filtered: the answered array has the length of the upstream
    list, [total] is that length, and the park at any index is the
    upstream park of that index with every property as the upstream sent
    it, except [latitude] and [longitude], which are those of the table
    for its identifier. A park whose identifier is not in the table stays
    in the array, at its index, without the two. *)
Theorem C10_listing_is_unfiltered (env : Env.t) (now : string)
    (net : Fetch.Network (list Park.t))
    (response : Fetch.Response (list Park.t)) (parks : list Park.t) :
  net (parks_call env) = inr response ->
  Fetch.ok response = true ->
  Fetch.json response = inr parks ->
  exists listing,
    ParksRoute.GET env now net
    = ([parks_call env], inr (NextResponse.json_ok (ParksJson.Ok listing)))
    /\ length (ParksJson.parks listing) = length parks
    /\ ParksJson.total listing = length parks
    /\ (forall (i : nat) park,
          parks !! i = Some park ->
          ParksJson.parks listing !! i
          = Some (Park.mk
                    (Park.park_id park) (Park.name park) (Park.state park)
                    (Park.region park) (Park.park_type park)
                    (Park.has_model park) (Park.data_available park)
                    (Park.last_training park)
                    (Coordinates.lat
                       <$> ParkCoordinates.PARK_COORDINATES
                           !! Park.park_id park)
                    (Coordinates.lng
                       <$> ParkCoordinates.PARK_COORDINATES
                           !! Park.park_id park)
                    (Park.visitor_stats park) (Park.metadata park)))
    /\ (forall (i : nat) park,
          parks !! i = Some park ->
          ParkCoordinates.PARK_COORDINATES !! Park.park_id park = None ->
          ParksJson.parks listing !! i
          = Some (Park.mk
                    (Park.park_id park) (Park.name park) (Park.state park)
                    (Park.region park) (Park.park_type park)
                    (Park.has_model park) (Park.data_available park)
                    (Park.last_training park) None None
                    (Park.visitor_stats park) (Park.metadata park))).
Proof.
  intros Hnet Hok Hjson.
  rewrite (GET_success env now net response parks Hnet Hok Hjson).
  eexists. split; [reflexivity|]. cbn [ParksJson.parks ParksJson.total].
  split; [apply length_map|].
  split; [reflexivity|].
  assert (forall (i : nat) park,
            parks !! i = Some park ->
            List.map ParksRoute.add_coordinates parks !! i
            = Some (ParksRoute.add_coordinates park)) as Hat.
  { intros i park Hi. apply add_coordinates_lookup. exact Hi. }
  split.
  - intros i park Hi. rewrite (Hat i park Hi). reflexivity.
  - intros i park Hi Hnone. rewrite (Hat i park Hi).
    unfold ParksRoute.add_coordinates, ParkCoordinates.lookup_lat,
      ParkCoordinates.lookup_lng. rewrite Hnone. reflexivity.
Qed.

(** ** [GET /api/health] *)

Section Health.

Variable env : Env.t.
Variable startTime endTime : Z.
Variable now : string.
Variable net : Fetch.Network HealthResponse.t.

Lemma is_healthy_true (s : option string) :
  HealthRoute.is_healthy s = true <-> s = Some "healthy".
Proof.
  destruct s as [v|]; simpl.
  - rewrite String.eqb_eq. split; congruence.
  - split; discriminate.
Qed.

Lemma ok_true {J : Type} (r : Fetch.Response J) :
  Fetch.ok r = true <-> (200 <= Fetch.status r <= 299)%Z.
Proof. unfold Fetch.ok. rewrite andb_true_iff, !Z.leb_le. reflexivity. Qed.

Lemma upstream_healthy_true (o : Js.JsError + Fetch.Response HealthResponse.t) :
  upstream_healthy o = true <-> UpstreamHealthy o.
Proof.
  unfold upstream_healthy, UpstreamHealthy. split.
  - destruct o as [e | response]; [discriminate|].
    rewrite andb_true_iff, ok_true. intros [Hok Hbody].
    destruct (Fetch.json response) as [e | mlHealth] eqn:Hjson; [discriminate|].
    apply is_healthy_true in Hbody. eauto 6.
  - intros (response & mlHealth & -> & Hok & Hjson & Hst).
    rewrite Hjson, andb_true_iff, ok_true, is_healthy_true. auto.
Qed.

(** What the [try ... catch] statement leaves in [mlServiceStatus]. *)
Lemma probe_status :
  exists p,
    HealthRoute.probe env net = ([health_call env], inr p)
    /\ HealthRoute.is_healthy (HealthRoute.mlServiceStatus p)
       = upstream_healthy (net (health_call env)).
Proof.
  unfold HealthRoute.probe, Eff.try_catch, Eff.bind, Eff.fetch, Eff.await,
    Eff.ret, upstream_healthy.
  fold (health_call env).
  destruct (net (health_call env)) as [e | response]; [eauto|].
  destruct (Fetch.ok response); [|eauto].
  destruct (Fetch.json response) as [e | mlHealth]; eauto.
Qed.

(** The answer of the route, by the decided predicate. *)
Lemma GET_health :
  exists data,
    HealthRoute.GET env startTime endTime now net
    = ([health_call env],
       inr (NextResponse.json data
              (if upstream_healthy (net (health_call env)) then 200%Z else 503%Z)))
    /\ HealthJson.status data
       = if upstream_healthy (net (health_call env)) then "healthy" else "degraded".
Proof.
  destruct probe_status as (p & Hp & Hst).
  unfold HealthRoute.GET. rewrite Hp. unfold Eff.bind.
  rewrite respond_health, Hst. eexists. split; reflexivity.
Qed.

End Health.

(** C3: the health route answers 200 with aggregate status "healthy"
    exactly when the upstream probe resolved with a 2xx status and a body
    whose status is the string "healthy"; in every other case (another
    status string, no status, a non-2xx answer, an unreadable body, or a
    rejected call) it answers 503 with aggregate status "degraded". *)
Theorem C3_health_status (env : Env.t) (startTime endTime : Z) (now : string)
    (net : Fetch.Network HealthResponse.t) :
  exists res,
    HealthRoute.GET env startTime endTime now net
    = ([health_call env], inr res)
    /\ ((NextResponse.status res = 200%Z
         /\ HealthJson.status (NextResponse.body res) = "healthy")
        <-> UpstreamHealthy (net (health_call env)))
    /\ ((NextResponse.status res = 503%Z
         /\ HealthJson.status (NextResponse.body res) = "degraded")
        <-> ~ UpstreamHealthy (net (health_call env))).
Proof.
  destruct (GET_health env startTime endTime now net) as (data & Hrun & Hst).
  rewrite Hrun. eexists. split; [reflexivity|].
  cbn [NextResponse.status NextResponse.body NextResponse.json].
  rewrite Hst, <- upstream_healthy_true.
  destruct (upstream_healthy (net (health_call env))); split; split;
    try (intros [? ?]); try intros ?; try split;
    congruence || discriminate || auto.
Qed.

(** ** The map aggregation *)

Section MapAggregation.

Variable net : Fetch.Network PredictJson.t.
Variable selectedMapDate : string.

Lemma settled_is_Some (park : Park.t) :
  is_Some (settled net selectedMapDate park)
  <-> call_succeeds net selectedMapDate park.
Proof.
  unfold settled, call_succeeds. split.
  - destruct (net (map_call selectedMapDate park)) as [e | response];
      [intros [? ?]; discriminate|].
    destruct (Fetch.ok response) eqn:Hok; [|intros [? ?]; discriminate].
    destruct (Fetch.json response) as [e | data] eqn:Hjson;
      [intros [? ?]; discriminate|].
    eauto.
  - intros (response & data & -> & -> & ->). eauto.
Qed.

Lemma settled_park_id (park : Park.t) (k : string) (data : PredictJson.t) :
  settled net selectedMapDate park = Some (k, data) -> k = Park.park_id park.
Proof.
  unfold settled. repeat case_match; congruence.
Qed.

(** A per-park promise never rejects. *)
Lemma predictionPromise_settles (park : Park.t) :
  Dashboard.predictionPromise net selectedMapDate park
  = ([map_call selectedMapDate park], inr (settled net selectedMapDate park)).
Proof.
  unfold Dashboard.predictionPromise, settled, Eff.try_catch, Eff.bind,
    Eff.fetch, Eff.await, Eff.ret.
  fold (map_call selectedMapDate park).
  destruct (net (map_call selectedMapDate park)) as [e | response];
    [reflexivity|].
  destruct (Fetch.ok response); [|reflexivity].
  destruct (Fetch.json response) as [e | data]; reflexivity.
Qed.

Lemma all_settle (parks : list Park.t) :
  Eff.all (List.map (Dashboard.predictionPromise net selectedMapDate) parks)
  = (List.map (map_call selectedMapDate) parks,
     inr (List.map (settled net selectedMapDate) parks)).
Proof.
  induction parks as [| park parks IH]; [reflexivity|].
  cbn [List.map Eff.all]. rewrite IH, predictionPromise_settles. reflexivity.
Qed.

Lemma gather_settles (parks : list Park.t) :
  Dashboard.gather net parks selectedMapDate
  = (List.map (map_call selectedMapDate) (List.filter Park.has_model parks),
     inr (Dashboard.collect
            (List.map (settled net selectedMapDate)
               (List.filter Park.has_model parks)))).
Proof.
  unfold Dashboard.gather, Eff.bind. rewrite all_settle.
  cbn. rewrite app_nil_r. reflexivity.
Qed.

Lemma loadMapPredictions_settles (parks : list Park.t) (st : Dashboard.State) :
  Dashboard.loadMapPredictions net parks selectedMapDate st
  = (List.map (map_call selectedMapDate) (List.filter Park.has_model parks),
     Dashboard.mkState
       (Dashboard.collect
          (List.map (settled net selectedMapDate)
             (List.filter Park.has_model parks)))
       false None).
Proof.
  unfold Dashboard.loadMapPredictions. rewrite gather_settles. reflexivity.
Qed.

End MapAggregation.

(** Reading the assembled object. *)
Section Collect.

Let step (m : gmap string PredictJson.t)
    (result : option (string * PredictJson.t)) : gmap string PredictJson.t :=
  match result with
  | Some (park_id, data) => PlainObject.assign park_id data m
  | None => m
  end.

(** No element of [results] assigns under [k]. *)
Let silent (k : string) (results : list (option (string * PredictJson.t)))
  : Prop :=
  Forall (fun r => forall d, r <> Some (k, d)) results.

Lemma fold_step_silent (results : list (option (string * PredictJson.t)))
    (m : gmap string PredictJson.t) (k : string) :
  silent k results -> fold_left step results m !! k = m !! k.
Proof.
  revert m. induction results as [| r results IH]; intros m H;
    [reflexivity|].
  apply Forall_cons in H as [Hr H]. cbn [fold_left]. rewrite (IH _ H).
  destruct r as [[k' d'] |]; [|reflexivity]. cbn [step].
  unfold PlainObject.assign.
  apply lookup_insert_ne. intros ->. exact (Hr d' eq_refl).
Qed.

(** The last assignment under a name is the one that stays. *)
Lemma collect_last (before after : list (option (string * PredictJson.t)))
    (k : string) (data : PredictJson.t) :
  silent k after ->
  Dashboard.collect (before ++ Some (k, data) :: after)%list !! k = Some data.
Proof.
  intros H. unfold Dashboard.collect. rewrite fold_left_app.
  cbn [fold_left]. fold step. rewrite (fold_step_silent _ _ _ H).
  unfold PlainObject.assign. apply lookup_insert_eq.
Qed.

Lemma collect_silent (results : list (option (string * PredictJson.t)))
    (k : string) :
  silent k results -> Dashboard.collect results !! k = None.
Proof.
  intros H. unfold Dashboard.collect. fold step.
  rewrite (fold_step_silent _ _ _ H). apply lookup_empty.
Qed.

Lemma collect_split (results : list (option (string * PredictJson.t)))
    (k : string) (data : PredictJson.t) :
  Dashboard.collect results !! k = Some data ->
  exists before after,
    results = (before ++ Some (k, data) :: after)%list /\ silent k after.
Proof.
  induction results as [| r results IH] using rev_ind; intros H.
  - rewrite (collect_silent [] k) in H by constructor. discriminate H.
  - unfold Dashboard.collect in H. rewrite fold_left_app in H.
    cbn [fold_left] in H. fold step in H.
    change (fold_left step results PlainObject.empty)
      with (Dashboard.collect results) in H.
    destruct r as [[k' d'] |]; cbn [step] in H;
      unfold PlainObject.assign in H.
    + destruct (decide (k' = k)) as [-> | Hne].
      * rewrite lookup_insert_eq in H. injection H as ->.
        exists results, []. split; [reflexivity | constructor].
      * rewrite lookup_insert_ne in H by exact Hne.
        destruct (IH H) as (before & after & -> & Hafter).
        exists before, (after ++ [Some (k', d')])%list.
        split; [rewrite <- app_assoc; reflexivity|].
        apply Forall_app. split; [exact Hafter|].
        constructor; [|constructor]. intros d Heq. congruence.
    + destruct (IH H) as (before & after & -> & Hafter).
      exists before, (after ++ [None])%list.
      split; [rewrite <- app_assoc; reflexivity|].
      apply Forall_app. split; [exact Hafter|].
      constructor; [|constructor]. intros d Heq. discriminate Heq.
Qed.

Lemma fold_step_lookup_Some (results : list (option (string * PredictJson.t)))
    (m : gmap string PredictJson.t) (k : string) (data : PredictJson.t) :
  fold_left step results m !! k = Some data ->
  m !! k = Some data \/ Some (k, data) ∈ results.
Proof.
  revert m. induction results as [| r results IH]; intros m H.
  - left. exact H.
  - cbn [fold_left] in H. apply IH in H as [H | H].
    + destruct r as [[k' d'] |]; cbn [step] in H;
        unfold PlainObject.assign in H.
      * destruct (decide (k' = k)) as [-> | Hne].
        -- rewrite lookup_insert_eq in H. injection H as ->.
           right. apply list_elem_of_here.
        -- rewrite lookup_insert_ne in H by exact Hne. left. exact H.
      * left. exact H.
    + right. apply list_elem_of_further. exact H.
Qed.

Lemma collect_lookup_Some (results : list (option (string * PredictJson.t)))
    (k : string) (data : PredictJson.t) :
  Dashboard.collect results !! k = Some data -> Some (k, data) ∈ results.
Proof.
  intros H. apply fold_step_lookup_Some in H as [H | H]; [|exact H].
  unfold PlainObject.empty in H. rewrite lookup_empty in H. discriminate H.
Qed.

End Collect.

(** What the promise of a park whose call succeeded resolves to. *)
Lemma settled_gives (net : Fetch.Network PredictJson.t) (date : string)
    (park : Park.t) (k : string) (data : PredictJson.t) :
  settled net date park = Some (k, data)
  <-> k = Park.park_id park
      /\ exists body,
           call_gives net date park body
           /\ data = Dashboard.keep_selected date body.
Proof.
  unfold settled, call_gives. split.
  - destruct (net (map_call date park)) as [e | response];
      [discriminate|].
    destruct (Fetch.ok response) eqn:Hok; [|discriminate].
    destruct (Fetch.json response) as [e | body] eqn:Hjson; [discriminate|].
    intros H. injection H as <- <-. eauto 8.
  - intros (-> & body & (response & -> & -> & ->) & ->). reflexivity.
Qed.

(** The filter of [loadMapPredictions] restricts an answer to the selected
    date and changes nothing else. *)
Lemma keep_selected_restricted (date : string) (body : PredictJson.t) :
  restricted_to date body (Dashboard.keep_selected date body).
Proof.
  destruct body as [msg | s]; cbn; [reflexivity|]. repeat split.
Qed.

(** The two readings of the assembled object together are the map of the
    assignments. *)
Lemma assembled_lookup (m : PlainObject.t PredictJson.t) (k : string)
    (data : PredictJson.t) :
  assembled m k data <-> m !! k = Some data.
Proof.
  unfold assembled, PlainObject.own, PlainObject.prototype. split.
  - intros [[Hne H] | [-> H]]; [|exact H].
    rewrite lookup_delete_ne in H by congruence. exact H.
  - intros H. destruct (decide (k = PlainObject.proto_key)) as [-> | Hne].
    + right. split; [reflexivity | exact H].
    + left. split; [exact Hne|].
      rewrite lookup_delete_ne by congruence. exact H.
Qed.

(** The parks after which nothing is assigned under [k] any more. *)
Lemma failed_later_silent (net : Fetch.Network PredictJson.t) (date : string)
    (k : string) (after : list Park.t) :
  Forall (fun later =>
            Park.park_id later = k -> ~ call_succeeds net date later) after
  <-> Forall (fun r => forall d, r <> Some (k, d))
        (List.map (settled net date) after).
Proof.
  rewrite Forall_map. apply Forall_iff. intros later. split.
  - intros Hfail d Hs. apply settled_gives in Hs as [-> (b & Hb & _)].
    apply Hfail; [reflexivity|].
    destruct Hb as (response & ? & ? & ?). unfold call_succeeds. eauto 8.
  - intros Hnone <- (response & body & H1 & H2 & H3).
    apply (Hnone (Dashboard.keep_selected date body)).
    apply settled_gives. split; [reflexivity|].
    exists body. split; [|reflexivity]. exists response. auto.
Qed.

(** The answer of the last park of its identifier whose call succeeded is
    what the object holds under that identifier. *)
Lemma last_success_stays (net : Fetch.Network PredictJson.t) (date : string)
    (qualifying before : list Park.t) (park : Park.t) (after : list Park.t)
    (body : PredictJson.t) :
  qualifying = (before ++ park :: after)%list ->
  call_gives net date park body ->
  Forall (fun later =>
            Park.park_id later = Park.park_id park ->
            ~ call_succeeds net date later) after ->
  Dashboard.collect (List.map (settled net date) qualifying)
  !! Park.park_id park
  = Some (Dashboard.keep_selected date body).
Proof.
  intros -> Hgives Hafter. rewrite map_app. cbn [List.map].
  assert (settled net date park
          = Some (Park.park_id park, Dashboard.keep_selected date body))
    as ->.
  { apply settled_gives. eauto. }
  apply collect_last, failed_later_silent, Hafter.
Qed.

(** C7: whatever each per-park call does (reject, answer with a non-2xx
    status, or answer with an unreadable body), the run does not throw and
    leaves the error state cleared: the aggregate message is set exactly
    when the orchestration itself throws, which it never does. The results
    of the calls that succeeded are assembled: the answer of a park with a
    model, restricted to the selected date and otherwise as received, sits
    in the object under the park's identifier (when several parks share an
    identifier, the last that succeeded); everything in the object is such
    an answer; and an identifier all of whose calls failed has nothing in
    the object. Under the name [__proto__] an answer is held as the
    prototype of the object and not as an own property. *)
Theorem C7_per_park_failure_is_absence (net : Fetch.Network PredictJson.t)
    (parks : list Park.t) (selectedMapDate : string) (st : Dashboard.State) :
  exists log m,
    Dashboard.loadMapPredictions net parks selectedMapDate st
    = (log, Dashboard.mkState m false None)
    /\ Eff.outcome (Dashboard.gather net parks selectedMapDate) = inr m
    /\ Dashboard.error
         (snd (Dashboard.loadMapPredictions net parks selectedMapDate st))
       = match Eff.outcome (Dashboard.gather net parks selectedMapDate) with
         | inl _ => Some Dashboard.load_failed_message
         | inr _ => None
         end
    /\ (forall before park after body,
          List.filter Park.has_model parks = (before ++ park :: after)%list ->
          call_gives net selectedMapDate park body ->
          Forall (fun later =>
                    Park.park_id later = Park.park_id park ->
                    ~ call_succeeds net selectedMapDate later) after ->
          exists data,
            restricted_to selectedMapDate body data
            /\ assembled m (Park.park_id park) data)
    /\ (forall k data,
          assembled m k data ->
          exists before park after body,
            List.filter Park.has_model parks = (before ++ park :: after)%list
            /\ Park.park_id park = k
            /\ call_gives net selectedMapDate park body
            /\ restricted_to selectedMapDate body data
            /\ Forall (fun later =>
                         Park.park_id later = k ->
                         ~ call_succeeds net selectedMapDate later) after)
    /\ (forall k,
          (forall park,
             park ∈ parks ->
             Park.has_model park = true ->
             Park.park_id park = k ->
             ~ call_succeeds net selectedMapDate park) ->
          forall data, ~ assembled m k data).
Proof.
  rewrite loadMapPredictions_settles, gather_settles.
  eexists _, _. split; [reflexivity|].
  split; [reflexivity|]. split; [reflexivity|].
  pose proof (failed_later_silent net selectedMapDate) as Hsilent.
  split; [|split].
  - intros before park after body Hsplit Hgives Hafter.
    exists (Dashboard.keep_selected selectedMapDate body).
    split; [apply keep_selected_restricted|].
    apply assembled_lookup.
    exact (last_success_stays net selectedMapDate _ before park after body
             Hsplit Hgives Hafter).
  - intros k data Hk. apply assembled_lookup in Hk.
    apply collect_split in Hk as (rbefore & rafter & Hsplit & Hafter).
    apply map_eq_app in Hsplit as (before & rest & Hparks & <- & Hrest).
    apply map_eq_cons in Hrest as (park & after & -> & Hs & <-).
    apply settled_gives in Hs as (-> & body & Hgives & ->).
    exists before, park, after, body.
    split; [exact Hparks|]. split; [reflexivity|]. split; [exact Hgives|].
    split; [apply keep_selected_restricted|]. apply Hsilent, Hafter.
  - intros k Hfail data Hk. apply assembled_lookup in Hk.
    rewrite collect_silent in Hk; [discriminate Hk|].
    apply Hsilent, Forall_forall. intros park Hin.
    apply list_elem_of_In, filter_In in Hin as [Hin Hmodel]. intros Hid.
    apply Hfail; [apply list_elem_of_In; exact Hin | exact Hmodel | exact Hid].
Qed.

(** ** The map aggregation through the prediction route *)

Section ThroughRoute.

Variable env : Env.t.
Variable now : string.
Variable link : Fetch.Call -> bool.
Variable upstream : Fetch.Network MLServiceResponse.t.

Lemma on_error_status (e : Js.JsError) :
  exists msg st,
    PredictRoute.on_error e
    = ([], inr (NextResponse.json (PredictJson.Error msg) st))
    /\ (st = 503 \/ st = 504 \/ st = 500)%Z.
Proof.
  unfold PredictRoute.on_error.
  repeat case_match; eauto 8.
Qed.

(** An error body never travels with a 2xx status. *)
Lemma POST_Error_status (request_json : Js.JsError + PredictionRequest.t)
    (log : list Fetch.Call) (st : Z) (msg : string) :
  PredictRoute.POST env now upstream request_json
  = (log, inr (NextResponse.mk (PredictJson.Error msg) st)) ->
  ~ (200 <= st <= 299)%Z.
Proof.
  intros H.
  assert (forall e,
            Eff.outcome (PredictRoute.on_error e)
            = inr (NextResponse.mk (PredictJson.Error msg) st) ->
            ~ (200 <= st <= 299)%Z) as Hcatch.
  { intros e He. destruct (on_error_status e) as (msg' & st' & Heq & Hst).
    rewrite Heq in He. unfold NextResponse.json in He. cbn in He.
    simplify_eq. lia. }
  destruct request_json as [e | body].
  { rewrite POST_unreadable in H. injection H as _ H. eauto. }
  destruct (valid_or_invalid body) as [Hvalid | Hinvalid].
  2: { destruct (POST_invalid env now upstream body Hinvalid) as [m Hm].
       rewrite Hm in H. unfold NextResponse.json in H. simplify_eq. lia. }
  rewrite (POST_valid env now upstream body Hvalid) in H.
  injection H as _ H.
  destruct (upstream (predict_call env body)) as [e | response]; [eauto|].
  destruct (Fetch.ok response) eqn:Hok.
  - destruct (Fetch.json response) as [e | ml]; [eauto|].
    unfold semantic_failure_answer, success_answer, NextResponse.json,
      NextResponse.json_ok in H.
    repeat case_match; simplify_eq; lia.
  - destruct (Fetch.text response) as [e | errorText]; [eauto|].
    unfold Fetch.ok in Hok. apply andb_false_iff in Hok.
    unfold NextResponse.json in H.
    repeat case_match; simplify_eq; lia.
Qed.

(** An answer of the route that the browser sees as [ok] carries the
    translation of what the upstream returned. *)
Lemma network_ok_inv (c : Fetch.Call)
    (response : Fetch.Response PredictJson.t) (data : PredictJson.t) :
  Api.network env now link upstream c = inr response ->
  Fetch.ok response = true ->
  Fetch.json response = inr data ->
  exists body up ml ups,
    upstream (predict_call env body) = inr up
    /\ Fetch.json up = inr ml
    /\ MLServiceResponse.predictions ml = Some ups
    /\ data = NextResponse.body (success_answer now body ups).
Proof.
  unfold Api.network. intros Hnet Hok Hjson.
  destruct (link c); cbn [negb] in Hnet; [|discriminate Hnet].
  destruct (String.eqb (Fetch.url c) "/api/predict"
            && String.eqb (Fetch.method c) "POST").
  - destruct (PredictRoute.POST env now upstream (Api.request_json c))
      as [log [e | [b st]]] eqn:Hrun; cbn [Eff.outcome snd] in Hnet.
    + injection Hnet as <-. discriminate Hjson.
    + injection Hnet as <-. cbn in Hjson. injection Hjson as <-.
      apply ok_true in Hok. cbn in Hok.
      destruct b as [msg | s].
      * exfalso. exact (POST_Error_status _ _ _ _ Hrun Hok).
      * apply POST_Ok_inv in Hrun
          as (body & up & ml & ups & _ & Hup & _ & Hj & _ & Hp & _ & Hans).
        exists body, up, ml, ups. rewrite <- Hans. auto.
  - injection Hnet as <-. discriminate Hjson.
Qed.

End ThroughRoute.

(** Filtering a list with at most one record per date down to one date
    leaves nothing or exactly one point of that date. *)
Lemma filter_one_date (date : string) (ups : list MLServicePrediction.t) :
  NoDup (List.map MLServicePrediction.date ups) ->
  let kept :=
    List.filter (fun pred => String.eqb (PredictionPoint.ds pred) date)
      (List.map PredictRoute.translate ups) in
  kept = [] \/ exists pt, kept = [pt] /\ PredictionPoint.ds pt = date.
Proof.
  cbn zeta. induction ups as [| up ups IH]; intros Hnd; [left; reflexivity|].
  cbn [List.map] in Hnd. apply NoDup_cons in Hnd as [Hnotin Hnd].
  cbn [List.map List.filter].
  destruct (String.eqb (PredictionPoint.ds (PredictRoute.translate up)) date)
    eqn:Heq.
  - apply String.eqb_eq in Heq. right.
    exists (PredictRoute.translate up). split; [|exact Heq].
    f_equal.
    destruct (List.filter _ (List.map PredictRoute.translate ups))
      as [| pt rest] eqn:Hrest; [reflexivity|].
    exfalso. apply Hnotin.
    assert (In pt (List.filter
                     (fun pred => String.eqb (PredictionPoint.ds pred) date)
                     (List.map PredictRoute.translate ups))) as Hin
      by (rewrite Hrest; left; reflexivity).
    apply filter_In in Hin as [Hin Hds].
    apply String.eqb_eq in Hds.
    apply in_map_iff in Hin as (up' & <- & Hin).
    apply list_elem_of_In, in_map_iff. exists up'. split; [|exact Hin].
    cbn in Hds, Heq. congruence.
  - apply IH. exact Hnd.
Qed.

(** The request the dashboard sends for the day after the anchor date. *)
Lemma request_day_after_anchor (park : Park.t) :
  Dashboard.request park "2025-07-05"
  = PredictionRequest.mk (Some (Park.park_id park)) (Some "2025-07-04")
      (Some 2%Q).
Proof. reflexivity. Qed.

(** C2: with selected date "2025-07-05" and the calls answered by the
    prediction route over an upstream that returns at most one record per
    date, the run issues one call per park with [has_model = true], in
    order, each a [POST] to [/api/predict] with [start_date] "2025-07-04"
    and one and the same [days_ahead] of at least 2; and every entry of the
    resulting map set is a prediction body whose [predictions] is empty or
    is exactly one point with [ds] "2025-07-05". *)
Theorem C2_day_after_anchor (env : Env.t) (now : string)
    (link : Fetch.Call -> bool) (upstream : Fetch.Network MLServiceResponse.t)
    (parks : list Park.t) (st : Dashboard.State) :
  one_record_per_date upstream ->
  exists log m,
    Dashboard.loadMapPredictions (Api.network env now link upstream) parks
      "2025-07-05" st
    = (log, Dashboard.mkState m false None)
    /\ (exists d,
          (2 <= d)%Q
          /\ log = List.map
                     (fun park =>
                        Fetch.mkCall "/api/predict" "POST"
                          (Some (PredictionRequest.mk
                                   (Some (Park.park_id park))
                                   (Some "2025-07-04") (Some d)))
                          None)
                     (List.filter Park.has_model parks))
    /\ (forall k data,
          m !! k = Some data ->
          exists s,
            data = PredictJson.Ok s
            /\ (PredictionResponse.predictions (PredictJson.response_data s) = []
                \/ exists pt,
                     PredictionResponse.predictions (PredictJson.response_data s)
                     = [pt]
                     /\ PredictionPoint.ds pt = "2025-07-05")).
Proof.
  intros Hone. rewrite loadMapPredictions_settles.
  eexists _, _. split; [reflexivity|]. split.
  - exists 2%Q. split; [discriminate|]. reflexivity.
  - intros k data Hk.
    apply collect_lookup_Some, list_elem_of_In, in_map_iff in Hk
      as (park & Hs & _).
    unfold settled in Hs.
    destruct (Api.network env now link upstream (map_call "2025-07-05" park))
      as [e | response] eqn:Hnet; [discriminate Hs|].
    destruct (Fetch.ok response) eqn:Hok; [|discriminate Hs].
    destruct (Fetch.json response) as [e | data0] eqn:Hjson; [discriminate Hs|].
    injection Hs as _ <-.
    destruct (network_ok_inv _ _ _ _ _ _ _ Hnet Hok Hjson)
      as (body & up & ml & ups & Hup & Hj & Hp & ->).
    pose proof (filter_one_date "2025-07-05" ups (Hone _ _ _ _ Hup Hj Hp))
      as Hkept.
    eexists. split; [reflexivity|]. exact Hkept.
Qed.

(** ** The claims at the sample inputs *)

Lemma sample_body_valid : valid_request sample_body.
Proof.
  unfold valid_request, sample_body. cbn.
  split; [exists "YELL"; split; [reflexivity | discriminate]|].
  split; [exists "2025-07-04"; split; [reflexivity | discriminate]|].
  exists 5%Q. split; [reflexivity|]. split; discriminate.
Qed.

Lemma sample_upstream_one_record_per_date : one_record_per_date sample_upstream.
Proof.
  intros c response ml ups Hup Hjson Hpreds.
  unfold sample_upstream in Hup. injection Hup as <-.
  cbn in Hjson. injection Hjson as <-.
  cbn in Hpreds. injection Hpreds as <-.
  cbn. apply NoDup_cons. split.
  - intros Hin. apply list_elem_of_singleton in Hin. discriminate Hin.
  - apply NoDup_singleton.
Qed.

(** C4 at an upstream that answers 404 with the text "Park not found". *)
Lemma C4_witness :
  Eff.outcome
    (PredictRoute.POST sample_env sample_now
       (failing_upstream 404 "Park not found") (inr sample_body))
  = inr (NextResponse.json
           (PredictJson.Error "ML service error: Park not found") 404).
Proof.
  destruct (C4_upstream_failure_status sample_env sample_now) as [Hpredict _].
  destruct (Hpredict (failing_upstream 404 "Park not found") sample_body _
              "Park not found" sample_body_valid eq_refl eq_refl eq_refl)
    as [_ Hclient].
  apply Hclient; [split; reflexivity || discriminate | discriminate].
Defined.

(** C4 as stated fails twice. An upstream answer 304 is not [ok] and below
    500, yet neither route answers 304 with the upstream text: the
    response cannot be built, and the [catch] clause answers 500 with its
    catch-all message. An upstream answer 500 whose text cannot be read is
    not answered 503 with the unavailable message by the prediction route,
    which reads the text first: the [catch] clause answers 500 again. *)
Lemma C4_counterexample :
  (exists response : Fetch.Response MLServiceResponse.t,
     failing_upstream 304 "Not Modified" (predict_call sample_env sample_body)
     = inr response
     /\ Fetch.ok response = false
     /\ (Fetch.status response < 500)%Z
     /\ Fetch.text response = inr "Not Modified"
     /\ Eff.outcome
          (PredictRoute.POST sample_env sample_now
             (failing_upstream 304 "Not Modified") (inr sample_body))
        = inr (NextResponse.json
                 (PredictJson.Error
                    "An unexpected error occurred while generating predictions.")
                 500)
     /\ Eff.outcome
          (PredictRoute.POST sample_env sample_now
             (failing_upstream 304 "Not Modified") (inr sample_body))
        <> inr (NextResponse.json
                  (PredictJson.Error "ML service error: Not Modified")
                  (Fetch.status response)))
  /\ (exists response : Fetch.Response (list Park.t),
        failing_upstream 304 "Not Modified" (parks_call sample_env)
        = inr response
        /\ Fetch.ok response = false
        /\ (Fetch.status response < 500)%Z
        /\ Fetch.text response = inr "Not Modified"
        /\ Eff.outcome
             (ParksRoute.GET sample_env sample_now
                (failing_upstream 304 "Not Modified"))
           = inr (NextResponse.json
                    (ParksJson.Error
                       "An unexpected error occurred while fetching parks.")
                    500)
        /\ Eff.outcome
             (ParksRoute.GET sample_env sample_now
                (failing_upstream 304 "Not Modified"))
           <> inr (NextResponse.json
                     (ParksJson.Error "ML service error: Not Modified")
                     (Fetch.status response)))
  /\ (exists response : Fetch.Response MLServiceResponse.t,
        broken_body_upstream (predict_call sample_env sample_body)
        = inr response
        /\ Fetch.ok response = false
        /\ (500 <= Fetch.status response)%Z
        /\ Eff.outcome
             (PredictRoute.POST sample_env sample_now broken_body_upstream
                (inr sample_body))
           = inr (NextResponse.json
                    (PredictJson.Error
                       "An unexpected error occurred while generating predictions.")
                    500)
        /\ Eff.outcome
             (PredictRoute.POST sample_env sample_now broken_body_upstream
                (inr sample_body))
           <> inr (NextResponse.json
                     (PredictJson.Error
                        "ML service is currently unavailable. Please try again later.")
                     503)).
Proof.
  split; [|split]; eexists; (split; [reflexivity|]);
    repeat split; try reflexivity; discriminate.
Defined.

(** C5 at the sample forecast of two records. *)
Lemma C5_witness :
  exists s,
    Eff.outcome
      (PredictRoute.POST sample_env sample_now sample_upstream (inr sample_body))
    = inr (NextResponse.json_ok (PredictJson.Ok s))
    /\ length (PredictionResponse.predictions (PredictJson.response_data s))
       = length sample_forecast
    /\ forall (i : nat) pred,
         sample_forecast !! i = Some pred ->
         PredictionResponse.predictions (PredictJson.response_data s) !! i
         = Some (PredictionPoint.mk
                   (MLServicePrediction.date pred)
                   (MLServicePrediction.predicted_visitors pred)
                   (MLServicePrediction.lower_bound pred)
                   (MLServicePrediction.upper_bound pred)
                   None None None).
Proof.
  apply (C5_translation_is_renaming sample_env sample_now sample_upstream
           sample_body _ _ sample_forecast sample_body_valid eq_refl eq_refl
           eq_refl eq_refl eq_refl).
Defined.

(** The record of the specification's round-trip example. *)
Example translate_example :
  PredictRoute.translate
    (MLServicePrediction.mk "2025-07-10" 1200%Q 900%Q 1500%Q "80%")
  = PredictionPoint.mk "2025-07-10" 1200%Q 900%Q 1500%Q None None None.
Proof. reflexivity. Qed.

(** C9 at the answer to the sample body over the sample upstream. *)
Lemma C9_witness :
  NextResponse.status (success_answer sample_now sample_body sample_forecast)
  = 200%Z
  /\ PredictionResponse.confidence_level
       (PredictionResponse.mk
          (List.map PredictRoute.translate sample_forecast)
          (Some "YELL") 80%Q (Some (ModelPerformance.mk 0%Q 0%Q 0%Q)))
     = 80%Q
  /\ PredictionResponse.model_performance
       (PredictionResponse.mk
          (List.map PredictRoute.translate sample_forecast)
          (Some "YELL") 80%Q (Some (ModelPerformance.mk 0%Q 0%Q 0%Q)))
     = Some (ModelPerformance.mk 0%Q 0%Q 0%Q)
  /\ sample_now = sample_now
  /\ @inr Js.JsError PredictionRequest.t sample_body = inr sample_body.
Proof.
  exact (C9_success_envelope sample_env sample_now sample_upstream
           (inr sample_body)
           [predict_call sample_env sample_body]
           (success_answer sample_now sample_body sample_forecast)
           _ eq_refl eq_refl).
Defined.

(** C8 at a listing of Yellowstone and a park the table lacks. *)
Lemma C8_witness :
  exists listing,
    ParksRoute.GET sample_env sample_now sample_parks_upstream
    = ([parks_call sample_env],
       inr (NextResponse.json_ok (ParksJson.Ok listing)))
    /\ forall (i : nat) park,
         sample_parks !! i = Some park ->
         exists park',
           ParksJson.parks listing !! i = Some park'
           /\ Park.park_id park' = Park.park_id park
           /\ (Park.park_id park = "YELL" ->
               Park.latitude park' = Some 44.428%Q
               /\ Park.longitude park' = Some (-110.588)%Q)
           /\ (ParkCoordinates.PARK_COORDINATES !! Park.park_id park = None ->
               Park.latitude park' = None /\ Park.longitude park' = None).
Proof.
  apply (C8_coordinates_attached sample_env sample_now sample_parks_upstream
           _ sample_parks eq_refl eq_refl eq_refl).
Defined.

(** The sample listing, evaluated: Yellowstone gets its coordinates, the
    park the table lacks gets none and is still listed. *)
Example parks_listing_example :
  ParksRoute.GET sample_env sample_now sample_parks_upstream
  = ([Fetch.mkCall "http://localhost:8000/parks" "GET" None (Some 10000%Z)],
     inr (NextResponse.mk
            (ParksJson.Ok
               (ParksJson.mkListing
                  [ Park.mk "YELL" "Yellowstone" "WY" "Intermountain"
                      "National Park" true None None
                      (Some 44.428%Q) (Some (-110.588)%Q) None None;
                    Park.mk "ZZZZ" "Unlisted" "AK" "Alaska"
                      "National Preserve" false None None None None None None ]
                  2 sample_now))
            200)).
Proof. vm_compute. reflexivity. Qed.

(** C10 at the same listing. *)
Lemma C10_witness :
  exists listing,
    ParksRoute.GET sample_env sample_now sample_parks_upstream
    = ([parks_call sample_env],
       inr (NextResponse.json_ok (ParksJson.Ok listing)))
    /\ length (ParksJson.parks listing) = 2
    /\ ParksJson.total listing = 2
    /\ ParksJson.parks listing !! 1
       = Some (Park.mk "ZZZZ" "Unlisted" "AK" "Alaska" "National Preserve"
                 false None None None None None None).
Proof.
  destruct (C10_listing_is_unfiltered sample_env sample_now
              sample_parks_upstream _ sample_parks eq_refl eq_refl eq_refl)
    as (listing & Hrun & Hlength & Htotal & _ & Hbare).
  exists listing. split; [exact Hrun|].
  split; [exact Hlength|]. split; [exact Htotal|].
  exact (Hbare 1 unlisted_park eq_refl eq_refl).
Defined.

(** C2 at the sample parks, every call reaching the route. *)
Lemma C2_witness :
  exists log m,
    Dashboard.loadMapPredictions
      (Api.network sample_env sample_now (fun _ => true) sample_upstream)
      sample_parks "2025-07-05" initial_state
    = (log, Dashboard.mkState m false None)
    /\ (exists d,
          (2 <= d)%Q
          /\ log = List.map
                     (fun park =>
                        Fetch.mkCall "/api/predict" "POST"
                          (Some (PredictionRequest.mk
                                   (Some (Park.park_id park))
                                   (Some "2025-07-04") (Some d)))
                          None)
                     (List.filter Park.has_model sample_parks))
    /\ (forall k data,
          m !! k = Some data ->
          exists s,
            data = PredictJson.Ok s
            /\ (PredictionResponse.predictions (PredictJson.response_data s) = []
                \/ exists pt,
                     PredictionResponse.predictions (PredictJson.response_data s)
                     = [pt]
                     /\ PredictionPoint.ds pt = "2025-07-05")).
Proof.
  apply (C2_day_after_anchor sample_env sample_now (fun _ => true)
           sample_upstream sample_parks initial_state
           sample_upstream_one_record_per_date).
Defined.

(** The sample run, evaluated: one call, for Yellowstone, and one entry,
    holding the single point of 2025-07-05. *)
Example map_run_example :
  let run :=
    Dashboard.loadMapPredictions
      (Api.network sample_env sample_now (fun _ => true) sample_upstream)
      sample_parks "2025-07-05" initial_state in
  fst run
  = [Fetch.mkCall "/api/predict" "POST"
       (Some (PredictionRequest.mk (Some "YELL") (Some "2025-07-04") (Some 2%Q)))
       None]
  /\ Dashboard.mapPredictions (snd run) !! "YELL"
     = Some
         (PredictJson.Ok
            (PredictJson.mkSuccess
               (PredictionResponse.mk
                  [PredictionPoint.mk "2025-07-05" 1200%Q 900%Q 1500%Q
                     None None None]
                  (Some "YELL") 80%Q (Some (ModelPerformance.mk 0%Q 0%Q 0%Q)))
               sample_now
               (PredictionRequest.mk (Some "YELL") (Some "2025-07-04")
                  (Some 2%Q))))
  /\ Dashboard.mapPredictions (snd run) !! "ZZZZ" = None.
Proof. cbn zeta. repeat split; vm_compute; reflexivity. Qed.

(** * Further properties *)

(** ** What [includes] and the [catch] clauses decide *)

Lemma string_cons_app (c : ascii) (s t : string) :
  String c s ++ t = String c (s ++ t).
Proof. reflexivity. Qed.

Lemma prefix_app (p s : string) :
  String.prefix p s = true <-> exists rest, s = p ++ rest.
Proof.
  revert s. induction p as [| c p IH]; intros s.
  - split; [intros _; exists s; reflexivity | intros _; destruct s; reflexivity].
  - destruct s as [| d s]; cbn.
    + split; [discriminate | intros [rest H]; discriminate H].
    + destruct (Ascii.ascii_dec c d) as [-> | Hne].
      * rewrite IH. split; intros [rest H]; exists rest;
          rewrite string_cons_app in *; congruence.
      * split; [discriminate |].
        intros [rest H]. rewrite string_cons_app in H. congruence.
Qed.

Lemma includes_app (needle hay : string) :
  Js.includes needle hay = true
  <-> exists before after, hay = before ++ needle ++ after.
Proof.
  induction hay as [| c hay IH].
  - cbn [Js.includes]. rewrite orb_false_r, prefix_app. split.
    + intros [rest H]. exists EmptyString, rest. exact H.
    + intros ([| d before] & after & H); [exists after; exact H |].
      rewrite string_cons_app in H. discriminate H.
  - cbn [Js.includes]. rewrite orb_true_iff, prefix_app, IH. split.
    + intros [[rest H] | (before & after & H)].
      * exists EmptyString, rest. exact H.
      * exists (String c before), after. rewrite string_cons_app. congruence.
    + intros ([| d before] & after & H).
      * left. exists after. exact H.
      * right. exists before, after. rewrite string_cons_app in H. congruence.
Qed.

Lemma is_connection_error_decide (e : Js.JsError) :
  Js.instanceof_TypeError e && Js.includes "fetch" (Js.err_message e) = true
  <-> is_connection_error e.
Proof.
  unfold is_connection_error, Js.instanceof_TypeError.
  rewrite andb_true_iff, includes_app.
  destruct (Js.err_class e); split; intros [H1 H2]; split;
    congruence || assumption.
Qed.

Lemma is_abort_error_decide (e : Js.JsError) :
  Js.instanceof_Error e && String.eqb (Js.err_name e) "AbortError" = true
  <-> is_abort_error e.
Proof.
  unfold is_abort_error, Js.instanceof_Error.
  rewrite andb_true_iff, String.eqb_eq.
  destruct (Js.err_class e); split; intros [H1 H2]; split;
    congruence || assumption.
Qed.

Ltac decide_caught e :=
  let Hc := fresh "Hconnect" in
  let Ha := fresh "Habort" in
  pose proof (is_connection_error_decide e) as Hc;
  pose proof (is_abort_error_decide e) as Ha;
  destruct (Js.instanceof_TypeError e
            && Js.includes "fetch" (Js.err_message e));
  [| destruct (Js.instanceof_Error e
               && String.eqb (Js.err_name e) "AbortError")];
  (eexists; split; [reflexivity|]);
  (split; [| split]); intros;
  first [ reflexivity | exfalso; intuition congruence ].

(** The [catch] clause of the prediction route. *)
Lemma predict_on_error_caught (e : Js.JsError) :
  exists res,
    PredictRoute.on_error e = ([], inr res)
    /\ caught_as e
         (NextResponse.json
            (PredictJson.Error PredictRoute.connect_message) 503)
         (NextResponse.json
            (PredictJson.Error PredictRoute.timeout_message) 504)
         (NextResponse.json
            (PredictJson.Error PredictRoute.unexpected_message) 500)
         res.
Proof.
  unfold PredictRoute.on_error, caught_as. decide_caught e.
Qed.

(** The [catch] clause of the listing route. *)
Lemma parks_on_error_caught (e : Js.JsError) :
  exists res,
    ParksRoute.on_error e = ([], inr res)
    /\ caught_as e
         (NextResponse.json (ParksJson.Error ParksRoute.connect_message) 503)
         (NextResponse.json (ParksJson.Error ParksRoute.timeout_message) 504)
         (NextResponse.json
            (ParksJson.Error ParksRoute.unexpected_message) 500)
         res.
Proof.
  unfold ParksRoute.on_error, caught_as. decide_caught e.
Qed.

(** ** [POST /api/predict]: calls and answers *)

(** X1: a request that passes validation makes the route issue exactly one
    upstream call, a [POST] of the received body to [/predict] under the
    configured base address with a timeout of 30000 ms, whatever the
    upstream then does. *)
Theorem POST_valid_request_one_call (env : Env.t) (now : string)
    (net : Fetch.Network MLServiceResponse.t) (body : PredictionRequest.t) :
  valid_request body ->
  Eff.calls (PredictRoute.POST env now net (inr body))
  = [Fetch.mkCall (ML_SERVICE_URL env ++ "/predict") "POST" (Some body)
       (Some 30000%Z)].
Proof.
  intros Hvalid. rewrite (POST_valid env now net body Hvalid). reflexivity.
Qed.

Lemma POST_valid_request_one_call_witness :
  Eff.calls
    (PredictRoute.POST sample_env sample_now sample_upstream
       (inr sample_body))
  = [Fetch.mkCall (ML_SERVICE_URL sample_env ++ "/predict") "POST"
       (Some sample_body) (Some 30000%Z)].
Proof.
  exact (POST_valid_request_one_call sample_env sample_now sample_upstream
           sample_body sample_body_valid).
Defined.

(** X2: when the request body cannot be read ([request.json()] throws [e]),
    the route issues no upstream call and answers from its [catch] clause:
    503 with the connection message if [e] is a [TypeError] whose message
    mentions "fetch", else 504 with the timeout message if [e] is an
    [Error] named "AbortError", else 500 with the catch-all message; so a
    body that is not JSON (a [SyntaxError]) is answered 500, not 400. *)
Theorem POST_unreadable_request_body (env : Env.t) (now : string)
    (net : Fetch.Network MLServiceResponse.t) (e : Js.JsError) :
  exists res,
    PredictRoute.POST env now net (inl e) = ([], inr res)
    /\ caught_as e
         (NextResponse.json
            (PredictJson.Error
               "Unable to connect to ML service. Please check if the service is running.")
            503)
         (NextResponse.json
            (PredictJson.Error "ML service request timed out. Please try again.")
            504)
         (NextResponse.json
            (PredictJson.Error
               "An unexpected error occurred while generating predictions.")
            500)
         res.
Proof.
  destruct (predict_on_error_caught e) as (res & Hrun & Hcaught).
  exists res. split; [|exact Hcaught].
  unfold PredictRoute.POST, PredictRoute.POST_try, Eff.try_catch, Eff.bind,
    Eff.await.
  rewrite Hrun. reflexivity.
Qed.

(** X3: for a request that passes validation, when the upstream call
    rejects with [e], or resolves with a 2xx status and a body that cannot
    be read as JSON ([response.json()] throws [e]), the route answers from
    its [catch] clause: 503 (connection), 504 (timeout) or 500 (catch-all)
    as [e] is classified, never with a raw exception. *)
Theorem POST_upstream_throw (env : Env.t) (now : string)
    (net : Fetch.Network MLServiceResponse.t) (body : PredictionRequest.t)
    (e : Js.JsError) :
  valid_request body ->
  net (predict_call env body) = inl e
  \/ (exists response,
        net (predict_call env body) = inr response
        /\ Fetch.ok response = true
        /\ Fetch.json response = inl e) ->
  exists res,
    Eff.outcome (PredictRoute.POST env now net (inr body)) = inr res
    /\ caught_as e
         (NextResponse.json
            (PredictJson.Error
               "Unable to connect to ML service. Please check if the service is running.")
            503)
         (NextResponse.json
            (PredictJson.Error "ML service request timed out. Please try again.")
            504)
         (NextResponse.json
            (PredictJson.Error
               "An unexpected error occurred while generating predictions.")
            500)
         res.
Proof.
  intros Hvalid Hthrow.
  destruct (predict_on_error_caught e) as (res & Hrun & Hcaught).
  exists res. split; [|exact Hcaught].
  rewrite (POST_valid env now net body Hvalid). cbn [Eff.outcome snd].
  destruct Hthrow as [-> | (response & -> & -> & ->)];
    rewrite Hrun; reflexivity.
Qed.

Lemma POST_upstream_throw_witness :
  exists res,
    Eff.outcome
      (PredictRoute.POST sample_env sample_now
         (rejecting_network connection_refused) (inr sample_body))
    = inr res
    /\ (is_connection_error connection_refused ->
        res = NextResponse.json
                (PredictJson.Error PredictRoute.connect_message) 503).
Proof.
  destruct (POST_upstream_throw sample_env sample_now
              (rejecting_network connection_refused) sample_body
              connection_refused sample_body_valid (or_introl eq_refl))
    as (res & Hres & Hconnect & _).
  exists res. split; [exact Hres | exact Hconnect].
Defined.

(** X4: for a request that passes validation and an upstream answer with a
    2xx status and a readable body, the route answers 200 exactly when the
    body has [success] true and [predictions] not null (an empty array
    counts as present); otherwise it answers 400 with the upstream's
    [error] text, or with "Failed to generate predictions" when that text
    is absent or empty. *)
Theorem POST_semantic_failure (env : Env.t) (now : string)
    (net : Fetch.Network MLServiceResponse.t) (body : PredictionRequest.t)
    (response : Fetch.Response MLServiceResponse.t)
    (ml : MLServiceResponse.t) :
  valid_request body ->
  net (predict_call env body) = inr response ->
  Fetch.ok response = true ->
  Fetch.json response = inr ml ->
  exists res,
    Eff.outcome (PredictRoute.POST env now net (inr body)) = inr res
    /\ (NextResponse.status res = 200%Z
        <-> MLServiceResponse.success ml = true
            /\ MLServiceResponse.predictions ml <> None)
    /\ (MLServiceResponse.success ml = false
        \/ MLServiceResponse.predictions ml = None ->
        exists msg,
          res = NextResponse.json (PredictJson.Error msg) 400
          /\ (forall text,
                MLServiceResponse.error ml = Some text ->
                text <> EmptyString -> msg = text)
          /\ (MLServiceResponse.error ml = None
              \/ MLServiceResponse.error ml = Some EmptyString ->
              msg = "Failed to generate predictions")).
Proof.
  intros Hvalid Hnet Hok Hjson.
  rewrite (POST_valid env now net body Hvalid), Hnet, Hok, Hjson.
  cbn [Eff.outcome snd].
  assert (forall msg,
            msg = Js.or_string (MLServiceResponse.error ml)
                    "Failed to generate predictions" ->
            (forall text,
               MLServiceResponse.error ml = Some text ->
               text <> EmptyString -> msg = text)
            /\ (MLServiceResponse.error ml = None
                \/ MLServiceResponse.error ml = Some EmptyString ->
                msg = "Failed to generate predictions")) as Hmsg.
  { intros msg ->. split.
    - intros text -> Hne. destruct text; [congruence | reflexivity].
    - intros [-> | ->]; reflexivity. }
  destruct (MLServiceResponse.success ml) eqn:Hs;
    [destruct (MLServiceResponse.predictions ml) as [ups |] eqn:Hp|];
    eexists; (split; [reflexivity|]); split.
  - cbn. split; [intros _; split; congruence | reflexivity].
  - intros [H | H]; congruence.
  - cbn. split; [discriminate | intros [_ H]; congruence].
  - intros _. eexists. split; [reflexivity|]. apply Hmsg. reflexivity.
  - cbn. split; [discriminate | intros [H _]; congruence].
  - intros _. eexists. split; [reflexivity|]. apply Hmsg. reflexivity.
Qed.

Lemma POST_semantic_failure_witness :
  exists res,
    Eff.outcome
      (PredictRoute.POST sample_env sample_now reporting_upstream
         (inr sample_body))
    = inr res
    /\ exists msg,
         res = NextResponse.json (PredictJson.Error msg) 400
         /\ msg = "No model for park ZZZZ".
Proof.
  destruct (POST_semantic_failure sample_env sample_now reporting_upstream
              sample_body _ unknown_park_report sample_body_valid
              eq_refl eq_refl eq_refl)
    as (res & Hres & _ & Hfailure).
  exists res. split; [exact Hres|].
  destruct (Hfailure (or_introl eq_refl)) as (msg & Hmsg & Htext & _).
  exists msg. split; [exact Hmsg|].
  apply Htext; [reflexivity | discriminate].
Defined.

(** An unreadable request body: the run, with its empty list of calls. *)
Lemma POST_unreadable_request_body_calls (env : Env.t) (now : string)
    (net : Fetch.Network MLServiceResponse.t) (e : Js.JsError) :
  exists r, PredictRoute.POST env now net (inl e) = ([], r).
Proof.
  destruct (predict_on_error_caught e) as (res & Hrun & _).
  exists (inr res).
  unfold PredictRoute.POST, PredictRoute.POST_try, Eff.try_catch, Eff.bind,
    Eff.await.
  rewrite Hrun. reflexivity.
Qed.

(** X5: the route never throws and never issues more than one upstream
    call: every run ends in an answer that is either a prediction body
    with status 200 or an error body with a status outside 200..299. *)
Theorem POST_answer_shape (env : Env.t) (now : string)
    (net : Fetch.Network MLServiceResponse.t)
    (request_json : Js.JsError + PredictionRequest.t) :
  exists log res,
    PredictRoute.POST env now net request_json = (log, inr res)
    /\ (length log <= 1)%nat
    /\ ((exists s,
           NextResponse.body res = PredictJson.Ok s
           /\ NextResponse.status res = 200%Z)
        \/ (exists msg,
              NextResponse.body res = PredictJson.Error msg
              /\ ~ is_2xx (NextResponse.status res))).
Proof.
  destruct (POST_answers env now net request_json) as [res Hres].
  destruct (PredictRoute.POST env now net request_json) as [log r] eqn:Hrun.
  cbn [Eff.outcome snd] in Hres. subst r.
  exists log, res. split; [reflexivity|]. split.
  - destruct request_json as [e | body].
    + destruct (POST_unreadable_request_body_calls env now net e) as [r Hr].
      rewrite Hr in Hrun. injection Hrun as <- _. cbn. lia.
    + destruct (valid_or_invalid body) as [Hvalid | Hinvalid].
      * rewrite (POST_valid env now net body Hvalid) in Hrun.
        injection Hrun as <- _. cbn. lia.
      * destruct (POST_invalid env now net body Hinvalid) as [msg Hmsg].
        rewrite Hmsg in Hrun. injection Hrun as <- _. cbn. lia.
  - destruct res as [[msg | s] st].
    + right. exists msg. split; [reflexivity|].
      exact (POST_Error_status env now net _ _ _ _ Hrun).
    + left. exists s. split; [reflexivity|].
      apply POST_Ok_inv in Hrun
        as (body & response & ml & ups & _ & _ & _ & _ & _ & _ & _ & Hans).
      unfold success_answer, NextResponse.json_ok in Hans.
      injection Hans as _ ->. reflexivity.
Qed.

(** X6: a prediction body is only ever sent for a request that passed
    validation, after exactly one upstream call for that request; its
    [park_id] is the request's own, whatever [park_id] the upstream body
    carried. *)
Theorem POST_success_echoes_valid_request (env : Env.t) (now : string)
    (net : Fetch.Network MLServiceResponse.t)
    (request_json : Js.JsError + PredictionRequest.t)
    (log : list Fetch.Call) (res : NextResponse.t PredictJson.t)
    (s : PredictJson.Success) :
  PredictRoute.POST env now net request_json = (log, inr res) ->
  NextResponse.body res = PredictJson.Ok s ->
  valid_request (PredictJson.request_params s)
  /\ log = [predict_call env (PredictJson.request_params s)]
  /\ PredictionResponse.park_id (PredictJson.response_data s)
     = PredictionRequest.park_id (PredictJson.request_params s).
Proof.
  intros Hrun Hbody. destruct res as [b st]. cbn in Hbody. subst b.
  pose proof Hrun as Hinv.
  apply POST_Ok_inv in Hinv
    as (body & response & ml & ups & -> & _ & _ & _ & _ & _ & -> & Hans).
  unfold success_answer, NextResponse.json_ok in Hans.
  injection Hans as -> _. cbn.
  split; [|split; reflexivity].
  destruct (valid_or_invalid body) as [Hvalid | Hinvalid]; [exact Hvalid|].
  destruct (POST_invalid env now net body Hinvalid) as [msg Hmsg].
  rewrite Hmsg in Hrun. discriminate Hrun.
Qed.

Lemma POST_success_echoes_valid_request_witness :
  exists s,
    NextResponse.body (success_answer sample_now sample_body sample_forecast)
    = PredictJson.Ok s
    /\ valid_request (PredictJson.request_params s)
    /\ [predict_call sample_env sample_body]
       = [predict_call sample_env (PredictJson.request_params s)]
    /\ PredictionResponse.park_id (PredictJson.response_data s)
       = PredictionRequest.park_id (PredictJson.request_params s).
Proof.
  eexists. split; [reflexivity|].
  exact (POST_success_echoes_valid_request sample_env sample_now
           sample_upstream (inr sample_body)
           [predict_call sample_env sample_body]
           (success_answer sample_now sample_body sample_forecast)
           _ eq_refl eq_refl).
Defined.

(** ** [GET /api/parks]: calls and answers *)

(** The whole run of the listing route, path by path. *)
Lemma GET_paths (env : Env.t) (now : string)
    (net : Fetch.Network (list Park.t)) :
  ParksRoute.GET env now net
  = ([parks_call env],
     match net (parks_call env) with
     | inl e => Eff.outcome (ParksRoute.on_error e)
     | inr response =>
         if Fetch.ok response then
           match Fetch.json response with
           | inl e => Eff.outcome (ParksRoute.on_error e)
           | inr parks =>
               inr (NextResponse.json_ok
                      (ParksJson.Ok
                         (ParksJson.mkListing
                            (List.map ParksRoute.add_coordinates parks)
                            (length parks) now)))
           end
         else if (Fetch.status response >=? 500)%Z
         then inr (NextResponse.json
                     (ParksJson.Error ParksRoute.unavailable_message) 503)
         else
           match Fetch.text response with
           | inl e => Eff.outcome (ParksRoute.on_error e)
           | inr errorText =>
               inr (if NextResponse.accepted (Fetch.status response)
                    then NextResponse.json
                           (ParksJson.Error
                              ("ML service error: " ++ errorText))
                           (Fetch.status response)
                    else NextResponse.json
                           (ParksJson.Error ParksRoute.unexpected_message)
                           500)
           end
     end).
Proof.
  destruct (net (parks_call env)) as [e | response] eqn:Hnet.
  - unfold ParksRoute.GET, ParksRoute.GET_try, Eff.bind, Eff.fetch,
      Eff.try_catch.
    fold (parks_call env). rewrite Hnet, (parks_on_error_run e). reflexivity.
  - destruct (Fetch.ok response) eqn:Hok.
    + destruct (Fetch.json response) as [e | parks] eqn:Hjson.
      * unfold ParksRoute.GET, ParksRoute.GET_try, Eff.bind, Eff.fetch,
          Eff.await, Eff.try_catch.
        fold (parks_call env). rewrite Hnet, Hok. cbn [negb].
        rewrite Hjson, (parks_on_error_run e). reflexivity.
      * apply (GET_success env now net response parks); assumption.
    + apply (GET_upstream_not_ok env now net response); assumption.
Qed.

(** X7: the listing route issues exactly one upstream call on every run, a
    [GET] of [/parks] under the configured base address with a timeout of
    10000 ms, and never throws: the run ends in a listing with status 200
    or in an error body with a status outside 200..299. *)
Theorem GET_parks_answer_shape (env : Env.t) (now : string)
    (net : Fetch.Network (list Park.t)) :
  exists res,
    ParksRoute.GET env now net
    = ([Fetch.mkCall (ML_SERVICE_URL env ++ "/parks") "GET" None
          (Some 10000%Z)],
       inr res)
    /\ ((exists listing,
           NextResponse.body res = ParksJson.Ok listing
           /\ NextResponse.status res = 200%Z)
        \/ (exists msg,
              NextResponse.body res = ParksJson.Error msg
              /\ ~ is_2xx (NextResponse.status res))).
Proof.
  rewrite GET_paths. fold (parks_call env).
  assert (forall e, exists res,
            Eff.outcome (ParksRoute.on_error e) = inr res
            /\ exists msg,
                 NextResponse.body res = ParksJson.Error msg
                 /\ ~ is_2xx (NextResponse.status res)) as Hcatch.
  { intros e. unfold ParksRoute.on_error, is_2xx.
    repeat case_match; eexists; (split; [reflexivity|]);
      eexists; (split; [reflexivity|]); cbn; lia. }
  destruct (net (parks_call env)) as [e | response].
  - destruct (Hcatch e) as (res & -> & Herr). eauto.
  - destruct (Fetch.ok response) eqn:Hok.
    + destruct (Fetch.json response) as [e | parks].
      * destruct (Hcatch e) as (res & -> & Herr). eauto.
      * eexists. split; [reflexivity|]. left. eexists. split; reflexivity.
    + apply not_true_iff_false in Hok. rewrite ok_true in Hok.
      destruct (Fetch.status response >=? 500)%Z eqn:Hst.
      * eexists. split; [reflexivity|]. right.
        eexists. split; [reflexivity|]. unfold is_2xx. cbn. lia.
      * destruct (Fetch.text response) as [e | errorText].
        { destruct (Hcatch e) as (res & -> & Herr). eauto. }
        eexists. split; [reflexivity|]. right.
        destruct (NextResponse.accepted (Fetch.status response));
          eexists; (split; [reflexivity|]); unfold is_2xx; cbn; lia.
Qed.

(** X8: when the upstream call of the listing route rejects with [e], or
    resolves with a 2xx status and a body that cannot be read as JSON, the
    route answers from its [catch] clause: 503 with the connection message
    if [e] is a [TypeError] whose message mentions "fetch", else 504 with
    the timeout message if [e] is an [Error] named "AbortError", else 500
    with the catch-all message. *)
Theorem GET_parks_upstream_throw (env : Env.t) (now : string)
    (net : Fetch.Network (list Park.t)) (e : Js.JsError) :
  net (parks_call env) = inl e
  \/ (exists response,
        net (parks_call env) = inr response
        /\ Fetch.ok response = true
        /\ Fetch.json response = inl e) ->
  exists res,
    Eff.outcome (ParksRoute.GET env now net) = inr res
    /\ caught_as e
         (NextResponse.json
            (ParksJson.Error
               "Unable to connect to ML service. Please check if the service is running.")
            503)
         (NextResponse.json
            (ParksJson.Error "ML service request timed out. Please try again.")
            504)
         (NextResponse.json
            (ParksJson.Error
               "An unexpected error occurred while fetching parks.")
            500)
         res.
Proof.
  intros Hthrow.
  destruct (parks_on_error_caught e) as (res & Hrun & Hcaught).
  exists res. split; [|exact Hcaught].
  rewrite GET_paths. cbn [Eff.outcome snd].
  destruct Hthrow as [-> | (response & -> & -> & ->)];
    rewrite Hrun; reflexivity.
Qed.

Lemma GET_parks_upstream_throw_witness :
  exists res,
    Eff.outcome
      (ParksRoute.GET sample_env sample_now
         (rejecting_network connection_refused))
    = inr res
    /\ (is_connection_error connection_refused ->
        res = NextResponse.json
                (ParksJson.Error ParksRoute.connect_message) 503).
Proof.
  destruct (GET_parks_upstream_throw sample_env sample_now
              (rejecting_network connection_refused)
              connection_refused (or_introl eq_refl))
    as (res & Hres & Hconnect & _).
  exists res. split; [exact Hres | exact Hconnect].
Defined.

(** ** Upstream failures the routes cannot forward *)

Lemma refused_status (st : Z) :
  (st < 200)%Z \/ st = 304%Z ->
  NextResponse.accepted st = false /\ (st >=? 500)%Z = false
  /\ ((200 <=? st)%Z && (st <=? 299)%Z) = false.
Proof.
  intros Hst.
  unfold NextResponse.accepted, NextResponse.in_status_range,
    NextResponse.null_body_status.
  repeat match goal with
         | |- context [(?a <=? ?b)%Z] => destruct (Z.leb_spec a b)
         | |- context [(?a =? ?b)%Z] => destruct (Z.eqb_spec a b)
         | |- context [(?a >=? ?b)%Z] => destruct (Z.geb_spec a b)
         end; repeat split; try reflexivity; lia.
Qed.

(** X25: an upstream answer that is not [ok] and whose text cannot be read
    ([response.text()] rejects with [e]). The prediction route reads the
    text before it looks at the status: whatever the status, it answers
    from its [catch] clause as [e] is classified. The listing route reads
    the text only for a status below 500: at 500 and above it answers 503
    with the unavailable message all the same, below it answers from its
    [catch] clause. *)
Theorem upstream_text_unreadable (env : Env.t) (now : string)
    (e : Js.JsError) :
  (forall (net : Fetch.Network MLServiceResponse.t) body response,
     valid_request body ->
     net (predict_call env body) = inr response ->
     Fetch.ok response = false ->
     Fetch.text response = inl e ->
     exists res,
       Eff.outcome (PredictRoute.POST env now net (inr body)) = inr res
       /\ caught_as e
            (NextResponse.json
               (PredictJson.Error PredictRoute.connect_message) 503)
            (NextResponse.json
               (PredictJson.Error PredictRoute.timeout_message) 504)
            (NextResponse.json
               (PredictJson.Error PredictRoute.unexpected_message) 500)
            res)
  /\ (forall (net : Fetch.Network (list Park.t)) response,
        net (parks_call env) = inr response ->
        Fetch.ok response = false ->
        Fetch.text response = inl e ->
        ((500 <= Fetch.status response)%Z ->
         Eff.outcome (ParksRoute.GET env now net)
         = inr (NextResponse.json
                  (ParksJson.Error ParksRoute.unavailable_message) 503))
        /\ ((Fetch.status response < 500)%Z ->
            exists res,
              Eff.outcome (ParksRoute.GET env now net) = inr res
              /\ caught_as e
                   (NextResponse.json
                      (ParksJson.Error ParksRoute.connect_message) 503)
                   (NextResponse.json
                      (ParksJson.Error ParksRoute.timeout_message) 504)
                   (NextResponse.json
                      (ParksJson.Error ParksRoute.unexpected_message) 500)
                   res)).
Proof.
  split.
  - intros net body response Hvalid Hnet Hok Htext.
    destruct (predict_on_error_caught e) as (res & Hrun & Hcaught).
    exists res. split; [|exact Hcaught].
    rewrite (POST_upstream_not_ok env now net body response Hvalid Hnet Hok).
    cbn [Eff.outcome snd]. rewrite Htext, Hrun. reflexivity.
  - intros net response Hnet Hok Htext.
    rewrite (GET_upstream_not_ok env now net response Hnet Hok).
    cbn [Eff.outcome snd]. split; intros Hst.
    + assert ((Fetch.status response >=? 500)%Z = true) as -> by lia.
      reflexivity.
    + assert ((Fetch.status response >=? 500)%Z = false) as -> by lia.
      destruct (parks_on_error_caught e) as (res & Hrun & Hcaught).
      exists res. split; [|exact Hcaught].
      rewrite Htext, Hrun. reflexivity.
Qed.

(** X26: an upstream answer with a readable text and a status that
    [NextResponse.json] refuses together with a body, 304 or a status
    below 200. The response that would forward status and text cannot be
    built, and both routes answer 500 with their catch-all message. *)
Theorem upstream_status_without_body (env : Env.t) (now : string) :
  (forall (net : Fetch.Network MLServiceResponse.t) body response errorText,
     valid_request body ->
     net (predict_call env body) = inr response ->
     Fetch.text response = inr errorText ->
     (Fetch.status response < 200)%Z \/ Fetch.status response = 304%Z ->
     Eff.outcome (PredictRoute.POST env now net (inr body))
     = inr (NextResponse.json
              (PredictJson.Error
                 "An unexpected error occurred while generating predictions.")
              500))
  /\ (forall (net : Fetch.Network (list Park.t)) response errorText,
        net (parks_call env) = inr response ->
        Fetch.text response = inr errorText ->
        (Fetch.status response < 200)%Z \/ Fetch.status response = 304%Z ->
        Eff.outcome (ParksRoute.GET env now net)
        = inr (NextResponse.json
                 (ParksJson.Error
                    "An unexpected error occurred while fetching parks.")
                 500)).
Proof.
  split.
  - intros net body response errorText Hvalid Hnet Htext Hst.
    destruct (refused_status _ Hst) as (Hacc & Hlow & Hok).
    rewrite (POST_upstream_not_ok env now net body response Hvalid Hnet Hok).
    cbn [Eff.outcome snd]. rewrite Htext, Hlow, Hacc. reflexivity.
  - intros net response errorText Hnet Htext Hst.
    destruct (refused_status _ Hst) as (Hacc & Hlow & Hok).
    rewrite (GET_upstream_not_ok env now net response Hnet Hok).
    cbn [Eff.outcome snd]. rewrite Htext, Hlow, Hacc. reflexivity.
Qed.

(** ** [GET /api/health]: the whole report *)

(** X9: the health route issues exactly one upstream call ([GET] of
    [/health], timeout 5000 ms), never throws, and answers 200 or 503. Its
    report always says the frontend is "healthy" and gives the elapsed
    time as the difference of the two clock readings. The [ml_service]
    block reads "unavailable", 0 models and no database when the call
    rejects or a 2xx body cannot be read; "error", 0 and no database when
    the status is not 2xx; and otherwise the upstream's own status, its
    model count (0 when absent) and its database flag (false when
    absent). *)
Theorem GET_health_report (env : Env.t) (startTime endTime : Z)
    (now : string) (net : Fetch.Network HealthResponse.t) :
  exists data st,
    HealthRoute.GET env startTime endTime now net
    = ([Fetch.mkCall (ML_SERVICE_URL env ++ "/health") "GET" None
          (Some 5000%Z)],
       inr (NextResponse.json data st))
    /\ (st = 200%Z \/ st = 503%Z)
    /\ HealthJson.Frontend.status (HealthJson.frontend data) = "healthy"
    /\ HealthJson.response_time_ms data = (endTime - startTime)%Z
    /\ HealthJson.timestamp data = now
    /\ HealthJson.MlService.url (HealthJson.ml_service data)
       = ML_SERVICE_URL env
    /\ let ml := HealthJson.ml_service data in
       let o := net (health_call env) in
       ((forall e,
           o = inl e
           \/ (exists response,
                 o = inr response /\ Fetch.ok response = true
                 /\ Fetch.json response = inl e) ->
           HealthJson.MlService.status ml = Some "unavailable"
           /\ HealthJson.MlService.models_loaded ml = 0%Q
           /\ HealthJson.MlService.database_connected ml = false)
        /\ (forall response,
              o = inr response -> Fetch.ok response = false ->
              HealthJson.MlService.status ml = Some "error"
              /\ HealthJson.MlService.models_loaded ml = 0%Q
              /\ HealthJson.MlService.database_connected ml = false)
        /\ (forall response mlHealth,
              o = inr response -> Fetch.ok response = true ->
              Fetch.json response = inr mlHealth ->
              HealthJson.MlService.status ml = HealthResponse.status mlHealth
              /\ (forall n,
                    HealthResponse.models_loaded mlHealth = Some n ->
                    (HealthJson.MlService.models_loaded ml == n)%Q)
              /\ (HealthResponse.models_loaded mlHealth = None ->
                  HealthJson.MlService.models_loaded ml = 0%Q)
              /\ HealthJson.MlService.database_connected ml
                 = match HealthResponse.database_connected mlHealth with
                   | Some b => b
                   | None => false
                   end)).
Proof.
  unfold HealthRoute.GET, HealthRoute.probe, Eff.try_catch, Eff.bind,
    Eff.fetch, Eff.await, Eff.ret.
  fold (health_call env).
  destruct (net (health_call env)) as [e | response] eqn:Hnet;
    [| destruct (Fetch.ok response) eqn:Hok;
       [destruct (Fetch.json response) as [e | mlHealth] eqn:Hjson |]];
    cbv beta iota zeta; rewrite respond_health; unfold Eff.ret;
    (eexists _, _; split; [reflexivity|]);
    cbn [NextResponse.json HealthJson.frontend HealthJson.ml_service
           HealthJson.response_time_ms HealthJson.timestamp
           HealthJson.Frontend.status HealthJson.MlService.url
           HealthJson.MlService.status
           HealthJson.MlService.models_loaded
           HealthJson.MlService.database_connected
           HealthRoute.mlServiceStatus HealthRoute.mlModelsLoaded
           HealthRoute.dbConnected];
    (split; [destruct (HealthRoute.is_healthy _); auto|]);
    do 4 (split; [reflexivity|]);
    cbn zeta; (split; [|split]);
    try (intros; first [ solve [repeat split; reflexivity]
                       | exfalso;
                         repeat match goal with
                                | H : _ \/ _ |- _ => destruct H
                                | H : ex _ |- _ => destruct H
                                | H : _ /\ _ |- _ => destruct H
                                end;
                         simplify_eq; congruence ]).
  intros r h H1 _ H2. injection H1 as <-.
  rewrite Hjson in H2. injection H2 as <-.
  split; [reflexivity|]. split; [|split].
  - intros n ->. cbn.
    destruct (Js.truthy_number n) eqn:Hn; [reflexivity|].
    apply truthy_number_false in Hn. symmetry. exact Hn.
  - intros ->. reflexivity.
  - destruct (HealthResponse.database_connected _); reflexivity.
Qed.

(** ** The map aggregation: the requested window *)

(** A date that parses is a whole number of days from the epoch. *)
Lemma parse_whole_days (s : string) (t : Z) :
  JsDate.parse s = Some t -> exists days, t = (days * 86400000)%Z.
Proof.
  unfold JsDate.parse. intros H.
  destruct s as [| y1 [| y2 [| y3 [| y4 [| c5 [| m1 [| m2 [| c8 [| d1 [| d2 [| ? ?]]]]]]]]]]];
    try discriminate H;
    destruct c5 as [[] [] [] [] [] [] [] []]; try discriminate H;
    destruct c8 as [[] [] [] [] [] [] [] []]; try discriminate H.
  repeat case_match; simplify_eq. eauto.
Qed.

Lemma ceil_whole_days (n : Z) :
  Qceiling (inject_Z (n * 86400000) / inject_Z (1000 * 60 * 60 * 24)) = n.
Proof.
  rewrite <- (Qceiling_Z n) at 2. apply Qceiling_comp.
  rewrite inject_Z_mult. change (1000 * 60 * 60 * 24)%Z with 86400000%Z.
  field.
Qed.

Lemma daysFromBase_whole (s : string) (n : Z) :
  JsDate.parse s = Some (1751587200000 + n * 86400000)%Z ->
  Dashboard.daysFromBase s = Some n.
Proof.
  intros H. unfold Dashboard.daysFromBase. rewrite H.
  change (JsDate.parse Dashboard.baseDate) with (Some 1751587200000%Z).
  cbv iota beta. f_equal.
  replace (1751587200000 + n * 86400000 - 1751587200000)%Z
    with (n * 86400000)%Z by lia.
  apply ceil_whole_days.
Qed.

(** X10: the window the map aggregation asks for. A selected date that
    [new Date] reads lies a whole number [n] of days from the anchor
    2025-07-04 (negative before it), and the request carries [days_ahead]
    [n + 1], or 1 when the date is the anchor or earlier. *)
Theorem days_ahead_window (s : string) (t : Z) :
  JsDate.parse s = Some t ->
  exists n,
    t = (1751587200000 + n * 86400000)%Z
    /\ Dashboard.days_ahead s = Some (inject_Z (Z.max 1 (n + 1))).
Proof.
  intros Hparse.
  destruct (parse_whole_days s t Hparse) as [days ->].
  exists (days - 20273)%Z. split; [lia|].
  unfold Dashboard.days_ahead.
  rewrite (daysFromBase_whole s (days - 20273)).
  - reflexivity.
  - rewrite Hparse. f_equal. lia.
Qed.

Lemma days_ahead_window_witness :
  exists t n,
    JsDate.parse "2025-07-05" = Some t
    /\ t = (1751587200000 + n * 86400000)%Z
    /\ Dashboard.days_ahead "2025-07-05" = Some (inject_Z (Z.max 1 (n + 1))).
Proof.
  destruct (JsDate.parse "2025-07-05") as [t |] eqn:Hparse;
    [| vm_compute in Hparse; discriminate Hparse].
  destruct (days_ahead_window "2025-07-05" t Hparse) as (n & Ht & Hdays).
  exists t, n. split; [reflexivity|]. split; [exact Ht | exact Hdays].
Defined.

(** The last day of the date input, as [new Date] reads it. *)
Lemma map_date_max_parsed :
  JsDate.parse Page.map_date_max = Some (1751587200000 + 364 * 86400000)%Z.
Proof. reflexivity. Qed.

Lemma request_valid_iff (park : Park.t) (s : string) (n : Z) :
  JsDate.parse s = Some (1751587200000 + n * 86400000)%Z ->
  valid_request (Dashboard.request park s)
  <-> Park.park_id park <> EmptyString /\ (n <= 364)%Z.
Proof.
  intros Hparse.
  unfold valid_request, Dashboard.request, Dashboard.days_ahead.
  rewrite (daysFromBase_whole s n Hparse). cbn.
  split.
  - intros [[id [Hid Hne]] [_ [d [Hd [Hlo Hhi]]]]].
    injection Hid as <-. injection Hd as <-.
    split; [exact Hne|].
    change 365%Q with (inject_Z 365) in Hhi. rewrite <- Zle_Qle in Hhi. lia.
  - intros [Hne Hn].
    split; [eauto|]. split; [exists Dashboard.baseDate; split; [reflexivity | discriminate]|].
    eexists. split; [reflexivity|].
    change 365%Q with (inject_Z 365). change 1%Q with (inject_Z 1).
    rewrite <- !Zle_Qle. lia.
Qed.

(** X11: the prediction route accepts the request the dashboard sends for
    a park with a non-empty identifier and a readable date exactly when
    that date is not after 2026-07-03, the [max] of the map's date input:
    every date the input offers is within the route's limit of 365 days,
    and the day after its last is the first the route refuses. *)
Theorem route_accepts_up_to_picker_max (park : Park.t) (s : string) (t : Z) :
  JsDate.parse s = Some t ->
  exists tmax,
    JsDate.parse Page.map_date_max = Some tmax
    /\ (valid_request (Dashboard.request park s)
        <-> Park.park_id park <> EmptyString /\ (t <= tmax)%Z).
Proof.
  intros Hparse. eexists. split; [exact map_date_max_parsed|].
  destruct (parse_whole_days s t Hparse) as [days ->].
  rewrite (request_valid_iff park s (days - 20273)).
  - split; intros [Hne H]; (split; [exact Hne | lia]).
  - rewrite Hparse. f_equal. lia.
Qed.

Lemma route_accepts_up_to_picker_max_witness :
  exists t tmax,
    JsDate.parse "2025-07-05" = Some t
    /\ JsDate.parse Page.map_date_max = Some tmax
    /\ (valid_request (Dashboard.request yellowstone "2025-07-05")
        <-> Park.park_id yellowstone <> EmptyString /\ (t <= tmax)%Z).
Proof.
  destruct (JsDate.parse "2025-07-05") as [t |] eqn:Hparse;
    [| vm_compute in Hparse; discriminate Hparse].
  destruct (route_accepts_up_to_picker_max yellowstone "2025-07-05" t Hparse)
    as (tmax & Hmax & Hiff).
  exists t, tmax. split; [reflexivity|]. split; [exact Hmax | exact Hiff].
Defined.

(** ** The map aggregation: a date the route refuses *)

Lemma network_refuses_invalid (env : Env.t) (now : string)
    (link : Fetch.Call -> bool) (upstream : Fetch.Network MLServiceResponse.t)
    (c : Fetch.Call) (body : PredictionRequest.t)
    (response : Fetch.Response PredictJson.t) :
  Fetch.body c = Some body ->
  ~ valid_request body ->
  Api.network env now link upstream c = inr response ->
  Fetch.ok response = false.
Proof.
  intros Hbody Hinvalid. unfold Api.network.
  destruct (link c); cbn [negb]; [|discriminate].
  destruct (String.eqb (Fetch.url c) "/api/predict"
            && String.eqb (Fetch.method c) "POST").
  - unfold Api.request_json. rewrite Hbody.
    destruct (valid_or_invalid body) as [Hvalid | Hchecks]; [tauto|].
    destruct (POST_invalid env now upstream body Hchecks) as [msg ->].
    cbn. intros H. injection H as <-. reflexivity.
  - intros H. injection H as <-. reflexivity.
Qed.

Lemma settled_refused (env : Env.t) (now : string)
    (link : Fetch.Call -> bool) (upstream : Fetch.Network MLServiceResponse.t)
    (s : string) (park : Park.t) :
  ~ valid_request (Dashboard.request park s) ->
  settled (Api.network env now link upstream) s park = None.
Proof.
  intros Hinvalid. unfold settled.
  destruct (Api.network env now link upstream (map_call s park))
    as [e | response] eqn:Hnet; [reflexivity|].
  rewrite (network_refuses_invalid env now link upstream (map_call s park)
             (Dashboard.request park s) response eq_refl Hinvalid Hnet).
  reflexivity.
Qed.

Lemma collect_nothing (results : list (option (string * PredictJson.t))) :
  Forall (fun r => r = None) results -> Dashboard.collect results = ∅.
Proof.
  unfold Dashboard.collect, PlainObject.empty.
  generalize (∅ : gmap string PredictJson.t).
  induction results as [| r results IH]; intros m H; [reflexivity|].
  apply Forall_cons in H as [-> H]. cbn [fold_left]. apply IH, H.
Qed.

(** X12: when the selected date is a calendar date after 2026-07-03, the
    last day the date input is meant to offer, the run still sends one
    call per park with a model, the prediction route refuses every one of
    them, and the run ends with an empty map set, loading off and no error
    message. *)
Theorem map_empty_outside_window (env : Env.t) (now : string)
    (link : Fetch.Call -> bool) (upstream : Fetch.Network MLServiceResponse.t)
    (parks : list Park.t) (s : string) (st : Dashboard.State) (t tmax : Z) :
  JsDate.parse s = Some t ->
  JsDate.parse Page.map_date_max = Some tmax ->
  (tmax < t)%Z ->
  Dashboard.loadMapPredictions (Api.network env now link upstream) parks s st
  = (List.map (map_call s) (List.filter Park.has_model parks),
     Dashboard.mkState ∅ false None).
Proof.
  intros Hparse Hmax Hlt. rewrite loadMapPredictions_settles. do 2 f_equal.
  apply collect_nothing, Forall_forall. intros r Hr.
  apply list_elem_of_In, in_map_iff in Hr as (park & <- & _).
  apply settled_refused. intros Hvalid.
  rewrite map_date_max_parsed in Hmax. injection Hmax as <-.
  destruct (parse_whole_days s t Hparse) as [days ->].
  apply (request_valid_iff park s (days - 20273)) in Hvalid as [_ Hle];
    [lia|].
  rewrite Hparse. f_equal. lia.
Qed.

Lemma map_empty_outside_window_witness :
  Dashboard.loadMapPredictions
    (Api.network sample_env sample_now (fun _ => true) sample_upstream)
    sample_parks "2026-07-04" initial_state
  = (List.map (map_call "2026-07-04")
       (List.filter Park.has_model sample_parks),
     Dashboard.mkState ∅ false None).
Proof.
  destruct (JsDate.parse "2026-07-04") as [t |] eqn:Hparse;
    [| vm_compute in Hparse; discriminate Hparse].
  destruct (JsDate.parse Page.map_date_max) as [tmax |] eqn:Hmax;
    [| vm_compute in Hmax; discriminate Hmax].
  apply (map_empty_outside_window sample_env sample_now (fun _ => true)
           sample_upstream sample_parks "2026-07-04" initial_state t tmax
           Hparse Hmax).
  vm_compute in Hparse, Hmax. injection Hparse as <-. injection Hmax as <-.
  reflexivity.
Defined.

(** ** The dashboard: [loadParks] *)

Lemma fetch_parks_fails (net : Fetch.Network ParksJson.t) (msg : string) :
  CallFails net load_parks_call Page.listing_error "Failed to load parks" msg ->
  exists e,
    Page.fetch_parks net = ([load_parks_call], inl e)
    /\ Page.message_or e "Failed to load parks" = msg.
Proof.
  unfold Page.fetch_parks, Eff.bind, Eff.fetch, Eff.await.
  fold load_parks_call.
  intros [e Hnet | response e Hnet Hjson | response data Hnet Hjson Hok];
    rewrite Hnet; [| rewrite Hjson | rewrite Hjson, Hok]; cbn;
    eexists; (split; [reflexivity|]); reflexivity.
Qed.

Lemma fetch_parks_gives (net : Fetch.Network ParksJson.t)
    (data : ParksJson.t) :
  CallGives net load_parks_call data ->
  Page.fetch_parks net = ([load_parks_call], inr data).
Proof.
  intros (response & Hnet & Hjson & Hok).
  unfold Page.fetch_parks, Eff.bind, Eff.fetch, Eff.await.
  fold load_parks_call. rewrite Hnet, Hjson, Hok. reflexivity.
Qed.

(** A call fails or gives data, and not both ways at once. *)
Lemma call_fails_or_gives {A : Type} (net : Fetch.Network A) (c : Fetch.Call)
    (error_of : A -> option string) (fallback : string) :
  (exists msg, CallFails net c error_of fallback msg)
  \/ (exists data, CallGives net c data).
Proof.
  destruct (net c) as [e | response] eqn:Hnet.
  - left. eexists. exact (call_rejected net c error_of fallback e Hnet).
  - destruct (Fetch.json response) as [e | data] eqn:Hjson.
    + left. eexists.
      exact (body_unreadable net c error_of fallback response e Hnet Hjson).
    + destruct (Fetch.ok response) eqn:Hok.
      * right. exists data, response. auto.
      * left. eexists.
        exact (answer_not_ok net c error_of fallback response data
                 Hnet Hjson Hok).
Qed.

(** The state [loadParks] leaves after a failed call. *)
Lemma loadParks_failure_state (net : Fetch.Network ParksJson.t)
    (st : Page.State) (msg : string) :
  CallFails net load_parks_call Page.listing_error "Failed to load parks" msg ->
  snd (Page.loadParks net st)
  = Page.setParksLoading false (Page.setError (Some msg) st).
Proof.
  intros Hfail.
  destruct (fetch_parks_fails net msg Hfail) as (e & Hrun & <-).
  unfold Page.loadParks. rewrite Hrun. reflexivity.
Qed.

(** X13: when the listing call of [loadParks] fails (it rejects, its body
    cannot be read, or the answer is not [ok]), the dashboard keeps the
    park list and the selection it had, turns loading off and stores the
    failure message as its error; nothing else changes. One call was
    issued. *)
Theorem loadParks_failure_keeps_list (net : Fetch.Network ParksJson.t)
    (st : Page.State) (msg : string) :
  CallFails net load_parks_call Page.listing_error "Failed to load parks" msg ->
  Page.loadParks net st
  = ([Fetch.mkCall "/api/parks" "GET" None None],
     Page.mkState (Page.viewMode st) (Page.parks st) (Page.selectedPark st)
       (Page.startDate st) (Page.daysAhead st) (Page.predictions st)
       (Page.mapPredictions st) (Page.selectedMapDate st)
       false (Page.predictionsLoading st) (Page.mapPredictionsLoading st)
       (Some msg) (Page.warning st)).
Proof.
  intros Hfail.
  destruct (fetch_parks_fails net msg Hfail) as (e & Hrun & <-).
  unfold Page.loadParks. rewrite Hrun. reflexivity.
Qed.

Lemma loadParks_failure_keeps_list_witness :
  Page.loadParks (rejecting_network connection_refused) sample_page
  = ([Fetch.mkCall "/api/parks" "GET" None None],
     Page.mkState Page.map [] None "2025-07-04" (Some 30%Q) None ∅
       "2025-07-05" false false false (Some "fetch failed") None).
Proof.
  exact (loadParks_failure_keeps_list (rejecting_network connection_refused)
           sample_page _
           (call_rejected (rejecting_network connection_refused)
              load_parks_call Page.listing_error "Failed to load parks"
              connection_refused eq_refl)).
Defined.

Lemma find_first_with_model (parks : list Park.t) :
  first_with_model parks (List.find Park.has_model parks).
Proof.
  induction parks as [| park parks IH]; cbn.
  - constructor.
  - destruct (Park.has_model park) eqn:Hm.
    + exists [], parks. auto.
    + destruct (List.find Park.has_model parks) as [found |]; cbn in *.
      * destruct IH as (before & after & -> & Hfound & Hbefore).
        exists (park :: before), after. auto.
      * constructor; assumption.
Qed.

(** X14: when the listing call of [loadParks] succeeds, the dashboard's
    park list becomes the answer's list, error and warning are cleared and
    loading is off. A selection made before is never changed; with no
    selection, the first park of the new list that has a model is
    selected, and none when no park has one. *)
Theorem loadParks_success_selects_first_model
    (net : Fetch.Network ParksJson.t) (st : Page.State)
    (data : ParksJson.t) :
  CallGives net load_parks_call data ->
  exists selected,
    Page.loadParks net st
    = ([Fetch.mkCall "/api/parks" "GET" None None],
       Page.mkState (Page.viewMode st) (Page.parks_or_empty data) selected
         (Page.startDate st) (Page.daysAhead st) (Page.predictions st)
         (Page.mapPredictions st) (Page.selectedMapDate st)
         false (Page.predictionsLoading st) (Page.mapPredictionsLoading st)
         None None)
    /\ (forall park, Page.selectedPark st = Some park -> selected = Some park)
    /\ (Page.selectedPark st = None ->
        first_with_model (Page.parks_or_empty data) selected).
Proof.
  intros Hgives. unfold Page.loadParks.
  rewrite (fetch_parks_gives net data Hgives).
  cbn [Eff.outcome Eff.calls fst snd].
  pose proof (find_first_with_model (Page.parks_or_empty data)) as Hfirst.
  destruct (List.find Park.has_model (Page.parks_or_empty data)) as [found |];
    destruct (Page.selectedPark st) as [chosen |] eqn:Hsel;
    eexists;
    (split; [unfold load_parks_call; cbn; rewrite ?Hsel; reflexivity|]);
    split; intros; cbn; rewrite ?Hsel; congruence || assumption.
Qed.

Lemma loadParks_success_selects_first_model_witness :
  exists selected,
    Page.selectedPark
      (snd (Page.loadParks
              (ApiParks.network sample_env sample_now (fun _ => true)
                 sample_parks_upstream)
              sample_page))
    = selected
    /\ first_with_model
         (List.map ParksRoute.add_coordinates sample_parks) selected.
Proof.
  destruct (loadParks_success_selects_first_model
              (ApiParks.network sample_env sample_now (fun _ => true)
                 sample_parks_upstream)
              sample_page
              (ParksJson.Ok
                 (ParksJson.mkListing
                    (List.map ParksRoute.add_coordinates sample_parks)
                    2 sample_now)))
    as (selected & Hrun & _ & Hfirst).
  { eexists. repeat split; reflexivity. }
  exists selected. split; [rewrite Hrun; reflexivity | exact (Hfirst eq_refl)].
Defined.

Lemma or_string_nonempty (v : option string) (d : string) :
  d <> EmptyString -> Js.or_string v d <> EmptyString.
Proof.
  intros Hd. unfold Js.or_string.
  destruct v as [[| c s] |]; cbn; try assumption. discriminate.
Qed.

(** The listing route's answer: a listing with status 200, or an error
    body with a non-empty message and a status outside 200..299. *)
Lemma GET_answer_cases (env : Env.t) (now : string)
    (net : Fetch.Network (list Park.t)) :
  exists res,
    Eff.outcome (ParksRoute.GET env now net) = inr res
    /\ match NextResponse.body res with
       | ParksJson.Ok _ => NextResponse.status res = 200%Z
       | ParksJson.Error msg =>
           msg <> EmptyString /\ ~ is_2xx (NextResponse.status res)
       end.
Proof.
  rewrite GET_paths. cbn [Eff.outcome snd].
  assert (forall e, exists res,
            Eff.outcome (ParksRoute.on_error e) = inr res
            /\ match NextResponse.body res with
               | ParksJson.Ok _ => NextResponse.status res = 200%Z
               | ParksJson.Error msg =>
                   msg <> EmptyString /\ ~ is_2xx (NextResponse.status res)
               end) as Hcatch.
  { intros e. unfold ParksRoute.on_error, is_2xx.
    repeat case_match; eexists; (split; [reflexivity|]); cbn;
      (split; [discriminate | lia]). }
  destruct (net (parks_call env)) as [e | response]; [apply Hcatch|].
  destruct (Fetch.ok response) eqn:Hok.
  - destruct (Fetch.json response) as [e | parks]; [apply Hcatch|].
    eexists. split; reflexivity.
  - apply not_true_iff_false in Hok. rewrite ok_true in Hok.
    destruct (Fetch.status response >=? 500)%Z eqn:Hst.
    + eexists. split; [reflexivity|]. unfold is_2xx. cbn.
      split; [discriminate | lia].
    + destruct (Fetch.text response) as [e | errorText]; [apply Hcatch|].
      destruct (NextResponse.accepted (Fetch.status response));
        eexists; (split; [reflexivity|]); unfold is_2xx; cbn;
        (split; [discriminate | lia]).
Qed.

(** X15: [loadParks] over the listing route, the call reaching the
    server. When the route answers with an error body (the upstream is
    down, unreachable, slow, or answers with an error of its own) the
    dashboard's error is exactly the route's message and its park list and
    selection stay as they were; when the route answers with a listing the
    dashboard's list is the listing's parks and its error is cleared. *)
Theorem loadParks_through_route (env : Env.t) (now : string)
    (link : Fetch.Call -> bool) (upstream : Fetch.Network (list Park.t))
    (st : Page.State) :
  link (Fetch.mkCall "/api/parks" "GET" None None) = true ->
  exists res,
    Eff.outcome (ParksRoute.GET env now upstream) = inr res
    /\ let st' :=
         snd (Page.loadParks (ApiParks.network env now link upstream) st) in
       match NextResponse.body res with
       | ParksJson.Ok listing =>
           Page.parks st' = ParksJson.parks listing
           /\ Page.error st' = None
       | ParksJson.Error msg =>
           Page.error st' = Some msg
           /\ Page.parks st' = Page.parks st
           /\ Page.selectedPark st' = Page.selectedPark st
       end.
Proof.
  intros Hlink.
  destruct (GET_answer_cases env now upstream) as (res & Hres & Hshape).
  exists res. split; [exact Hres|]. cbn zeta.
  assert (ApiParks.network env now link upstream load_parks_call
          = inr (Fetch.mkResponse (NextResponse.status res)
                   EmptyString (inr EmptyString)
                   (inr (NextResponse.body res))))
    as Hnet.
  { unfold ApiParks.network, load_parks_call. rewrite Hlink. cbn.
    rewrite Hres. reflexivity. }
  destruct (NextResponse.body res) as [msg | listing] eqn:Hbody.
  - destruct Hshape as [Hmsg Hst].
    rewrite (loadParks_failure_state _ st msg); [cbn; auto|].
    assert (CallFails (ApiParks.network env now link upstream)
              load_parks_call Page.listing_error "Failed to load parks"
              (Js.or_string (Page.listing_error (ParksJson.Error msg))
                 "Failed to load parks")) as Hfails.
    { eapply answer_not_ok; [exact Hnet | reflexivity |].
      apply not_true_iff_false. rewrite ok_true. exact Hst. }
    destruct msg; [congruence | exact Hfails].
  - assert (CallGives (ApiParks.network env now link upstream)
              load_parks_call (ParksJson.Ok listing)) as Hgives.
    { eexists. split; [exact Hnet|]. split; [reflexivity|].
      apply ok_true. cbn. rewrite Hshape. lia. }
    unfold Page.loadParks. rewrite (fetch_parks_gives _ _ Hgives).
    cbn [Eff.outcome snd].
    destruct (List.find Park.has_model _); destruct (Page.selectedPark st);
      cbn; auto.
Qed.

Lemma loadParks_through_route_witness :
  exists res,
    Eff.outcome (ParksRoute.GET sample_env sample_now sample_parks_upstream)
    = inr res
    /\ let st' :=
         snd (Page.loadParks
                (ApiParks.network sample_env sample_now (fun _ => true)
                   sample_parks_upstream)
                sample_page) in
       match NextResponse.body res with
       | ParksJson.Ok listing =>
           Page.parks st' = ParksJson.parks listing
           /\ Page.error st' = None
       | ParksJson.Error msg =>
           Page.error st' = Some msg
           /\ Page.parks st' = Page.parks sample_page
           /\ Page.selectedPark st' = Page.selectedPark sample_page
       end.
Proof.
  exact (loadParks_through_route sample_env sample_now (fun _ => true)
           sample_parks_upstream sample_page eq_refl).
Defined.

(** ** The dashboard: [generatePredictions] *)

Lemma fetch_predictions_fails (net : Fetch.Network PredictJson.t)
    (park : Park.t) (st : Page.State) (msg : string) :
  CallFails net (chart_call park st) Page.prediction_error
    "Failed to generate predictions" msg ->
  exists e,
    Page.fetch_predictions net park (Page.startDate st) (Page.daysAhead st)
    = ([chart_call park st], inl e)
    /\ Page.message_or e "Failed to generate predictions" = msg.
Proof.
  unfold Page.fetch_predictions, Eff.bind, Eff.fetch, Eff.await.
  fold (chart_call park st).
  intros [e Hnet | response e Hnet Hjson | response data Hnet Hjson Hok];
    rewrite Hnet; [| rewrite Hjson | rewrite Hjson, Hok]; cbn;
    eexists; (split; [reflexivity|]); reflexivity.
Qed.

Lemma fetch_predictions_gives (net : Fetch.Network PredictJson.t)
    (park : Park.t) (st : Page.State) (data : PredictJson.t) :
  CallGives net (chart_call park st) data ->
  Page.fetch_predictions net park (Page.startDate st) (Page.daysAhead st)
  = ([chart_call park st], inr data).
Proof.
  intros (response & Hnet & Hjson & Hok).
  unfold Page.fetch_predictions, Eff.bind, Eff.fetch, Eff.await.
  fold (chart_call park st). rewrite Hnet, Hjson, Hok. reflexivity.
Qed.

(** The state [generatePredictions] leaves, by the fate of its call. *)
Lemma generatePredictions_failure_state (net : Fetch.Network PredictJson.t)
    (st : Page.State) (park : Park.t) (msg : string) :
  Page.selectedPark st = Some park ->
  CallFails net (chart_call park st) Page.prediction_error
    "Failed to generate predictions" msg ->
  Page.generatePredictions net st
  = ([chart_call park st],
     Page.setPredictionsLoading false
       (Page.setPredictions None (Page.setError (Some msg) st))).
Proof.
  intros Hsel Hfail.
  destruct (fetch_predictions_fails net park st msg Hfail) as (e & Hrun & <-).
  unfold Page.generatePredictions. rewrite Hsel, Hrun. reflexivity.
Qed.

Lemma generatePredictions_success_state (net : Fetch.Network PredictJson.t)
    (st : Page.State) (park : Park.t) (data : PredictJson.t) :
  Page.selectedPark st = Some park ->
  CallGives net (chart_call park st) data ->
  Page.generatePredictions net st
  = ([chart_call park st],
     Page.setPredictionsLoading false
       (Page.setWarning None
          (Page.setPredictions (Some data) (Page.setError None st)))).
Proof.
  intros Hsel Hgives.
  unfold Page.generatePredictions.
  rewrite Hsel, (fetch_predictions_gives net park st data Hgives).
  reflexivity.
Qed.

(** X16: [generatePredictions] does nothing at all without a selected
    park (no call, state untouched). With one it issues exactly one call, a
    [POST] to [/api/predict] of the selection's identifier, the start date
    and the day count. If that call fails the chart's predictions are
    cleared and the failure message becomes the error; if it succeeds the
    answer becomes the predictions, whole, and error and warning are
    cleared. Either way loading ends off and nothing else changes. *)
Theorem generatePredictions_outcomes (net : Fetch.Network PredictJson.t)
    (st : Page.State) :
  (Page.selectedPark st = None -> Page.generatePredictions net st = ([], st))
  /\ (forall park msg,
        Page.selectedPark st = Some park ->
        CallFails net (chart_call park st) Page.prediction_error
          "Failed to generate predictions" msg ->
        Page.generatePredictions net st
        = ([Fetch.mkCall "/api/predict" "POST"
              (Some (PredictionRequest.mk (Some (Park.park_id park))
                       (Some (Page.startDate st)) (Page.daysAhead st)))
              None],
           Page.mkState (Page.viewMode st) (Page.parks st)
             (Page.selectedPark st) (Page.startDate st) (Page.daysAhead st)
             None (Page.mapPredictions st) (Page.selectedMapDate st)
             (Page.parksLoading st) false (Page.mapPredictionsLoading st)
             (Some msg) (Page.warning st)))
  /\ (forall park data,
        Page.selectedPark st = Some park ->
        CallGives net (chart_call park st) data ->
        Page.generatePredictions net st
        = ([Fetch.mkCall "/api/predict" "POST"
              (Some (PredictionRequest.mk (Some (Park.park_id park))
                       (Some (Page.startDate st)) (Page.daysAhead st)))
              None],
           Page.mkState (Page.viewMode st) (Page.parks st)
             (Page.selectedPark st) (Page.startDate st) (Page.daysAhead st)
             (Some data) (Page.mapPredictions st) (Page.selectedMapDate st)
             (Page.parksLoading st) false (Page.mapPredictionsLoading st)
             None None)).
Proof.
  split; [|split].
  - intros Hsel. unfold Page.generatePredictions. rewrite Hsel. reflexivity.
  - intros park msg Hsel Hfail.
    rewrite (generatePredictions_failure_state net st park msg Hsel Hfail).
    reflexivity.
  - intros park data Hsel Hgives.
    rewrite (generatePredictions_success_state net st park data Hsel Hgives).
    reflexivity.
Qed.

(** An error body of the prediction route never has an empty message. *)
Lemma POST_error_nonempty (env : Env.t) (now : string)
    (net : Fetch.Network MLServiceResponse.t)
    (request_json : Js.JsError + PredictionRequest.t)
    (log : list Fetch.Call) (st : Z) (msg : string) :
  PredictRoute.POST env now net request_json
  = (log, inr (NextResponse.mk (PredictJson.Error msg) st)) ->
  msg <> EmptyString.
Proof.
  intros Hrun.
  assert (forall e,
            Eff.outcome (PredictRoute.on_error e)
            = inr (NextResponse.mk (PredictJson.Error msg) st) ->
            msg <> EmptyString) as Hcatch.
  { intros e He. unfold PredictRoute.on_error in He.
    rewrite !respond_accepted in He by reflexivity.
    unfold Eff.ret, Eff.outcome, NextResponse.json in He. cbn [snd] in He.
    repeat case_match; cbn [snd] in He; simplify_eq; discriminate. }
  destruct request_json as [e | body].
  - rewrite POST_unreadable in Hrun. injection Hrun as _ Hrun. eauto.
  - destruct (valid_or_invalid body) as [Hvalid | Hinvalid].
    + rewrite (POST_valid env now net body Hvalid) in Hrun.
      injection Hrun as _ Hrun.
      unfold semantic_failure_answer, success_answer, NextResponse.json,
        NextResponse.json_ok in Hrun.
      repeat case_match; simplify_eq;
        first [ discriminate
              | apply or_string_nonempty; discriminate
              | eauto ].
    + unfold PredictRoute.POST, PredictRoute.POST_try, Eff.try_catch,
        Eff.bind, Eff.await in Hrun.
      rewrite !respond_accepted in Hrun by reflexivity.
      unfold Eff.ret, NextResponse.json in Hrun.
      repeat case_match; simplify_eq; try discriminate;
        destruct Hinvalid; congruence.
Qed.

(** X17: [generatePredictions] over the prediction route, the call
    reaching the server, for a selected park. When the route answers with
    a prediction body the chart's predictions are that body (every point of
    the requested window, not filtered) and the error is cleared; when it
    answers with an error body (a refused request, an upstream failure)
    the predictions are cleared and the error is exactly the route's
    message. *)
Theorem generatePredictions_through_route (env : Env.t) (now : string)
    (link : Fetch.Call -> bool) (upstream : Fetch.Network MLServiceResponse.t)
    (st : Page.State) (park : Park.t) :
  Page.selectedPark st = Some park ->
  link (chart_call park st) = true ->
  exists res,
    Eff.outcome
      (PredictRoute.POST env now upstream
         (inr (PredictionRequest.mk (Some (Park.park_id park))
                 (Some (Page.startDate st)) (Page.daysAhead st))))
    = inr res
    /\ let st' :=
         snd (Page.generatePredictions (Api.network env now link upstream) st)
       in
       match NextResponse.body res with
       | PredictJson.Ok s =>
           Page.predictions st' = Some (PredictJson.Ok s)
           /\ Page.error st' = None
       | PredictJson.Error msg =>
           Page.predictions st' = None /\ Page.error st' = Some msg
       end.
Proof.
  intros Hsel Hlink.
  set (request := PredictionRequest.mk (Some (Park.park_id park))
                    (Some (Page.startDate st)) (Page.daysAhead st)).
  destruct (PredictRoute.POST env now upstream (inr request))
    as [log r] eqn:Hrun.
  destruct (POST_answers env now upstream (inr request)) as [res Hres].
  rewrite Hrun in Hres. cbn [Eff.outcome snd] in Hres. subst r.
  exists res. split; [reflexivity|]. cbn zeta.
  assert (Api.network env now link upstream (chart_call park st)
          = inr (Fetch.mkResponse (NextResponse.status res)
                   EmptyString (inr EmptyString)
                   (inr (NextResponse.body res))))
    as Hnet.
  { unfold Api.network. rewrite Hlink. cbn [negb].
    change (Api.request_json (chart_call park st)) with
      (@inr Js.JsError _ request).
    rewrite Hrun. reflexivity. }
  destruct res as [[msg | s] status].
  - cbn [NextResponse.body NextResponse.status] in *.
    pose proof (POST_error_nonempty _ _ _ _ _ _ _ Hrun) as Hmsg.
    pose proof (POST_Error_status _ _ _ _ _ _ _ Hrun) as Hst.
    rewrite (generatePredictions_failure_state _ st park msg Hsel);
      [cbn; auto|].
    assert (CallFails (Api.network env now link upstream)
              (chart_call park st) Page.prediction_error
              "Failed to generate predictions"
              (Js.or_string (Page.prediction_error (PredictJson.Error msg))
                 "Failed to generate predictions")) as Hfails.
    { eapply answer_not_ok; [exact Hnet | reflexivity |].
      apply not_true_iff_false. rewrite ok_true. exact Hst. }
    destruct msg; [congruence | exact Hfails].
  - cbn [NextResponse.body NextResponse.status] in *.
    rewrite (generatePredictions_success_state _ st park (PredictJson.Ok s)
               Hsel); [cbn; auto|].
    eexists. split; [exact Hnet|]. split; [reflexivity|].
    apply ok_true. cbn.
    apply POST_Ok_inv in Hrun
      as (b & response & ml & ups & _ & _ & _ & _ & _ & _ & _ & Hans).
    unfold success_answer, NextResponse.json_ok in Hans.
    injection Hans as _ ->. lia.
Qed.

Lemma generatePredictions_through_route_witness :
  exists res,
    Eff.outcome
      (PredictRoute.POST sample_env sample_now sample_upstream
         (inr (PredictionRequest.mk (Some "YELL") (Some "2025-07-04")
                 (Some 30%Q))))
    = inr res
    /\ let st' :=
         snd (Page.generatePredictions
                (Api.network sample_env sample_now (fun _ => true)
                   sample_upstream)
                sample_chart_page) in
       match NextResponse.body res with
       | PredictJson.Ok s =>
           Page.predictions st' = Some (PredictJson.Ok s)
           /\ Page.error st' = None
       | PredictJson.Error msg =>
           Page.predictions st' = None /\ Page.error st' = Some msg
       end.
Proof.
  exact (generatePredictions_through_route sample_env sample_now
           (fun _ => true) sample_upstream sample_chart_page yellowstone
           eq_refl eq_refl).
Defined.

(** ** The map component *)

Lemma ge_true (a b : Js.number) : InteractiveMap.ge a b = true <-> (b <= a)%Q.
Proof. apply Qle_bool_iff. Qed.

Lemma ge_false (a b : Js.number) : InteractiveMap.ge a b = false <-> (a < b)%Q.
Proof.
  unfold InteractiveMap.ge. split.
  - intros H. apply Qnot_le_lt. intros Hle. apply Qle_bool_iff in Hle.
    congruence.
  - intros H. destruct (Qle_bool b a) eqn:E; [|reflexivity].
    apply Qle_bool_iff in E. exfalso. apply (Qlt_not_le _ _ H E).
Qed.

Lemma gt_true (a b : Js.number) : Js.gt a b = true <-> (b < a)%Q.
Proof. unfold Js.gt. apply lt_true. Qed.

Lemma gt_false (a b : Js.number) : Js.gt a b = false <-> (a <= b)%Q.
Proof. unfold Js.gt. apply lt_false. Qed.

Ltac split_comparisons :=
  repeat match goal with
         | |- context [InteractiveMap.ge ?a ?b] =>
             let H := fresh "Hge" in
             destruct (InteractiveMap.ge a b) eqn:H;
             [apply ge_true in H | apply ge_false in H]; cbv iota
         | |- context [Js.gt ?a ?b] =>
             let H := fresh "Hgt" in
             destruct (Js.gt a b) eqn:H;
             [apply gt_true in H | apply gt_false in H]; cbv iota
         end.

(** X18: the marker of a park with a prediction body. Its colour is the
    colour of its level; the level is read off the day's visitors with the
    bounds 4000, 2500, 1500 and 500 counted in ([>=]), very low below 500
    (negative numbers included); the size is read off the same bounds
    counted out ([>]): 40, 36, 32, 28 and 24. At a bound the two disagree: a
    park with 4000 visitors has the colour of very high and the size 36. *)
Theorem marker_level_and_size (s : PredictJson.Success) (selectedDate : string) :
  let d := InteractiveMap.visitorData (Some (PredictJson.Ok s)) selectedDate in
  let v := InteractiveMap.visitors d in
  InteractiveMap.markerColor d = VisitorLevel.color (InteractiveMap.level d)
  /\ ((4000 <= v -> InteractiveMap.level d = InteractiveMap.very_high)
      /\ (2500 <= v < 4000 -> InteractiveMap.level d = InteractiveMap.high)
      /\ (1500 <= v < 2500 -> InteractiveMap.level d = InteractiveMap.medium)
      /\ (500 <= v < 1500 -> InteractiveMap.level d = InteractiveMap.low)
      /\ (v < 500 -> InteractiveMap.level d = InteractiveMap.very_low))%Q
  /\ ((4000 < v -> InteractiveMap.iconSize d = 40)
      /\ (2500 < v <= 4000 -> InteractiveMap.iconSize d = 36)
      /\ (1500 < v <= 2500 -> InteractiveMap.iconSize d = 32)
      /\ (500 < v <= 1500 -> InteractiveMap.iconSize d = 28)
      /\ (v <= 500 -> InteractiveMap.iconSize d = 24))%Q.
Proof.
  unfold InteractiveMap.visitorData. cbn zeta.
  cbn [InteractiveMap.visitors InteractiveMap.level InteractiveMap.markerColor
         InteractiveMap.iconSize].
  generalize (InteractiveMap.or_number
                (PredictionPoint.yhat <$>
                 InteractiveMap.dayPrediction_of (PredictJson.response_data s)
                   selectedDate) 0%Q).
  intros v.
  split; [reflexivity|].
  unfold InteractiveMap.VISITOR_LEVELS.
  cbn [find nth VisitorLevel.min InteractiveMap.very_high InteractiveMap.high
         InteractiveMap.medium InteractiveMap.low InteractiveMap.very_low].
  split.
  - split_comparisons; repeat split; intros;
      first [reflexivity | exfalso; lra].
  - split_comparisons; repeat split; intros;
      first [reflexivity | exfalso; lra].
Qed.

Lemma find_filter {A : Type} (f : A -> bool) (l : list A) :
  List.find f (List.filter f l) = List.find f l.
Proof.
  induction l as [| a l IH]; [reflexivity|].
  cbn. destruct (f a) eqn:Hf; cbn; rewrite ?Hf; [reflexivity | exact IH].
Qed.

(** X19: [loadMapPredictions] stores each answer with its predictions cut
    down to the selected date; the marker and the popup drawn from the cut
    answer are those the whole answer would have given for that date. *)
Theorem marker_unaffected_by_date_filter (data : PredictJson.t)
    (selectedDate : string) :
  InteractiveMap.visitorData
    (Some (Dashboard.keep_selected selectedDate data)) selectedDate
  = InteractiveMap.visitorData (Some data) selectedDate
  /\ InteractiveMap.popup
       (Some (Dashboard.keep_selected selectedDate data)) selectedDate
     = InteractiveMap.popup (Some data) selectedDate.
Proof.
  destruct data as [msg | s]; [split; reflexivity|].
  unfold InteractiveMap.visitorData, InteractiveMap.popup,
    InteractiveMap.dayPrediction_of, Dashboard.keep_selected.
  cbn [PredictJson.response_data PredictionResponse.predictions
         PredictionResponse.confidence_level].
  rewrite find_filter. split; reflexivity.
Qed.

(** X20: a park none of whose calls succeeded (every park of the list with
    its identifier and a model has a failed call; a park without a model,
    or one that is not in the list, is the case with nothing to check), in
    a run in which no answer was assigned under [__proto__] either. Its
    marker is the grey one of size 25 with very low level, 0 visitors and
    0 confidence. If its identifier is not a name that [Object.prototype]
    defines, [predictions[park.park_id]] is undefined and the popup is the
    one that reads that no forecasting model is available: a failed call
    of a park with a model is not told apart from a park without a model.
    If its identifier is such a name ([constructor], [toString], ...) the
    value read is an inherited method, which is truthy, and the popup is
    the one for a date without prediction. *)
Theorem absent_entry_reads_model_not_available
    (net : Fetch.Network PredictJson.t) (parks : list Park.t)
    (selectedDate : string) (st : Dashboard.State) (park : Park.t) :
  (forall p,
     p ∈ parks ->
     Park.has_model p = true ->
     Park.park_id p = Park.park_id park
     \/ Park.park_id p = PlainObject.proto_key ->
     ~ call_succeeds net selectedDate p) ->
  let predictions :=
    Dashboard.mapPredictions
      (snd (Dashboard.loadMapPredictions net parks selectedDate st)) in
  let prediction := InteractiveMap.prediction_of predictions park in
  InteractiveMap.visitorData_of prediction selectedDate
  = Some (InteractiveMap.mkVisitorData InteractiveMap.very_low 0%Q 0%Q
            "#6B7280" 25%Q)
  /\ (Park.park_id park
      ∉ PlainObject.proto_key :: PlainObject.object_prototype_methods ->
      prediction = PlainObject.undefined
      /\ InteractiveMap.popup_of prediction selectedDate
         = Some InteractiveMap.ModelNotAvailable)
  /\ (Park.park_id park
      ∈ PlainObject.proto_key :: PlainObject.object_prototype_methods ->
      prediction = PlainObject.builtin
      /\ InteractiveMap.popup_of prediction selectedDate
         = Some InteractiveMap.NoPredictionForDate).
Proof.
  intros Hfail. cbn zeta. rewrite loadMapPredictions_settles.
  cbn [snd Dashboard.mapPredictions].
  set (m := Dashboard.collect _).
  assert (forall k,
            k = Park.park_id park \/ k = PlainObject.proto_key ->
            m !! k = None) as Hnone.
  { intros k Hk. destruct (m !! k) as [data |] eqn:Hlookup; [|reflexivity].
    exfalso.
    apply collect_lookup_Some, list_elem_of_In, in_map_iff in Hlookup
      as (p & Hs & Hin).
    apply filter_In in Hin as [Hin Hmodel].
    pose proof (settled_park_id _ _ _ _ _ Hs) as Hid.
    apply (Hfail p).
    - apply list_elem_of_In, Hin.
    - exact Hmodel.
    - rewrite <- Hid. exact Hk.
    - apply settled_is_Some. rewrite Hs. eauto. }
  unfold InteractiveMap.prediction_of, PlainObject.get,
    PlainObject.prototype, PlainObject.own.
  rewrite (Hnone PlainObject.proto_key) by (right; reflexivity).
  destruct (String.eqb_spec (Park.park_id park) PlainObject.proto_key)
    as [Heq | Hne].
  - split; [reflexivity|]. split.
    + intros Hout. exfalso. apply Hout. rewrite Heq. apply list_elem_of_here.
    + intros _. split; reflexivity.
  - rewrite lookup_delete_ne by congruence.
    rewrite (Hnone (Park.park_id park)) by (left; reflexivity).
    destruct (bool_decide_reflect
                (Park.park_id park ∈ PlainObject.object_prototype_methods))
      as [Hin | Hout].
    + split; [reflexivity|]. split.
      * intros Hno. exfalso. apply Hno, list_elem_of_further, Hin.
      * intros _. split; reflexivity.
    + split; [reflexivity|]. split.
      * intros _. split; reflexivity.
      * intros Hin. exfalso. apply elem_of_cons in Hin as [Heq | Hin];
          [exact (Hne Heq) | exact (Hout Hin)].
Qed.

Lemma absent_entry_reads_model_not_available_witness :
  InteractiveMap.popup_of
    (InteractiveMap.prediction_of
       (Dashboard.mapPredictions
          (snd (Dashboard.loadMapPredictions
                  (rejecting_network connection_refused) sample_parks
                  "2025-07-05" initial_state)))
       yellowstone)
    "2025-07-05"
  = Some InteractiveMap.ModelNotAvailable.
Proof.
  refine (proj2 (proj1 (proj2 (absent_entry_reads_model_not_available
                   (rejecting_network connection_refused) sample_parks
                   "2025-07-05" initial_state yellowstone _)) _)).
  - intros p _ _ _ (response & data & Hcall & _). discriminate Hcall.
  - unfold PlainObject.object_prototype_methods.
    repeat (apply not_elem_of_cons; split; [discriminate|]).
    apply not_elem_of_nil.
Defined.

(** Reading back what was assigned. *)
Lemma get_stored {V : Type} (o : PlainObject.t V) (k : string) (v : V) :
  o !! k = Some v -> PlainObject.get o k = PlainObject.stored v.
Proof.
  intros H. unfold PlainObject.get, PlainObject.prototype, PlainObject.own.
  destruct (String.eqb_spec k PlainObject.proto_key) as [-> | Hne].
  - rewrite H. reflexivity.
  - rewrite lookup_delete_ne by congruence. rewrite H. reflexivity.
Qed.

(** X27: a park with a model whose call succeeded, and after which no park
    of the same identifier succeeded, is drawn from its own answer: the
    prop the map passes to its marker is that answer restricted to the
    selected date, and marker and popup are those of the answer as it was
    received. This holds for every identifier, the names that
    [Object.prototype] defines and [__proto__] included. *)
Theorem successful_park_marker (net : Fetch.Network PredictJson.t)
    (parks : list Park.t) (selectedDate : string) (st : Dashboard.State)
    (before : list Park.t) (park : Park.t) (after : list Park.t)
    (body : PredictJson.t) :
  List.filter Park.has_model parks = (before ++ park :: after)%list ->
  call_gives net selectedDate park body ->
  Forall (fun later =>
            Park.park_id later = Park.park_id park ->
            ~ call_succeeds net selectedDate later) after ->
  let predictions :=
    Dashboard.mapPredictions
      (snd (Dashboard.loadMapPredictions net parks selectedDate st)) in
  let prediction := InteractiveMap.prediction_of predictions park in
  (exists data,
     prediction = PlainObject.stored data
     /\ restricted_to selectedDate body data)
  /\ InteractiveMap.visitorData_of prediction selectedDate
     = Some (InteractiveMap.visitorData (Some body) selectedDate)
  /\ InteractiveMap.popup_of prediction selectedDate
     = Some (InteractiveMap.popup (Some body) selectedDate).
Proof.
  intros Hsplit Hgives Hafter. cbn zeta.
  rewrite loadMapPredictions_settles. cbn [snd Dashboard.mapPredictions].
  unfold InteractiveMap.prediction_of.
  rewrite (get_stored _ _ _
             (last_success_stays net selectedDate _ before park after body
                Hsplit Hgives Hafter)).
  split; [eexists; split; [reflexivity | apply keep_selected_restricted]|].
  cbn [InteractiveMap.visitorData_of InteractiveMap.popup_of].
  destruct body as [msg | s]; [split; reflexivity|].
  unfold InteractiveMap.visitorData, InteractiveMap.popup,
    InteractiveMap.dayPrediction_of, Dashboard.keep_selected.
  cbn [PredictJson.response_data PredictionResponse.predictions
         PredictionResponse.confidence_level].
  rewrite find_filter. split; reflexivity.
Qed.

Lemma successful_park_marker_witness :
  InteractiveMap.popup_of
    (InteractiveMap.prediction_of
       (Dashboard.mapPredictions
          (snd (Dashboard.loadMapPredictions prototype_network
                  [prototype_park] "2025-07-05" initial_state)))
       prototype_park)
    "2025-07-05"
  = Some (InteractiveMap.Forecast
            (PredictionPoint.mk "2025-07-05" 1200%Q 900%Q 1500%Q
               None None None)).
Proof.
  refine (proj2 (proj2 (successful_park_marker prototype_network
                          [prototype_park] "2025-07-05" initial_state
                          [] prototype_park [] prototype_answer
                          eq_refl _ _))).
  - eexists. repeat split; reflexivity.
  - constructor.
Defined.

Lemma Math_round_zero (x : Js.number) :
  InteractiveMap.Math_round x = 0%Z <-> (- (1 # 2) <= x < 1 # 2)%Q.
Proof.
  unfold InteractiveMap.Math_round.
  pose proof (Qfloor_le (x + (1 # 2))) as Hlo.
  pose proof (Qlt_floor (x + (1 # 2))) as Hhi.
  split.
  - intros H. rewrite H in Hlo, Hhi.
    change (inject_Z 0) with 0%Q in Hlo.
    change (inject_Z (0 + 1)) with 1%Q in Hhi. lra.
  - intros [H1 H2].
    assert (Qfloor (x + (1 # 2)) < 1)%Z as Ha.
    { rewrite Zlt_Qlt. change (inject_Z 1) with 1%Q. lra. }
    assert (0 < Qfloor (x + (1 # 2)) + 1)%Z as Hb.
    { rewrite Zlt_Qlt. change (inject_Z 0) with 0%Q. lra. }
    lia.
Qed.

(** X21: the text of a marker, for a number of visitors of at most 10^15
    in magnitude. From -500 (included) to 500 (excluded) visitors the
    rounded thousands are 0, which is falsy, and the text is [?K]; outside
    that interval the rounded thousands are not 0 and the text is their
    decimal writing followed by [K]. *)
Theorem marker_label_question_mark (visitors : Js.number) :
  ((-500 <= visitors < 500)%Q ->
   InteractiveMap.marker_label visitors = Some "?K")
  /\ ((- InteractiveMap.label_limit <= visitors < -500
       \/ 500 <= visitors <= InteractiveMap.label_limit)%Q ->
      InteractiveMap.Math_round (visitors / 1000)%Q <> 0%Z
      /\ InteractiveMap.marker_label visitors
         = Some (pretty (InteractiveMap.Math_round (visitors / 1000)%Q)
                 ++ "K")).
Proof.
  pose proof (Math_round_zero (visitors / 1000)%Q) as Hz.
  assert ((- (1 # 2) <= visitors / 1000 < 1 # 2)%Q
          <-> (-500 <= visitors < 500)%Q) as Hscale.
  { split; intros [H1 H2]; split.
    - apply (Qmult_le_r _ _ 1000) in H1; [|reflexivity].
      field_simplify in H1. lra.
    - apply (Qmult_lt_r _ _ 1000) in H2; [|reflexivity].
      field_simplify in H2. lra.
    - apply (Qmult_le_r _ _ 1000); [reflexivity|]. field_simplify. lra.
    - apply (Qmult_lt_r _ _ 1000); [reflexivity|]. field_simplify. lra. }
  rewrite Hscale in Hz.
  assert ((- InteractiveMap.label_limit <= visitors
           <= InteractiveMap.label_limit)%Q ->
          InteractiveMap.marker_label visitors
          = Some ((if (InteractiveMap.Math_round (visitors / 1000)%Q =? 0)%Z
                   then "?"
                   else pretty (InteractiveMap.Math_round
                                  (visitors / 1000)%Q))
                  ++ "K")) as Hlabel.
  { intros [Hlo Hhi]. unfold InteractiveMap.marker_label.
    apply Qle_bool_iff in Hlo, Hhi. rewrite Hlo, Hhi. reflexivity. }
  assert (- InteractiveMap.label_limit <= -500
          /\ 500 <= InteractiveMap.label_limit)%Q as [Hlow Hhigh].
  { split; discriminate. }
  split.
  - intros Hin. rewrite Hlabel by (split; lra).
    apply Hz in Hin. rewrite Hin. reflexivity.
  - intros Hout.
    assert (InteractiveMap.Math_round (visitors / 1000)%Q <> 0%Z) as Hne.
    { intros H. apply Hz in H. lra. }
    split; [exact Hne|].
    rewrite Hlabel by (split; lra).
    apply Z.eqb_neq in Hne. rewrite Hne. reflexivity.
Qed.

Lemma table_lookup_entry (k : string) (c : Coordinates.t) :
  ParkCoordinates.PARK_COORDINATES !! k = Some c ->
  In (k, c) ParkCoordinates.entries.
Proof.
  unfold ParkCoordinates.PARK_COORDINATES.
  assert (forall (l : list (string * Coordinates.t))
                 (m : gmap string Coordinates.t),
            fold_left (fun m kv => <[kv.1 := kv.2]> m) l m !! k = Some c ->
            m !! k = Some c \/ In (k, c) l) as Hfold.
  { induction l as [| [k' c'] l IH]; intros m H; [left; exact H|].
    cbn [fold_left] in H. apply IH in H as [H | H]; [|right; right; exact H].
    cbn [fst snd] in H.
    destruct (decide (k' = k)) as [-> | Hne].
    - rewrite lookup_insert_eq in H. injection H as ->. right. left.
      reflexivity.
    - rewrite lookup_insert_ne in H by exact Hne. left. exact H. }
  intros H. apply Hfold in H as [H | H]; [|exact H].
  rewrite lookup_empty in H. discriminate H.
Qed.

Lemma table_coordinates_truthy (k : string) (c : Coordinates.t) :
  ParkCoordinates.PARK_COORDINATES !! k = Some c ->
  Js.truthy_number (Coordinates.lat c)
  && Js.truthy_number (Coordinates.lng c) = true.
Proof.
  intros H. apply table_lookup_entry in H.
  assert (forall kv, In kv ParkCoordinates.entries ->
            Js.truthy_number (Coordinates.lat kv.2)
            && Js.truthy_number (Coordinates.lng kv.2) = true) as Hall.
  { apply forallb_forall. vm_compute. reflexivity. }
  exact (Hall (k, c) H).
Qed.

Lemma add_coordinates_position (park : Park.t) :
  InteractiveMap.has_position (ParksRoute.add_coordinates park) = true
  <-> is_Some (ParkCoordinates.PARK_COORDINATES !! Park.park_id park).
Proof.
  unfold InteractiveMap.has_position, ParksRoute.add_coordinates,
    ParkCoordinates.lookup_lat, ParkCoordinates.lookup_lng.
  cbn [Park.latitude Park.longitude].
  destruct (ParkCoordinates.PARK_COORDINATES !! Park.park_id park)
    as [c |] eqn:Hc; cbn.
  - split; [eauto|]. intros _. exact (table_coordinates_truthy _ _ Hc).
  - split; [discriminate | intros [? ?]; discriminate].
Qed.

(** X22: over a listing the parks route answered from a readable upstream
    answer, the parks the map plots are those of the listing whose id is a
    key of [PARK_COORDINATES]: no entry of the table has a 0 coordinate, and
    the route never passes on a coordinate of the upstream. A park of the
    upstream whose id is not in the table is never plotted, whatever
    coordinates the upstream gave it. *)
Theorem plotted_iff_in_table (env : Env.t) (now : string)
    (net : Fetch.Network (list Park.t))
    (response : Fetch.Response (list Park.t)) (parks : list Park.t) :
  net (parks_call env) = inr response ->
  Fetch.ok response = true ->
  Fetch.json response = inr parks ->
  exists listing,
    Eff.outcome (ParksRoute.GET env now net)
    = inr (NextResponse.json_ok (ParksJson.Ok listing))
    /\ (forall park,
          park ∈ InteractiveMap.parksWithCoordinates (ParksJson.parks listing)
          <-> park ∈ ParksJson.parks listing
              /\ is_Some (ParkCoordinates.PARK_COORDINATES
                            !! Park.park_id park))
    /\ (forall upstream_park,
          upstream_park ∈ parks ->
          ParkCoordinates.PARK_COORDINATES !! Park.park_id upstream_park
          = None ->
          forall park,
            park ∈ InteractiveMap.parksWithCoordinates
                     (ParksJson.parks listing) ->
            Park.park_id park <> Park.park_id upstream_park).
Proof.
  intros Hnet Hok Hjson.
  rewrite (GET_success env now net response parks Hnet Hok Hjson).
  eexists. split; [reflexivity|]. cbn [ParksJson.parks].
  assert (forall park,
            park ∈ InteractiveMap.parksWithCoordinates
                     (List.map ParksRoute.add_coordinates parks)
            <-> park ∈ List.map ParksRoute.add_coordinates parks
                /\ is_Some (ParkCoordinates.PARK_COORDINATES
                              !! Park.park_id park)) as Hiff.
  { intros park. unfold InteractiveMap.parksWithCoordinates.
    rewrite !list_elem_of_In, filter_In, in_map_iff. split.
    - intros [(p & <- & Hin) Hpos]. split; [eauto|].
      apply add_coordinates_position in Hpos. exact Hpos.
    - intros [(p & <- & Hin) Hk]. split; [eauto|].
      apply add_coordinates_position. exact Hk. }
  split; [exact Hiff|].
  intros up _ Hnone park Hin Heq.
  apply Hiff in Hin as [_ [c Hc]]. rewrite Heq in Hc. congruence.
Qed.

Lemma plotted_iff_in_table_witness :
  exists listing,
    Eff.outcome (ParksRoute.GET sample_env sample_now sample_parks_upstream)
    = inr (NextResponse.json_ok (ParksJson.Ok listing))
    /\ (forall park,
          park ∈ InteractiveMap.parksWithCoordinates (ParksJson.parks listing)
          <-> park ∈ ParksJson.parks listing
              /\ is_Some (ParkCoordinates.PARK_COORDINATES
                          !! Park.park_id park)).
Proof.
  destruct (plotted_iff_in_table sample_env sample_now sample_parks_upstream
              _ sample_parks eq_refl eq_refl eq_refl)
    as (listing & Hanswer & Hplotted & _).
  exists listing. split; [exact Hanswer | exact Hplotted].
Defined.

Lemma translated_point_has_no_extras (ups : list MLServicePrediction.t)
    (f : PredictionPoint.t -> bool) (p : PredictionPoint.t) :
  List.find f (List.map PredictRoute.translate ups) = Some p ->
  PredictionPoint.temperature_high p = None
  /\ PredictionPoint.weather_condition p = None
  /\ PredictionPoint.confidence_level p = None.
Proof.
  intros H. apply find_some in H as [Hin _].
  apply in_map_iff in Hin as (up & <- & _). repeat split.
Qed.

(** X23: over the prediction route, every entry of the map set after
    [loadMapPredictions] gives the confidence 80 to its marker, whatever the
    upstream said; a popup that shows a forecast shows the point of the
    selected date, and that point has neither a temperature nor a weather
    condition (the popup falls back on its defaults). *)
Theorem map_popups_show_fixed_confidence (env : Env.t) (now : string)
    (link : Fetch.Call -> bool) (upstream : Fetch.Network MLServiceResponse.t)
    (parks : list Park.t) (selectedDate : string) (st : Dashboard.State)
    (k : string) (data : PredictJson.t) :
  Dashboard.mapPredictions
    (snd (Dashboard.loadMapPredictions
            (Api.network env now link upstream) parks selectedDate st))
  !! k = Some data ->
  InteractiveMap.confidence
    (InteractiveMap.visitorData (Some data) selectedDate) = 80%Q
  /\ forall p,
       InteractiveMap.popup (Some data) selectedDate = InteractiveMap.Forecast p ->
       PredictionPoint.ds p = selectedDate
       /\ PredictionPoint.temperature_high p = None
       /\ PredictionPoint.weather_condition p = None.
Proof.
  rewrite loadMapPredictions_settles. cbn [snd Dashboard.mapPredictions].
  intros Hk.
  apply collect_lookup_Some, list_elem_of_In, in_map_iff in Hk
    as (park & Hs & _).
  unfold settled in Hs.
  destruct (Api.network env now link upstream (map_call selectedDate park))
    as [e | response] eqn:Hnet; [discriminate Hs|].
  destruct (Fetch.ok response) eqn:Hok; [|discriminate Hs].
  destruct (Fetch.json response) as [e | data0] eqn:Hjson; [discriminate Hs|].
  injection Hs as _ <-.
  destruct (network_ok_inv _ _ _ _ _ _ _ Hnet Hok Hjson)
    as (body & up & ml & ups & _ & _ & _ & ->).
  unfold InteractiveMap.visitorData, InteractiveMap.popup,
    InteractiveMap.dayPrediction_of, Dashboard.keep_selected, success_answer.
  cbn [NextResponse.body NextResponse.json_ok PredictJson.response_data
         PredictionResponse.predictions PredictionResponse.confidence_level
         InteractiveMap.confidence].
  rewrite find_filter.
  destruct (List.find _ (List.map PredictRoute.translate ups))
    as [found |] eqn:Hfind.
  - destruct (translated_point_has_no_extras _ _ _ Hfind) as (Ht & Hw & Hc).
    cbn [mbind option_bind]. rewrite Hc. split; [reflexivity|].
    intros p Hp. injection Hp as <-.
    apply find_some in Hfind as [_ Hds]. apply String.eqb_eq in Hds. auto.
  - split; [reflexivity|]. intros p Hp. discriminate Hp.
Qed.

Lemma map_popups_show_fixed_confidence_witness :
  exists data,
    Dashboard.mapPredictions
      (snd (Dashboard.loadMapPredictions
              (Api.network sample_env sample_now (fun _ => true)
                 sample_upstream)
              sample_parks "2025-07-05" initial_state))
    !! "YELL" = Some data
    /\ InteractiveMap.confidence
         (InteractiveMap.visitorData (Some data) "2025-07-05") = 80%Q.
Proof.
  destruct (Dashboard.mapPredictions
              (snd (Dashboard.loadMapPredictions
                      (Api.network sample_env sample_now (fun _ => true)
                         sample_upstream)
                      sample_parks "2025-07-05" initial_state))
            !! "YELL") as [data |] eqn:Hentry;
    [| vm_compute in Hentry; discriminate Hentry].
  exists data. split; [reflexivity|].
  exact (proj1 (map_popups_show_fixed_confidence sample_env sample_now
                  (fun _ => true) sample_upstream sample_parks "2025-07-05"
                  initial_state "YELL" data Hentry)).
Defined.

(** X24: the centre of the map for a selection taken from a listing the
    parks route answered: the coordinates the table has for the park's id,
    and the geographic centre of the United States for a park whose id is
    not in the table, which is also the centre without a selection. *)
Theorem mapCenter_of_listed_park (env : Env.t) (now : string)
    (net : Fetch.Network (list Park.t))
    (response : Fetch.Response (list Park.t)) (parks : list Park.t) :
  net (parks_call env) = inr response ->
  Fetch.ok response = true ->
  Fetch.json response = inr parks ->
  exists listing,
    Eff.outcome (ParksRoute.GET env now net)
    = inr (NextResponse.json_ok (ParksJson.Ok listing))
    /\ forall park,
         park ∈ ParksJson.parks listing ->
         InteractiveMap.mapCenter (Some park)
         = match ParkCoordinates.PARK_COORDINATES !! Park.park_id park with
           | Some c => (Coordinates.lat c, Coordinates.lng c)
           | None => InteractiveMap.mapCenter None
           end.
Proof.
  intros Hnet Hok Hjson.
  rewrite (GET_success env now net response parks Hnet Hok Hjson).
  eexists. split; [reflexivity|]. cbn [ParksJson.parks].
  intros park Hin.
  apply list_elem_of_In, in_map_iff in Hin as (p & <- & _).
  unfold InteractiveMap.mapCenter, ParksRoute.add_coordinates,
    ParkCoordinates.lookup_lat, ParkCoordinates.lookup_lng.
  cbn [Park.latitude Park.longitude Park.park_id].
  destruct (ParkCoordinates.PARK_COORDINATES !! Park.park_id p)
    as [c |] eqn:Hc; cbn [fmap option_fmap option_map]; [|reflexivity].
  rewrite (table_coordinates_truthy _ _ Hc). reflexivity.
Qed.

Lemma mapCenter_of_listed_park_witness :
  exists listing,
    Eff.outcome (ParksRoute.GET sample_env sample_now sample_parks_upstream)
    = inr (NextResponse.json_ok (ParksJson.Ok listing))
    /\ (ParksRoute.add_coordinates yellowstone ∈ ParksJson.parks listing ->
        InteractiveMap.mapCenter (Some (ParksRoute.add_coordinates yellowstone))
        = (44.428, -110.588)%Q).
Proof.
  destruct (mapCenter_of_listed_park sample_env sample_now
              sample_parks_upstream _ sample_parks eq_refl eq_refl eq_refl)
    as (listing & Hanswer & Hcentre).
  exists listing. split; [exact Hanswer|].
  intros Hin. rewrite (Hcentre _ Hin). vm_compute. reflexivity.
Defined.
